(** * publishctl: the reconciler of [bin/publishctl.py], embedded in Rocq

    The program loads a YAML manifest into a Python dict and converges the
    host to it: it renders templates, writes files through [write_file],
    and runs external commands through [Sh.run].

    The embedding keeps the shape of the Python code:
    - manifest data is a JSON-like [value]; a dict is an association list
      in insertion order, and every subscript, [.get], [in] and string
      operation fails with the exception Python raises;
    - effectful code lives in the monad [M]: it threads a [World] (the
      files and directories of the host and the state of its external
      services), collects the [event]s it issues, and stops at the first
      exception, leaving the world as far as it got (Python has no
      rollback);
    - what the program only calls (jinja2, the YAML parser, the commands
      it spawns, the HTTP probe, [int] and [repr]) is a field of the
      record [Ext], so every statement holds for all behaviours of these
      collaborators, and concrete ones can be plugged in to run the model. *)

From Stdlib Require Import ZArith Ascii String List Lia.
From stdpp Require Import base gmap strings list pretty sorting.

Set Warnings "-register-all".
Open Scope string_scope.
Open Scope list_scope.
Open Scope Z_scope.

(** ** Python values and exceptions *)

Inductive value : Type :=
| VNone
| VBool (b : bool)
| VInt (z : Z)
| VStr (s : string)
| VList (l : list value)
| VDict (d : list (string * value)).

(** A dict, as [yaml.safe_load] builds it for a mapping with string keys.
    (Floats and dates, which YAML can also produce, play no part in the
    program and are left out of [value].) *)
Abbreviation dict := (list (string * value)).

Inductive exn : Type :=
| KeyError (key : string)
| TypeError
| AttributeError
| ValueError
| UnboundLocalError (var : string)
| CalledProcessError (argv : list string) (rc : Z)
| LaunchError (argv : list string)
| FileExistsError (path : string)
| FileNotFoundError (path : string)
| NotADirectoryError (path : string)
| IsADirectoryError (path : string)
| TemplateError (name : string)
| YAMLError
| Exit (code : Z).

Inductive res (A : Type) : Type :=
| Ok (a : A)
| Err (e : exn).
Arguments Ok {A} a.
Arguments Err {A} e.

Definition rbind {A B} (r : res A) (f : A -> res B) : res B :=
  match r with
  | Ok a => f a
  | Err e => Err e
  end.

Declare Scope res_scope.
Delimit Scope res_scope with res.
Notation "'let?' x := r 'in' k" := (rbind r (fun x => k))
  (at level 10, x name, r at level 100, k at level 200) : res_scope.

(** The exit status of the process: [typer.Exit(n)] exits with [n], any
    other uncaught exception ends the interpreter with status 1. *)
Definition exit_code {A} (r : res A) : Z :=
  match r with
  | Ok _ => 0
  | Err (Exit n) => n
  | Err _ => 1
  end.

(** ** Dict and value operations *)

Fixpoint dict_get (k : string) (d : dict) : option value :=
  match d with
  | [] => None
  | (k', v) :: d' => if String.eqb k k' then Some v else dict_get k d'
  end.

(** [d[k] = v]: an existing key keeps its position, a new one goes last. *)
Fixpoint dict_set (k : string) (v : value) (d : dict) : dict :=
  match d with
  | [] => [(k, v)]
  | (k', v') :: d' =>
      if String.eqb k k' then (k, v) :: d' else (k', v') :: dict_set k v d'
  end.

(** [k in d] *)
Definition dict_has (k : string) (d : dict) : bool :=
  match dict_get k d with
  | Some _ => true
  | None => false
  end.

(** [d[k]] on a dict *)
Definition dict_item (k : string) (d : dict) : res value :=
  match dict_get k d with
  | Some v => Ok v
  | None => Err (KeyError k)
  end.

(** [d.get(k, dflt)] on a dict *)
Definition dict_get_or (k : string) (dflt : value) (d : dict) : value :=
  match dict_get k d with
  | Some v => v
  | None => dflt
  end.

(** [v[k]] for a string key [k]: only a dict accepts it. *)
Definition item (k : string) (v : value) : res value :=
  match v with
  | VDict d => dict_item k d
  | _ => Err TypeError
  end.

(** [v.get(k, dflt)]: only a dict has the method. *)
Definition get_or (k : string) (dflt : value) (v : value) : res value :=
  match v with
  | VDict d => Ok (dict_get_or k dflt d)
  | _ => Err AttributeError
  end.

(** [v[k] = x] for a string key [k]. *)
Definition set_item (k : string) (x : value) (v : value) : res value :=
  match v with
  | VDict d => Ok (VDict (dict_set k x d))
  | _ => Err TypeError
  end.

(** Truth value of [if v:] *)
Definition truthy (v : value) : bool :=
  match v with
  | VNone => false
  | VBool b => b
  | VInt z => negb (z =? 0)
  | VStr s => negb (String.eqb s "")
  | VList l => match l with [] => false | _ => true end
  | VDict d => match d with [] => false | _ => true end
  end.

(** [v == 'lit'] for a string literal *)
Definition eq_str (v : value) (lit : string) : bool :=
  match v with
  | VStr s => String.eqb s lit
  | _ => false
  end.

(** A value that has to be a [str] for the operation applied to it
    ([+] with a str, [Path(...)], an element of [' '.join]). *)
Definition as_str (v : value) : res string :=
  match v with
  | VStr s => Ok s
  | _ => Err TypeError
  end.

(** [for x in v]: a list yields its items, a str its characters, a dict
    its keys; nothing else is iterable. *)
Definition iter (v : value) : res (list value) :=
  match v with
  | VList l => Ok l
  | VStr s => Ok (map (fun c => VStr (String c "")) (list_ascii_of_string s))
  | VDict d => Ok (map (fun kv => VStr (fst kv)) d)
  | _ => Err TypeError
  end.

(** ** Strings *)

(** [s.split(sep)] for a one-character separator. *)
Fixpoint split_on (sep : ascii) (s : string) : list string :=
  match s with
  | "" => [""]
  | String c s' =>
      if Ascii.eqb c sep then "" :: split_on sep s'
      else match split_on sep s' with
           | [] => [String c ""]
           | w :: ws => String c w :: ws
           end
  end.

(** [s.split('.', 1)]: [None] when [s] has no dot, else what follows the
    first one. *)
Fixpoint after_dot (s : string) : option string :=
  match s with
  | "" => None
  | String c s' => if Ascii.eqb c "."%char then Some s' else after_dot s'
  end.

(** [s.split('.', 1)[-1]] *)
Definition after_first_dot (s : string) : string :=
  match after_dot s with
  | Some r => r
  | None => s
  end.

(** ** Paths

    A [pathlib.Path] is modelled by its string, taken to be in normal
    form (no doubled or trailing slash, no dot component), which is what
    [Path(...)] turns its argument into. *)

(** The directories above [s], outermost first; [pre] is what has been
    read of the path so far. *)
Fixpoint ancestors_from (pre s : string) : list string :=
  match s with
  | "" => []
  | String c s' =>
      if Ascii.eqb c "/"%char
      then (if String.eqb pre "" then [] else [pre])
             ++ ancestors_from (pre +:+ "/") s'
      else ancestors_from (pre +:+ String c "") s'
  end.

Definition ancestors (p : string) : list string := ancestors_from "" p.

(** [p.is_absolute()] *)
Definition is_absolute (p : string) : bool :=
  match p with
  | String c _ => Ascii.eqb c "/"%char
  | "" => false
  end.

(** [p.parent] *)
Definition parent (p : string) : string :=
  List.last (ancestors p) (if is_absolute p then "/" else ".").

(** [p.name]: the final component, empty for the root and for [.] *)
Definition name_of (p : string) : string :=
  if String.eqb p "." then "" else List.last (split_on "/"%char p) "".

(** [base / child]: an absolute child replaces the base. *)
Definition path_join (base child : string) : string :=
  if is_absolute child then child else base +:+ "/" +:+ child.

(** [p.with_suffix(p.suffix + '.tmp')]: the name gets [.tmp] appended;
    pathlib refuses a path with an empty name. *)
Definition with_tmp_suffix (p : string) : res string :=
  if String.eqb (name_of p) "" then Err ValueError else Ok (p +:+ ".tmp").

Definition BASE : string := "/opt/publisher".
Definition TPL : string := path_join BASE "templates".
Definition APACHE_SITES : string := "/etc/apache2/sites-available".
Definition STATE : string := path_join BASE "var/state.json".

(** ** The host *)

(** A regular file: its text and its permission bits. *)
Abbreviation file := (string * Z)%type.

Record World : Type := mkWorld {
  files : gmap string file;
  dirs : gset string;
  (** what the process manager and the container runtime show: the
      program never touches it, only the commands it spawns do *)
  runtime : list string;
}.

Definition set_files (f : gmap string file) (w : World) : World :=
  mkWorld f (dirs w) (runtime w).
Definition set_dirs (d : gset string) (w : World) : World :=
  mkWorld (files w) d (runtime w).

(** Every effect the program has on its surroundings. *)
Inductive event : Type :=
| ERender (template : string) (ctx : value)
| EMkdir (path : string)
| EWriteText (path content : string)
| EChmod (path : string) (mode : Z)
| EReplace (src dst : string)
| ERun (argv : list string)
| EEcho (line : string)
| EGet (url timeout : value).

(** The collaborators the program calls but does not define. *)
Record Ext : Type := mkExt {
  (** jinja2: template name and context to text *)
  render_template : string -> value -> res string;
  (** [yaml.safe_load] *)
  yaml_safe_load : string -> res value;
  (** [subprocess.run]: the command's effect on the host and its exit
      status, [None] when it could not be started *)
  spawn : list string -> World -> World * option Z;
  (** [requests.get(url, timeout=t)]: the status code, or the message of
      the exception it raised *)
  requests_get : value -> value -> World -> Z + string;
  (** [int(s)] *)
  int_of_str : string -> option Z;
  (** [str(v)] of a list or a dict *)
  repr : value -> string;
}.

(** Permission bits of a file that [open(..., 'w')] creates, for the
    usual umask 022. *)
Definition default_mode : Z := 420.

Definition is_dir (w : World) (p : string) : bool :=
  String.eqb p "/" || String.eqb p "." || bool_decide (p ∈ dirs w).

(** [p.exists()] *)
Definition path_exists (w : World) (p : string) : bool :=
  is_dir w p || bool_decide (is_Some (files w !! p)).

(** [mkdir(parents=True, exist_ok=True)] over the chain of directories
    to create: a regular file in the way is an error (reported as
    [FileExistsError] also where Python says [NotADirectoryError]). *)
Fixpoint make_dirs (chain : list string) (w : World) : res World :=
  match chain with
  | [] => Ok w
  | q :: rest =>
      match files w !! q with
      | Some _ => Err (FileExistsError q)
      | None => make_dirs rest (set_dirs ({[q]} ∪ dirs w) w)
      end
  end.

(** What [open(p, 'w')] raises when the directory of [p] is not there:
    [NotADirectoryError] when a regular file stands where [p] needs a
    directory, [FileNotFoundError] when nothing does. *)
Definition missing_parent_error (w : World) (p : string) : exn :=
  if existsb (fun q => bool_decide (is_Some (files w !! q))) (ancestors p)
  then NotADirectoryError p
  else FileNotFoundError p.

(** What a filesystem event does to the host; the other events are not
    the filesystem's. *)
Definition fs_step (e : event) (w : World) : res World :=
  match e with
  | EMkdir p => make_dirs (ancestors p ++ [p]) w
  | EWriteText p c =>
      if bool_decide (p ∈ dirs w) then Err (IsADirectoryError p)
      else match files w !! p with
           | Some (_, md) => Ok (set_files (<[p := (c, md)]> (files w)) w)
           | None =>
               if is_dir w (parent p)
               then Ok (set_files (<[p := (c, default_mode)]> (files w)) w)
               else Err (missing_parent_error w p)
           end
  | EChmod p md =>
      match files w !! p with
      | Some (c, _) => Ok (set_files (<[p := (c, md)]> (files w)) w)
      | None => Err (FileNotFoundError p)
      end
  | EReplace src dst =>
      match files w !! src with
      | Some f =>
          if bool_decide (dst ∈ dirs w) then Err (IsADirectoryError dst)
          else Ok (set_files (<[dst := f]> (delete src (files w))) w)
      | None => Err (FileNotFoundError src)
      end
  | _ => Ok w
  end.

(** The host after the filesystem events [evs], stopping at the first
    one that fails: the state an interruption after [evs] leaves. *)
Fixpoint replay (evs : list event) (w : World) : World :=
  match evs with
  | [] => w
  | e :: rest =>
      match fs_step e w with
      | Ok w' => replay rest w'
      | Err _ => w
      end
  end.

(** ** The monad of the program: host state, event log, exceptions *)

Definition M (A : Type) : Type := World -> World * list event * res A.

Definition ret {A} (a : A) : M A := fun w => (w, [], Ok a).

Definition raise {A} (e : exn) : M A := fun w => (w, [], Err e).

Definition bind {A B} (m : M A) (f : A -> M B) : M B :=
  fun w =>
    match m w with
    | (w1, t1, Ok a) =>
        match f a w1 with
        | (w2, t2, r) => (w2, t1 ++ t2, r)
        end
    | (w1, t1, Err e) => (w1, t1, Err e)
    end.

(** A pure computation that may raise. *)
Definition lift {A} (r : res A) : M A := fun w => (w, [], r).

Declare Scope prog_scope.
Delimit Scope prog_scope with prog.
Notation "x <- m ;; k" := (bind m (fun x => k))
  (at level 100, m at next level, right associativity) : prog_scope.
Notation "m ;; k" := (bind m (fun _ => k))
  (at level 100, right associativity) : prog_scope.
Open Scope prog_scope.

(** A filesystem call: logged, then performed. *)
Definition do_fs (e : event) : M unit :=
  fun w =>
    match fs_step e w with
    | Ok w' => (w', [e], Ok tt)
    | Err x => (w, [e], Err x)
    end.

(** [typer.echo(line)] *)
Definition echo (line : string) : M unit := fun w => (w, [EEcho line], Ok tt).

(** [for x in xs: body(x)] *)
Fixpoint for_each {A} (xs : list A) (body : A -> M unit) : M unit :=
  match xs with
  | [] => ret tt
  | x :: rest => body x ;; for_each rest body
  end.

(** [[as_str v for v in vs]], failing at the first non-str. *)
Fixpoint all_str (vs : list value) : res (list string) :=
  match vs with
  | [] => Ok []
  | v :: rest =>
      (let? s := as_str v in
       let? ss := all_str rest in
       Ok (s :: ss))%res
  end.

(** [d.setdefault(k, v)] *)
Definition dict_setdefault (k : string) (v : value) (d : dict) : dict :=
  if dict_has k d then d else dict_set k v d.

(** ** The program *)

Section Program.

Variable ext : Ext.

(** [str(v)], as an f-string formats [v]. *)
Definition py_str (v : value) : string :=
  match v with
  | VStr s => s
  | VInt z => pretty z
  | VBool true => "True"
  | VBool false => "False"
  | VNone => "None"
  | _ => repr ext v
  end.

(** [Sh.run(cmd)] with its defaults [check=True, capture=False]: the
    command line is printed ([' '.join] wants strings), the command runs,
    and a nonzero status raises. *)
Definition Sh_run (cmd : list value) : M unit :=
  argv <- lift (all_str cmd);;
  fun w =>
    match spawn ext argv w with
    | (w', Some rc) =>
        if rc =? 0 then (w', [ERun argv], Ok tt)
        else (w', [ERun argv], Err (CalledProcessError argv rc))
    | (w', None) => (w', [ERun argv], Err (LaunchError argv))
    end.

(** [render(template_rel, ctx)] *)
Definition render (template_rel : string) (ctx : dict) : M string :=
  fun w => (w, [ERender template_rel (VDict ctx)],
            render_template ext template_rel (VDict ctx)).

(** [write_file(path, content, mode)] *)
Definition write_file (path content : string) (mode : Z) : M unit :=
  do_fs (EMkdir (parent path));;
  tmp <- lift (with_tmp_suffix path);;
  do_fs (EWriteText tmp content);;
  do_fs (EChmod tmp mode);;
  do_fs (EReplace tmp path).

(** [manifest_path.read_text()] *)
Definition read_text (p : string) : M string :=
  fun w =>
    match files w !! p with
    | Some (c, _) => (w, [], Ok c)
    | None => (w, [], Err (FileNotFoundError p))
    end.

(** [load_manifest(manifest_path)]: the item assignment needs a dict. *)
Definition load_manifest (manifest_path : string) : M dict :=
  text <- read_text manifest_path;;
  data <- lift (yaml_safe_load ext text);;
  match data with
  | VDict d => ret (dict_set "__manifest_path" (VStr manifest_path) d)
  | _ => raise TypeError
  end.

(** [ensure_ssl(fqdn)]: [fqdn.split] needs a str. *)
Definition ensure_ssl (fqdn : value) : M unit :=
  tail <- lift (match fqdn with
                | VStr s => Ok (after_first_dot s)
                | _ => Err AttributeError
                end);;
  Sh_run [VStr "sudo"; VStr "certbot"; VStr "--apache"; VStr "-n";
          VStr "--agree-tos"; VStr "-m"; VStr ("admin@" +:+ tail);
          VStr "-d"; fqdn; VStr "--redirect"].

(** The two arguments of the [render] call of [apache_apply], evaluated
    in Python's order: the template name, then the context entries. *)
Definition apache_render_args (m : dict) : res (string * dict) :=
  (let? apache := dict_item "apache" m in
   let? template := item "template" apache in
   let? fqdn := dict_item "fqdn" m in
   let? backend_host :=
     get_or "host" (VStr "127.0.0.1") (dict_get_or "backend" (VDict []) m) in
   let? backend_port :=
     get_or "port" (VInt 8000) (dict_get_or "backend" (VDict []) m) in
   let? docroot :=
     get_or "document_root" (VStr "/var/www/html")
            (dict_get_or "flutter" (VDict []) m) in
   let? name := dict_item "name" m in
   let? log_prefix := get_or "log_prefix" name apache in
   Ok ("apache/" +:+ py_str template,
       [("fqdn", fqdn); ("backend_host", backend_host);
        ("backend_port", backend_port); ("docroot", docroot);
        ("log_prefix", log_prefix)]))%res.

(** [apache_apply(m)] *)
Definition apache_apply (m : dict) : M unit :=
  args <- lift (apache_render_args m);;
  vhost <- render (fst args) (snd args);;
  fqdn <- lift (dict_item "fqdn" m);;
  write_file (path_join APACHE_SITES (py_str fqdn +:+ ".conf")) vhost 420;;
  Sh_run [VStr "sudo"; VStr "a2ensite"; VStr (py_str fqdn +:+ ".conf")];;
  Sh_run [VStr "sudo"; VStr "service"; VStr "apache2"; VStr "reload"].

(** [m.get('backend', {}).get('entrypoint', {}).get(k, '')] *)
Definition entrypoint_get (k : string) (m : dict) : res value :=
  (let? ep := get_or "entrypoint" (VDict []) (dict_get_or "backend" (VDict []) m) in
   get_or k (VStr "") ep)%res.

(** The name of the unit and the arguments of the [render] call of
    [systemd_apply]. *)
Definition systemd_render_args (m : dict) : res (string * string * dict) :=
  (let? service := dict_item "service" m in
   let? template := item "template" service in
   let? name := dict_item "name" m in
   let? name_s := as_str name in
   let? user := item "user" service in
   let? group := item "group" service in
   let? backend := dict_item "backend" m in
   let? workdir := item "working_dir" backend in
   let? uvicorn_module := entrypoint_get "module" m in
   let? uvicorn_args := entrypoint_get "extra_args" m in
   let? venv := entrypoint_get "venv" m in
   let? cmd := entrypoint_get "cmd" m in
   let? port := get_or "port" (VInt 8000) (dict_get_or "backend" (VDict []) m) in
   Ok (name_s +:+ ".service", "systemd/" +:+ py_str template,
       [("user", user); ("group", group); ("workdir", workdir);
        ("uvicorn_module", uvicorn_module); ("uvicorn_args", uvicorn_args);
        ("venv", venv); ("cmd", cmd); ("port", port)]))%res.

(** [systemd_apply(m)] *)
Definition systemd_apply (m : dict) : M unit :=
  args <- lift (systemd_render_args m);;
  let svc_name := fst (fst args) in
  unit <- render (snd (fst args)) (snd args);;
  write_file (path_join "/etc/systemd/system" svc_name) unit 420;;
  Sh_run [VStr "sudo"; VStr "systemctl"; VStr "daemon-reload"];;
  Sh_run [VStr "sudo"; VStr "systemctl"; VStr "enable"; VStr "--now";
          VStr svc_name].

(** [m['docker'][k]] *)
Definition docker_item (k : string) (m : dict) : res value :=
  (let? docker := dict_item "docker" m in item k docker)%res.

(** [docker_apply(m)].  The path handed to [write_file] is the string
    of the manifest, where the code has [Path(...)] of it: the two are
    the same path for a string that [pathlib] spells back unchanged
    ([plain_path] below). *)
Definition docker_apply (m : dict) : M unit :=
  compose <- render "docker/docker-compose.j2" m;;
  compose_path <- lift (let? p := docker_item "compose_path" m in as_str p)%res;;
  write_file compose_path compose 420;;
  project <- lift (docker_item "project" m);;
  Sh_run [VStr "sudo"; VStr "docker"; VStr "compose"; VStr "-f";
          VStr compose_path; VStr "-p"; project; VStr "up"; VStr "-d"].

(** The working directory of [deploy_code]:
    [Path(m['backend']['working_dir']) if 'backend' in m else Path('/srv')/m['name']],
    kept as the string the manifest gives: the same path for a string
    that [pathlib] spells back unchanged ([plain_path] below). *)
Definition working_dir (m : dict) : res string :=
  (if dict_has "backend" m
   then let? backend := dict_item "backend" m in
        let? p := item "working_dir" backend in
        as_str p
   else let? name := dict_item "name" m in
        let? s := as_str name in
        Ok (path_join "/srv" s))%res.

(** [deploy_code(m)].  The [else] is the one of [if 'scm' in m], as the
    source indents it: it is entered when the manifest has no [scm], where
    [branch] was never assigned, so reading it raises before any command
    is built. *)
Definition deploy_code (m : dict) : M unit :=
  wd <- lift (working_dir m);;
  do_fs (EMkdir wd);;
  (if dict_has "scm" m then
     scm <- lift (dict_item "scm" m);;
     repo <- lift (item "repo" scm);;
     branch <- lift (get_or "branch" (VStr "main") scm);;
     checkout <- (fun w => (w, [], Ok (path_exists w (path_join wd ".git"))));;
     if negb checkout
     then Sh_run [VStr "git"; VStr "clone"; VStr "--depth=1"; VStr "--branch";
                  branch; repo; VStr wd]
     else ret tt
   else
     branch <- raise (UnboundLocalError "branch");;
     Sh_run [VStr "git"; VStr "-C"; VStr wd; VStr "fetch"; VStr "origin";
             branch; VStr "--depth=1"];;
     Sh_run [VStr "git"; VStr "-C"; VStr wd; VStr "reset"; VStr "--hard";
             VStr ("origin/" +:+ py_str branch)]);;
  preinstall <- lift (let? steps := get_or "preinstall" (VList [])
                                             (dict_get_or "deploy" (VDict []) m) in
                      iter steps)%res;;
  for_each preinstall (fun cmd =>
    Sh_run [VStr "bash"; VStr "-lc";
            VStr ("cd " +:+ wd +:+ " && " +:+ py_str cmd)]).

(** The [docker] branch of [apply] after [docker_apply]: the backend of
    the proxy is read off [m['docker']['publish']['http_target']]. *)
Definition resolve_backend (m : dict) : res dict :=
  (let m1 := dict_setdefault "backend" (VDict []) m in
   let? publish := docker_item "publish" m1 in
   let? hp := item "http_target" publish in
   let? parts := match hp with
                 | VStr s => Ok (split_on ":"%char s)
                 | _ => Err AttributeError
                 end in
   let? host_port := match parts with
                     | [host; port] => Ok (host, port)
                     | _ => Err ValueError
                     end in
   let? backend := dict_item "backend" m1 in
   let? backend1 := set_item "host" (VStr (fst host_port)) backend in
   let? n := match int_of_str ext (snd host_port) with
             | Some n => Ok n
             | None => Err ValueError
             end in
   let? backend2 := set_item "port" (VInt n) backend1 in
   Ok (dict_set "backend" backend2 m1))%res.

(** [Path(m['flutter']['document_root'])] *)
Definition document_root (m : dict) : res string :=
  (let? flutter := dict_item "flutter" m in
   let? p := item "document_root" flutter in
   as_str p)%res.

(** The dispatch on [kind] of [apply]; it returns the manifest dict, which
    the [docker] branch updates in place. *)
Definition converge (kind : value) (m : dict) : M dict :=
  if eq_str kind "fastapi" || eq_str kind "streamlit" then
    deploy_code m;;
    systemd_apply m;;
    apache_apply m;;
    ret m
  else if eq_str kind "flutter" then
    apache_apply m;;
    docroot <- lift (document_root m);;
    do_fs (EMkdir docroot);;
    ret m
  else if eq_str kind "docker" then
    deploy_code m;;
    docker_apply m;;
    if dict_has "apache" m then
      m' <- lift (resolve_backend m);;
      apache_apply m';;
      ret m'
    else ret m
  else
    echo ("Unsupported kind: " +:+ py_str kind);;
    raise (Exit 2).

(** [if m.get('ssl'): ensure_ssl(m['fqdn'])] *)
Definition certify (m : dict) : M unit :=
  if truthy (dict_get_or "ssl" VNone m) then
    fqdn <- lift (dict_item "fqdn" m);;
    ensure_ssl fqdn
  else ret tt.

(** The health check that ends [apply]: whatever the probe raises is
    caught and echoed. *)
Definition healthcheck (m : dict) : M unit :=
  let h := dict_get_or "healthcheck" (VDict []) m in
  url <- lift (get_or "url" VNone h);;
  if truthy url then
    timeout <- lift (get_or "timeout" (VInt 5) h);;
    fun w =>
      match requests_get ext url timeout w with
      | inl status_code =>
          (w, [EGet url timeout; EEcho ("Health: " +:+ pretty status_code)], Ok tt)
      | inr e =>
          (w, [EGet url timeout; EEcho ("Healthcheck failed: " +:+ e)], Ok tt)
      end
  else ret tt.

(** [apply(manifest)] on a loaded manifest. *)
Definition apply_manifest (m : dict) : M unit :=
  kind <- lift (dict_item "kind" m);;
  m' <- converge kind m;;
  certify m';;
  healthcheck m'.

(** [apply(manifest)] *)
Definition apply (manifest : string) : M unit :=
  m <- load_manifest manifest;;
  apply_manifest m.

End Program.


(** ** The status report

    [status] of [bin/publishctl.py].  [print] writes its line to standard
    output as [typer.echo] does, so both are logged as [EEcho]. *)

(** [s.endswith(suffix)] *)
Fixpoint ends_with (suffix s : string) : bool :=
  String.eqb s suffix ||
  match s with
  | "" => false
  | String _ s' => ends_with suffix s'
  end.

(** The entries of the directory [dir] that the pattern [*.yml] matches:
    regular files and directories alike. *)
Definition matches_yml (dir p : string) : bool :=
  String.eqb (parent p) dir && ends_with ".yml" (name_of p).

(** [sorted(Path(dir).glob('*.yml'))]: paths of one directory compare as
    their names do, character by character.  (A directory among the
    entries makes [read_text] raise; the model then reports
    [FileNotFoundError] where Python says [IsADirectoryError].) *)
Definition glob_yml (dir : string) (w : World) : list string :=
  merge_sort String.le
    (List.filter (matches_yml dir)
       (map fst (map_to_list (files w)) ++ elements (dirs w))).

Definition newline : string := String "010"%char "".

Section Reporter.

Variable ext : Ext.

(** [print(line)] *)
Definition py_print (line : string) : M unit := echo line.

(** [subprocess.call(argv)]: the exit status is returned, whatever it is;
    only a command that cannot be started raises. *)
Definition subprocess_call (argv : list string) : M Z :=
  fun w =>
    match spawn ext argv w with
    | (w', Some rc) => (w', [ERun argv], Ok rc)
    | (w', None) => (w', [ERun argv], Err (LaunchError argv))
    end.

(** The health lines of [status]: one GET with a timeout of 3, any
    exception reported as [failed]. *)
Definition status_health (m : dict) : M unit :=
  url <- lift (get_or "url" VNone (dict_get_or "healthcheck" (VDict []) m));;
  if truthy url then
    fun w =>
      match requests_get ext url (VInt 3) w with
      | inl status_code =>
          (w, [EGet url (VInt 3); EEcho (" health: " +:+ pretty status_code)], Ok tt)
      | inr _ => (w, [EGet url (VInt 3); EEcho " health: failed"], Ok tt)
      end
  else ret tt.

(** The body of the loop of [status] for the manifest at [path]. *)
Definition status_one (name : string) (path : string) : M unit :=
  m <- load_manifest ext path;;
  skip <- lift (if negb (String.eqb name "")
                then (let? n := dict_item "name" m in Ok (negb (eq_str n name)))%res
                else Ok false);;
  if skip : bool then ret tt
  else
    app <- lift (dict_item "name" m);;
    app_s <- lift (as_str app);;
    fqdn <- lift (dict_item "fqdn" m);;
    kind <- lift (dict_item "kind" m);;
    py_print (newline +:+ "[" +:+ py_str ext app +:+ "] " +:+ py_str ext fqdn
              +:+ " (" +:+ py_str ext kind +:+ ")");;
    site <- (fun w => (w, [], Ok (path_exists w
               (path_join APACHE_SITES (py_str ext fqdn +:+ ".conf")))));;
    py_print (" apache site: " +:+ (if site : bool then "present" else "missing"));;
    (if eq_str kind "fastapi" || eq_str kind "streamlit" then
       rc <- subprocess_call ["systemctl"; "is-active"; "--quiet";
                              app_s +:+ ".service"];;
       py_print (" service: " +:+ (if rc =? 0 then "active" else "inactive"))
     else ret tt);;
    (if eq_str kind "docker" then
       subprocess_call ["docker"; "ps"];; ret tt
     else ret tt);;
    status_health m.

(** [status(name)] *)
Definition status (name : string) : M unit :=
  fun w => for_each (glob_yml "/opt/publisher/apps" w) (status_one name) w.

End Reporter.

(** ** The manifest builder

    The right-hand column of [publisher_ui/app.py]: the dict it builds
    from the three inputs, and the file it writes when the button is
    pressed. *)

(** [base.update(extra)] *)
Definition dict_update (extra base : dict) : dict :=
  fold_left (fun d kv => dict_set (fst kv) (snd kv) d) extra base.

(** The dict [base] for the chosen [kind], the [name] and the [fqdn]. *)
Definition new_manifest (kind name fqdn : string) : dict :=
  let base :=
    [("name", VStr name); ("kind", VStr kind); ("fqdn", VStr fqdn);
     ("ssl", VBool true);
     ("apache",
      VDict [("template",
              VStr ((if negb (String.eqb kind "flutter") then kind else "flutter")
                    +:+ ".conf.j2"));
             ("http_to_https", VBool true); ("log_prefix", VStr name)]);
     ("scm", VDict [("repo", VStr "git@github.com:org/repo.git");
                    ("branch", VStr "main")])] in
  if String.eqb kind "fastapi" || String.eqb kind "streamlit" then
    dict_update
      [("backend",
        VDict [("host", VStr "127.0.0.1");
               ("port", VInt (if String.eqb kind "fastapi" then 8000 else 8501));
               ("working_dir", VStr ("/srv/" +:+ name));
               ("entrypoint",
                VDict [("venv", VStr ("/srv/" +:+ name +:+ "/.venv"));
                       ("module", VStr "main:app")])]);
       ("service",
        VDict [("template", VStr (kind +:+ ".service.j2"));
               ("user", VStr "ubuntu"); ("group", VStr "ubuntu")]);
       ("deploy",
        VDict [("strategy", VStr "native");
               ("preinstall",
                VList [VStr "python3 -m venv .venv";
                       VStr "./.venv/bin/pip install -U pip wheel";
                       VStr "./.venv/bin/pip install -r requirements.txt"])])]
      base
  else if String.eqb kind "flutter" then
    dict_update
      [("flutter",
        VDict [("document_root", VStr ("/var/www/" +:+ name));
               ("artifact_dir", VStr "build/web")]);
       ("deploy", VDict [("strategy", VStr "native")])]
      base
  else if String.eqb kind "docker" then
    dict_update
      [("docker",
        VDict [("compose_path", VStr ("/srv/" +:+ name +:+ "/docker-compose.yml"));
               ("project", VStr name);
               ("publish", VDict [("http_target", VStr "127.0.0.1:9000")])]);
       ("deploy", VDict [("strategy", VStr "docker")])]
      base
  else base.

Definition APPS : string := "/opt/publisher/apps".

(** The [Criar manifest] button: [dump] is [yaml.safe_dump(_,
    sort_keys=False)]; the file is written in place by [write_text]. *)
Definition create_manifest (dump : value -> string) (kind name fqdn : string)
  : M unit :=
  let out := path_join APPS (name +:+ ".yml") in
  do_fs (EWriteText out (dump (VDict (new_manifest kind name fqdn))));;
  echo ("Manifesto criado: " +:+ out).
(** ** Notions used in the statements *)

(** [emits P m]: every event of every run of [m] satisfies [P]. *)
Definition emits {A} (P : event -> Prop) (m : M A) : Prop :=
  forall w w' t r, m w = (w', t, r) -> Forall P t.

(** The paths whose file an event can change. *)
Definition touched (e : event) : list string :=
  match e with
  | EWriteText p _ => [p]
  | EChmod p _ => [p]
  | EReplace src dst => [src; dst]
  | _ => []
  end.

(** The kinds [apply] has a branch for. *)
Definition supported_kind (kind : value) : bool :=
  eq_str kind "fastapi" || eq_str kind "streamlit" || eq_str kind "flutter"
  || eq_str kind "docker".

(** A sub-record that [m.get(k, {}).get(...)] can read: absent, or a dict. *)
Definition optional_record (k : string) (m : dict) : Prop :=
  match dict_get k m with
  | None => True
  | Some (VDict _) => True
  | Some _ => False
  end.

(** [m['docker']['publish']['http_target']], the published endpoint of a
    container stack. *)
Definition published_endpoint (m : dict) : res value :=
  (let? publish := docker_item "publish" m in item "http_target" publish)%res.

(** The event is the rendering of a template. *)
Definition is_render (e : event) : Prop :=
  match e with
  | ERender _ _ => True
  | _ => False
  end.

(** The command line of [ensure_ssl] for the domain [fqdn]. *)
Definition certbot_argv (fqdn : string) : list string :=
  ["sudo"; "certbot"; "--apache"; "-n"; "--agree-tos"; "-m";
   "admin@" +:+ after_first_dot fqdn; "-d"; fqdn; "--redirect"].

(** The reading of certification as best effort: when the convergence
    steps have succeeded and the certificate command then fails, the
    process still ends with status 0. *)
Definition certification_failure_is_nonfatal : Prop :=
  forall (ext : Ext) (m m' : dict) (kind : value) (fqdn : string)
         (w w1 w2 : World) (evs1 : list event) (rc : Z),
    dict_get "kind" m = Some kind ->
    converge ext kind m w = (w1, evs1, Ok m') ->
    truthy (dict_get_or "ssl" VNone m') = true ->
    dict_get "fqdn" m' = Some (VStr fqdn) ->
    spawn ext (certbot_argv fqdn) w1 = (w2, Some rc) ->
    rc <> 0 ->
    exit_code (snd (apply_manifest ext m w)) = 0.

(** The reading of the static-site order as "document root first": in
    every successful run of the [flutter] branch the directory is
    created before the proxy template is rendered. *)
Definition docroot_ensured_first : Prop :=
  forall (ext : Ext) (m m' : dict) (docroot : string) (w w' : World)
         (evs pre post : list event) (tpl : string) (ctx : value),
    document_root m = Ok docroot ->
    converge ext (VStr "flutter") m w = (w', evs, Ok m') ->
    evs = pre ++ ERender tpl ctx :: post ->
    In (EMkdir docroot) pre.

(** The sub-record a kind cannot do without (one per kind: the unit
    description, the static site, the container stack). *)
Definition required_subrecord (kind : value) : option string :=
  if eq_str kind "fastapi" || eq_str kind "streamlit" then Some "service"
  else if eq_str kind "flutter" then Some "flutter"
  else if eq_str kind "docker" then Some "docker"
  else None.

(** What the branch of a kind runs before it first reads that
    sub-record: the deployer for a native service, the whole proxy
    applier for a static site, the deployer and the rendering of the
    compose template for a container stack. *)
Definition steps_before_subrecord (ext : Ext) (kind : value) (m : dict) : M unit :=
  if eq_str kind "fastapi" || eq_str kind "streamlit" then deploy_code ext m
  else if eq_str kind "flutter" then apache_apply ext m
  else if eq_str kind "docker" then
    deploy_code ext m;;
    render ext "docker/docker-compose.j2" m;;
    ret tt
  else ret tt.

(** The reading of a missing sub-record as a configuration error caught
    up front: [apply] fails and has had no effect at all. *)
Definition missing_subrecord_fails_fast : Prop :=
  forall (ext : Ext) (m : dict) (kind : value) (sub : string)
         (w w' : World) (evs : list event) (r : res unit),
    dict_get "kind" m = Some kind ->
    required_subrecord kind = Some sub ->
    dict_get sub m = None ->
    apply_manifest ext m w = (w', evs, r) ->
    (exists e, r = Err e) /\ evs = [] /\ w' = w.

(** The kinds whose branch calls [deploy_code]. *)
Definition deploys (kind : value) : bool :=
  eq_str kind "fastapi" || eq_str kind "streamlit" || eq_str kind "docker".

(** The events of a run. *)
Definition events_of {A} (run : World * list event * res A) : list event :=
  snd (fst run).

(** [apply] runs the deployer: the run of the kind's branch begins
    with a run of [deploy_code] that did something. *)
Definition runs_deployer (ext : Ext) (kind : value) (m : dict) (w : World) : Prop :=
  exists w1 evs1 r1 rest,
    deploy_code ext m w = (w1, evs1, r1) /\ evs1 <> [] /\
    events_of (converge ext kind m w) = evs1 ++ rest.

(** The reading of deployment as driven by the source record: a
    manifest of a supported kind is deployed exactly when it declares one. *)
Definition deploys_iff_source : Prop :=
  forall (ext : Ext) (m : dict) (kind : value) (w : World),
    supported_kind kind = true ->
    (runs_deployer ext kind m w <-> dict_has "scm" m = true).

(** The commands of the reverse proxy applier. *)
Definition proxy_command (e : event) : Prop :=
  forall argv, e = ERun argv ->
    (exists conf, argv = ["sudo"; "a2ensite"; conf]) \/
    argv = ["sudo"; "service"; "apache2"; "reload"].

(** The file at [k] once [write_file] has put [f] at [path]: the target
    holds [f], the temporary name is free, any other path is as before. *)
Definition assign (path : string) (f : file) (k : string) (old : option file)
  : option file :=
  if decide (k = path) then Some f
  else if decide (k = path +:+ ".tmp") then None
  else old.

Fixpoint assigns (ws : list (string * file)) (k : string) (old : option file)
  : option file :=
  match ws with
  | [] => old
  | (path, f) :: rest => assigns rest k (assign path f k old)
  end.

(** The event [e] is not a command that changes the file at [k]. *)
Definition leaves_file (ext : Ext) (k : string) (e : event) : Prop :=
  forall argv, e = ERun argv ->
    forall w, files (fst (spawn ext argv w)) !! k = files w !! k.

(** The event [e] is not a command that moves the process manager or
    the container runtime out of the state [s]. *)
Definition leaves_runtime (ext : Ext) (s : list string) (e : event) : Prop :=
  forall argv, e = ERun argv ->
    forall w, runtime w = s -> runtime (fst (spawn ext argv w)) = s.

(** [guarded I P m]: a run of [m] all of whose events satisfy [P] takes
    a host satisfying [I] to one that does. *)
Definition guarded {A} (I : World -> Prop) (P : event -> Prop) (m : M A) : Prop :=
  forall w w' t r, m w = (w', t, r) -> Forall P t -> I w -> I w'.

(** [writes ext k ws m]: a run of [m] that returns and whose commands
    leave the file at [k] alone leaves at [k] what the writes [ws], in
    this order, leave there. *)
Definition writes {A} (ext : Ext) (k : string) (ws : list (string * file))
    (m : M A) : Prop :=
  forall w w' t a,
    m w = (w', t, Ok a) -> Forall (leaves_file ext k) t ->
    files w' !! k = assigns ws k (files w !! k).

(** The file at [k] after [m] is fixed by [m] alone. *)
Definition determined {A} (ext : Ext) (k : string) (m : M A) : Prop :=
  exists ws, writes ext k ws m.

(** A file that an apply has put in place. *)
Definition generated (evs : list event) (k : string) : Prop :=
  exists tmp, In (EReplace tmp k) evs.

(** The reading of [apply] as idempotent on every valid manifest: after
    two applies in a row the generated files and the state of the
    process manager and the container runtime are those after the first. *)
Definition apply_is_idempotent : Prop :=
  forall (ext : Ext) (m : dict) (w0 w1 w2 : World) (e1 e2 : list event),
    apply_manifest ext m w0 = (w1, e1, Ok tt) ->
    apply_manifest ext m w1 = (w2, e2, Ok tt) ->
    (forall k, generated e1 k -> files w2 !! k = files w1 !! k) /\
    runtime w2 = runtime w1.

(** A command of the pre-install loop of [deploy_code]. *)
Definition preinstall_command (e : event) : Prop :=
  forall argv, e = ERun argv -> exists line, argv = ["bash"; "-lc"; line].

(** What [status] may do: print, probe with a timeout of 3, ask the
    process manager whether a unit is active, list the containers. *)
Definition status_event (e : event) : Prop :=
  match e with
  | EEcho _ => True
  | EGet _ timeout => timeout = VInt 3
  | ERun argv =>
      argv = ["docker"; "ps"] \/
      exists svc, argv = ["systemctl"; "is-active"; "--quiet"; svc]
  | _ => False
  end.

(** The string has no slash: it names an entry, not a path. *)
Fixpoint no_slash (s : string) : bool :=
  match s with
  | "" => true
  | String c s' => negb (Ascii.eqb c "/"%char) && no_slash s'
  end.

(** The event is a run of the certificate client. *)
Definition runs_certbot (e : event) : Prop :=
  exists rest, e = ERun ("sudo" :: "certbot" :: rest).

(** The command line is a [git clone]. *)
Definition is_clone (argv : list string) : bool :=
  match argv with
  | a :: b :: _ => String.eqb a "git" && String.eqb b "clone"
  | _ => false
  end.

(** The commands among the events [evs], in order, the [git clone] of
    the deployer left out. *)
Fixpoint recurring (evs : list event) : list (list string) :=
  match evs with
  | [] => []
  | ERun argv :: rest =>
      if is_clone argv then recurring rest else argv :: recurring rest
  | _ :: rest => recurring rest
  end.

(** Two runs of [m] that return, on whatever hosts, return the same
    value and issue the same commands in the same order, a [git clone]
    apart. *)
Definition steady {A} (m : M A) : Prop :=
  forall w1 w1' t1 a1 w2 w2' t2 a2,
    m w1 = (w1', t1, Ok a1) -> m w2 = (w2', t2, Ok a2) ->
    recurring t1 = recurring t2 /\ a1 = a2.

(** ** A concrete host, to run the model

    Templates render to their name followed by the context; every
    command succeeds; [git clone] leaves a [.git] in its target, and a
    pre-install step (a [bash -lc] line) starts what it names, which then
    shows in the runtime state. *)

Module Demo.

Fixpoint show (v : value) : string :=
  match v with
  | VNone => "None"
  | VBool true => "True"
  | VBool false => "False"
  | VInt z => pretty z
  | VStr s => s
  | VList l =>
      "[" +:+ (fix go (l : list value) : string :=
                 match l with
                 | [] => ""
                 | x :: r => show x +:+ ";" +:+ go r
                 end) l +:+ "]"
  | VDict d =>
      "{" +:+ (fix go (d : dict) : string :=
                 match d with
                 | [] => ""
                 | (k, x) :: r => k +:+ "=" +:+ show x +:+ ";" +:+ go r
                 end) d +:+ "}"
  end.

Definition digit (c : ascii) : option Z :=
  let n := Z.of_nat (nat_of_ascii c) in
  if (48 <=? n) && (n <=? 57) then Some (n - 48) else None.

Fixpoint digits (acc : Z) (s : string) : option Z :=
  match s with
  | "" => Some acc
  | String c s' =>
      match digit c with
      | Some d => digits (10 * acc + d) s'
      | None => None
      end
  end.

(** [int] on a plain run of decimal digits. *)
Definition parse_int (s : string) : option Z :=
  match s with
  | "" => None
  | _ => digits 0 s
  end.

Definition run_command (argv : list string) (w : World) : World * option Z :=
  match argv with
  | ["git"; "clone"; _; _; _; _; wd] =>
      (set_dirs ({[path_join wd ".git"]} ∪ dirs w) w, Some 0)
  | ["bash"; "-lc"; line] =>
      (mkWorld (files w) (dirs w) (line :: runtime w), Some 0)
  | _ => (w, Some 0)
  end.

(** A line [key: text] of a flat YAML mapping. *)
Definition parse_line (line : string) : res (string * value) :=
  match split_on ":"%char line with
  | [k; String " " v] => Ok (k, VStr v)
  | _ => Err YAMLError
  end.

Fixpoint parse_lines (lines : list string) : res dict :=
  match lines with
  | [] => Ok []
  | line :: rest =>
      (let? kv := parse_line line in
       let? d := parse_lines rest in
       Ok (kv :: d))%res
  end.

(** [yaml.safe_load] on a flat mapping of strings, one entry per line. *)
Definition parse_yaml (text : string) : res value :=
  (let? d := parse_lines (split_on "010"%char text) in Ok (VDict d))%res.

Definition host : Ext :=
  {| render_template := fun name ctx => Ok (name +:+ " " +:+ show ctx);
     yaml_safe_load := parse_yaml;
     spawn := run_command;
     requests_get := fun _ _ _ => inl 200;
     int_of_str := parse_int;
     repr := show |}.

(** The same host with a certificate tool that always fails. *)
Definition host_without_certificates : Ext :=
  {| render_template := render_template host;
     yaml_safe_load := yaml_safe_load host;
     spawn := fun argv w =>
       match argv with
       | "sudo" :: "certbot" :: _ => (w, Some 1)
       | _ => run_command argv w
       end;
     requests_get := requests_get host;
     int_of_str := int_of_str host;
     repr := repr host |}.

Definition empty_world : World := mkWorld ∅ ∅ [].

(** A host that holds one manifest file. *)
Definition world_with (path text : string) : World :=
  mkWorld {[ path := (text, 420) ]} ∅ [].

Definition static_site : dict :=
  [("name", VStr "site"); ("kind", VStr "flutter");
   ("fqdn", VStr "example.org");
   ("apache", VDict [("template", VStr "flutter.conf.j2")]);
   ("flutter", VDict [("document_root", VStr "/srv/www/example")])].

(** A static site whose [flutter] sub-record was left out. *)
Definition static_site_incomplete : dict :=
  [("name", VStr "site"); ("kind", VStr "flutter");
   ("fqdn", VStr "example.org");
   ("apache", VDict [("template", VStr "flutter.conf.j2")])].

(** A static site that names the repository it is built from. *)
Definition static_site_with_source : dict :=
  dict_set "scm" (VDict [("repo", VStr "git@example.org:site.git")]) static_site.

(** A host on which the working directory of [native_service] already
    holds a checkout. *)
Definition world_with_checkout : World :=
  mkWorld {[ "/srv/api/main.py" := ("app = 1", 420) ]}
          {[ "/srv"; "/srv/api"; "/srv/api/.git" ]} [].

Definition static_site_tls : dict := dict_set "ssl" (VBool true) static_site.

Definition container_stack : dict :=
  [("name", VStr "shop"); ("kind", VStr "docker");
   ("fqdn", VStr "shop.example.org");
   ("apache", VDict [("template", VStr "docker.conf.j2")]);
   ("scm", VDict [("repo", VStr "git@example.org:shop.git")]);
   ("deploy", VDict [("preinstall", VList [VStr "docker run -d redis"])]);
   ("docker", VDict [("compose_path", VStr "/srv/shop/docker-compose.yml");
                     ("project", VStr "shop");
                     ("publish", VDict [("http_target", VStr "127.0.0.1:9000")])])].

Definition native_service : dict :=
  [("name", VStr "api"); ("kind", VStr "fastapi");
   ("fqdn", VStr "api.example.org");
   ("apache", VDict [("template", VStr "fastapi.conf.j2")]);
   ("scm", VDict [("repo", VStr "git@example.org:api.git"); ("branch", VStr "main")]);
   ("backend", VDict [("host", VStr "127.0.0.1"); ("port", VInt 8000);
                      ("working_dir", VStr "/srv/api")]);
   ("service", VDict [("template", VStr "fastapi.service.j2");
                      ("user", VStr "ubuntu"); ("group", VStr "ubuntu")])].

End Demo.

(** * Properties *)

(** ** Laws of the monad *)

Section Laws.

Context {A B : Type}.

Lemma bind_lift_ok (a : A) (f : A -> M B) w :
  bind (lift (Ok a)) f w = f a w.
Proof. unfold bind, lift. destruct (f a w) as [[w2 t2] r]. reflexivity. Qed.

Lemma bind_lift_err (e : exn) (f : A -> M B) w :
  bind (lift (Err e)) f w = (w, [], Err e).
Proof. reflexivity. Qed.

Lemma bind_ret (a : A) (f : A -> M B) w : bind (ret a) f w = f a w.
Proof. apply bind_lift_ok. Qed.

Lemma bind_ok (m : M A) (f : A -> M B) w w1 t1 a w2 t2 r :
  m w = (w1, t1, Ok a) -> f a w1 = (w2, t2, r) ->
  bind m f w = (w2, t1 ++ t2, r).
Proof. intros Hm Hf. unfold bind. rewrite Hm, Hf. reflexivity. Qed.

Lemma bind_err (m : M A) (f : A -> M B) w w1 t1 e :
  m w = (w1, t1, Err e) -> bind m f w = (w1, t1, Err e).
Proof. intros Hm. unfold bind. rewrite Hm. reflexivity. Qed.

(** A run of [m ;; f] either stops in [m] or is a run of [m] followed by
    a run of [f]. *)
Lemma bind_inv (m : M A) (f : A -> M B) w w' t r :
  bind m f w = (w', t, r) ->
  (exists e, m w = (w', t, Err e) /\ r = Err e) \/
  (exists w1 t1 a t2,
      m w = (w1, t1, Ok a) /\ f a w1 = (w', t2, r) /\ t = t1 ++ t2).
Proof.
  unfold bind. destruct (m w) as [[w1 t1] [a | e]].
  - destruct (f a w1) as [[w2 t2] r2] eqn:Hf. intros [= <- <- <-].
    right. exists w1, t1, a, t2. auto.
  - intros [= <- <- <-]. left. exists e. auto.
Qed.

Lemma bind_inv_ok (m : M A) (f : A -> M B) w w' t b :
  bind m f w = (w', t, Ok b) ->
  exists w1 t1 a t2,
    m w = (w1, t1, Ok a) /\ f a w1 = (w', t2, Ok b) /\ t = t1 ++ t2.
Proof.
  intros H. apply bind_inv in H as [(e & _ & He) | H]; [discriminate | exact H].
Qed.

End Laws.

Lemma bind_ext {A B} (m : M A) (f g : A -> M B) w :
  (forall a w1, f a w1 = g a w1) -> bind m f w = bind m g w.
Proof.
  intros H. unfold bind. destruct (m w) as [[w1 t1] [a | e]]; [| reflexivity].
  rewrite H. reflexivity.
Qed.

Lemma do_fs_step (e : event) (w w' : World) t r :
  do_fs e w = (w', t, r) -> fs_step e w = Ok w' \/ w' = w.
Proof.
  unfold do_fs. destruct (fs_step e w) as [w1 | x]; intros [= <- _ _]; auto.
Qed.

Lemma lift_inv {A} (r : res A) w w' t r' :
  lift r w = (w', t, r') -> w' = w /\ t = [] /\ r = r'.
Proof. unfold lift. intros [= <- <- <-]. auto. Qed.

(** ** What a program may emit *)

Section Emits.

Variable ext : Ext.
Variable P : event -> Prop.

Lemma emits_lift {A} (r : res A) : emits P (lift r).
Proof. intros w w' t r' H. apply lift_inv in H as (_ & -> & _). constructor. Qed.

Lemma emits_ret {A} (a : A) : emits P (ret a).
Proof. apply emits_lift. Qed.

Lemma emits_raise {A} (e : exn) : emits P (@raise A e).
Proof. apply (emits_lift (Err e)). Qed.

Lemma emits_bind {A B} (m : M A) (f : A -> M B) :
  emits P m -> (forall a, emits P (f a)) -> emits P (bind m f).
Proof.
  intros Hm Hf w w' t r H.
  apply bind_inv in H as [(e & H & _) | (w1 & t1 & a & t2 & H1 & H2 & ->)].
  - exact (Hm _ _ _ _ H).
  - apply Forall_app. split; [exact (Hm _ _ _ _ H1) | exact (Hf a _ _ _ _ H2)].
Qed.

Lemma emits_do_fs (e : event) : P e -> emits P (do_fs e).
Proof.
  intros HP w w' t r. unfold do_fs.
  destruct (fs_step e w) as [w1 | x]; intros [= _ <- _]; auto.
Qed.

Lemma emits_echo (line : string) : P (EEcho line) -> emits P (echo line).
Proof. intros HP w w' t r [= _ <- _]. auto. Qed.

Lemma emits_Sh_run (cmd : list value) :
  (forall argv, all_str cmd = Ok argv -> P (ERun argv)) ->
  emits P (Sh_run ext cmd).
Proof.
  intros HP w w' t r H. unfold Sh_run in H.
  destruct (all_str cmd) as [argv | e]; [| injection H as _ <- _; constructor].
  rewrite bind_lift_ok in H. specialize (HP argv eq_refl).
  destruct (spawn ext argv w) as [w1 [rc |]]; [destruct (rc =? 0) |];
    injection H as _ <- _; auto.
Qed.

Lemma emits_render (tpl : string) (ctx : dict) :
  P (ERender tpl (VDict ctx)) -> emits P (render ext tpl ctx).
Proof. intros HP w w' t r [= _ <- _]. auto. Qed.

Lemma emits_for_each {A} (xs : list A) (body : A -> M unit) :
  (forall x, emits P (body x)) -> emits P (for_each xs body).
Proof.
  intros Hb. induction xs as [| x xs IH]; simpl.
  - apply emits_ret.
  - apply emits_bind; auto.
Qed.

End Emits.

(** ** What a program keeps when its commands do *)

Section Guarded.

Variable ext : Ext.
Variable I : World -> Prop.
Variable P : event -> Prop.

Hypothesis P_run :
  forall argv w, P (ERun argv) -> I w -> I (fst (spawn ext argv w)).

Lemma guarded_lift {A} (r : res A) : guarded I P (lift r).
Proof. intros w w' t r' H _ HI. apply lift_inv in H as (-> & _). exact HI. Qed.

Lemma guarded_ret {A} (a : A) : guarded I P (ret a).
Proof. apply guarded_lift. Qed.

Lemma guarded_raise {A} (e : exn) : guarded I P (@raise A e).
Proof. apply (guarded_lift (Err e)). Qed.

Lemma guarded_bind {A B} (m : M A) (f : A -> M B) :
  guarded I P m -> (forall a, guarded I P (f a)) -> guarded I P (bind m f).
Proof.
  intros Hm Hf w w' t r H HP HI.
  apply bind_inv in H as [(e & H & _) | (w1 & t1 & a & t2 & H1 & H2 & ->)].
  - exact (Hm _ _ _ _ H HP HI).
  - apply Forall_app in HP as [HP1 HP2].
    exact (Hf a _ _ _ _ H2 HP2 (Hm _ _ _ _ H1 HP1 HI)).
Qed.

Lemma guarded_do_fs (e : event) :
  (forall w w', fs_step e w = Ok w' -> I w -> I w') -> guarded I P (do_fs e).
Proof.
  intros Hfs w w' t r H _ HI.
  apply do_fs_step in H as [H | ->]; eauto.
Qed.

Lemma guarded_state {A} (t : World -> list event) (r : World -> res A) :
  guarded I P (fun w => (w, t w, r w)).
Proof. intros w w' t' r' [= <- _ _] _ HI. exact HI. Qed.

Lemma guarded_Sh_run (cmd : list value) : guarded I P (Sh_run ext cmd).
Proof.
  unfold Sh_run. apply guarded_bind; [apply guarded_lift |].
  intros argv w w' t r H HP HI. pose proof (P_run argv w) as Hrun.
  destruct (spawn ext argv w) as [w1 [rc |]]; [destruct (rc =? 0) |];
    injection H as <- <- _; apply Hrun; auto; exact (Forall_inv HP).
Qed.

Lemma guarded_for_each {A} (xs : list A) (body : A -> M unit) :
  (forall x, guarded I P (body x)) -> guarded I P (for_each xs body).
Proof.
  intros Hb. induction xs as [| x xs IH]; simpl.
  - apply guarded_ret.
  - apply guarded_bind; auto.
Qed.

End Guarded.
(** ** The filesystem steps *)

Lemma append_cons (c : ascii) (a b : string) :
  String c a +:+ b = String c (a +:+ b).
Proof. reflexivity. Qed.

Lemma append_nil_l (b : string) : "" +:+ b = b.
Proof. reflexivity. Qed.

Lemma append_nil_r (a : string) : a +:+ "" = a.
Proof. induction a as [| c a IH]; [reflexivity | rewrite append_cons, IH; reflexivity]. Qed.

Lemma append_assoc (a b c : string) : (a +:+ b) +:+ c = a +:+ (b +:+ c).
Proof.
  induction a as [| x a IH]; [reflexivity |].
  rewrite !append_cons, IH. reflexivity.
Qed.

Lemma string_length_app (a b : string) :
  String.length (a +:+ b) = (String.length a + String.length b)%nat.
Proof.
  induction a as [| c a IH]; [reflexivity |].
  rewrite append_cons. simpl. now rewrite IH.
Qed.

Lemma tmp_suffix_fresh (p : string) : p +:+ ".tmp" <> p.
Proof.
  intros H. apply (f_equal String.length) in H.
  rewrite string_length_app in H. simpl in H. lia.
Qed.

Lemma with_tmp_suffix_inv (p tmp : string) :
  with_tmp_suffix p = Ok tmp -> tmp = p +:+ ".tmp" /\ p <> "".
Proof.
  unfold with_tmp_suffix. destruct (String.eqb (name_of p) "") eqn:Hn; [discriminate |].
  intros [= <-]. split; [reflexivity |]. intros ->. discriminate Hn.
Qed.

Lemma ancestors_from_app (pre s t : string) :
  ancestors_from pre (s +:+ t) = ancestors_from pre s ++ ancestors_from (pre +:+ s) t.
Proof.
  revert pre. induction s as [| c s IH]; intros pre.
  - rewrite append_nil_l, append_nil_r. reflexivity.
  - rewrite append_cons. simpl.
    assert (Hassoc : forall x, (pre +:+ String x "") +:+ s = pre +:+ String x s).
    { intros x. rewrite append_assoc. reflexivity. }
    destruct (Ascii.eqb c "/") eqn:Hc.
    + apply Ascii.eqb_eq in Hc as ->.
      rewrite IH, Hassoc, <- app_assoc. reflexivity.
    + rewrite IH, Hassoc. reflexivity.
Qed.

(** The temporary file lies in the directory of its target. *)
Lemma parent_tmp (p tmp : string) :
  with_tmp_suffix p = Ok tmp -> parent tmp = parent p.
Proof.
  intros H. apply with_tmp_suffix_inv in H as [-> Hp].
  unfold parent, ancestors. rewrite ancestors_from_app. simpl.
  rewrite app_nil_r. destruct p as [| c p]; [contradiction |].
  rewrite append_cons. reflexivity.
Qed.

Lemma make_dirs_spec (chain : list string) (w w' : World) :
  make_dirs chain w = Ok w' ->
  files w' = files w /\ runtime w' = runtime w /\
  (forall q, q ∈ dirs w -> q ∈ dirs w') /\ (forall q, In q chain -> q ∈ dirs w').
Proof.
  revert w. induction chain as [| q chain IH]; simpl; intros w H.
  - injection H as <-. repeat split; auto. intros q [].
  - destruct (files w !! q); [discriminate |].
    apply IH in H as (Hf & Hr & Hd & Hc). simpl in *.
    repeat split; auto.
    + intros q' Hq'. apply Hd, elem_of_union. auto.
    + intros q' [<- | Hq']; [| auto].
      apply Hd, elem_of_union. left. apply elem_of_singleton. reflexivity.
Qed.

Lemma fs_step_untouched (e : event) (w w' : World) (k : string) :
  fs_step e w = Ok w' -> ~ In k (touched e) -> files w' !! k = files w !! k.
Proof.
  destruct e; simpl; intros H Hk; try (injection H as <-; reflexivity).
  - apply make_dirs_spec in H as (-> & _). reflexivity.
  - destruct (bool_decide (path ∈ dirs w)); [discriminate |].
    destruct (files w !! path) as [[c md] |] eqn:Hp.
    + injection H as <-. simpl. rewrite lookup_insert_ne; tauto.
    + destruct (is_dir w (parent path)); [| discriminate].
      injection H as <-. simpl. rewrite lookup_insert_ne; tauto.
  - destruct (files w !! path) as [[c md] |]; [| discriminate].
    injection H as <-. simpl. rewrite lookup_insert_ne; tauto.
  - destruct (files w !! src) as [f |]; [| discriminate].
    destruct (bool_decide (dst ∈ dirs w)); [discriminate |].
    injection H as <-. simpl.
    rewrite lookup_insert_ne, lookup_delete_ne; tauto.
Qed.

Lemma fs_step_runtime (e : event) (w w' : World) :
  fs_step e w = Ok w' -> runtime w' = runtime w.
Proof.
  destruct e; simpl; intros H; try (injection H as <-; reflexivity).
  - apply make_dirs_spec in H. tauto.
  - destruct (bool_decide (path ∈ dirs w)); [discriminate |].
    destruct (files w !! path) as [[c md] |].
    + injection H as <-. reflexivity.
    + destruct (is_dir w (parent path)); [| discriminate].
      injection H as <-. reflexivity.
  - destruct (files w !! path) as [[c md] |]; [| discriminate].
    injection H as <-. reflexivity.
  - destruct (files w !! src) as [f |]; [| discriminate].
    destruct (bool_decide (dst ∈ dirs w)); [discriminate |].
    injection H as <-. reflexivity.
Qed.


Lemma replay_cons_ok (e : event) (evs : list event) (w w1 : World) :
  fs_step e w = Ok w1 -> replay (e :: evs) w = replay evs w1.
Proof. intros H. simpl. rewrite H. reflexivity. Qed.


Lemma do_fs_inv (e : event) (w w' : World) t r :
  do_fs e w = (w', t, r) ->
  t = [e] /\
  ((fs_step e w = Ok w' /\ r = Ok tt) \/
   (exists x, fs_step e w = Err x /\ w' = w /\ r = Err x)).
Proof.
  unfold do_fs. destruct (fs_step e w) as [w1 | x]; intros [= <- <- <-];
    split; eauto.
Qed.

(** What a [write_file] that returns has done to the files: the target
    holds the new text and mode, the temporary name is free again, and
    no other path has changed. *)
Lemma write_file_returns (path content : string) (mode : Z) w w' t :
  write_file path content mode w = (w', t, Ok tt) ->
  let tmp := path +:+ ".tmp" in
  t = [EMkdir (parent path); EWriteText tmp content; EChmod tmp mode;
       EReplace tmp path] /\
  w' = replay t w /\
  files w' = <[path := (content, mode)]> (delete tmp (files w)) /\
  runtime w' = runtime w /\
  is_dir w' (parent path) = true.
Proof.
  unfold write_file. intros H.
  apply bind_inv_ok in H as (w1 & t1 & [] & t2 & H1 & H & ->).
  apply bind_inv_ok in H as (w1' & t1' & tmp & t2' & Ht & H & ->).
  apply lift_inv in Ht as (-> & -> & Ht).
  destruct (with_tmp_suffix_inv _ _ Ht) as [-> _].
  apply bind_inv_ok in H as (w2 & t3 & [] & t4 & H2 & H & ->).
  apply bind_inv_ok in H as (w3 & t5 & [] & t6 & H3 & H4 & ->).
  apply do_fs_inv in H1 as (-> & [(H1 & _) | (x & _ & _ & [=])]).
  apply do_fs_inv in H2 as (-> & [(H2 & _) | (x & _ & _ & [=])]).
  apply do_fs_inv in H3 as (-> & [(H3 & _) | (x & _ & _ & [=])]).
  apply do_fs_inv in H4 as (-> & [(H4 & _) | (x & _ & _ & [=])]).
  split; [reflexivity |].
  split.
  { change (w' = replay [EMkdir (parent path); EWriteText (path +:+ ".tmp") content;
                         EChmod (path +:+ ".tmp") mode;
                         EReplace (path +:+ ".tmp") path] w).
    rewrite (replay_cons_ok _ _ _ _ H1), (replay_cons_ok _ _ _ _ H2),
      (replay_cons_ok _ _ _ _ H3), (replay_cons_ok _ _ _ _ H4).
    reflexivity. }
  pose proof (fs_step_runtime _ _ _ H1) as R1.
  pose proof (fs_step_runtime _ _ _ H2) as R2.
  pose proof (fs_step_runtime _ _ _ H3) as R3.
  pose proof (fs_step_runtime _ _ _ H4) as R4.
  assert (Hdir : is_dir w1 (parent path) = true).
  { unfold is_dir. simpl in H1. apply make_dirs_spec in H1 as (_ & _ & _ & Hc).
    assert (Hin : parent path ∈ dirs w1).
    { apply Hc, in_or_app. right. left. reflexivity. }
    rewrite (bool_decide_eq_true_2 _ Hin). apply orb_true_r. }
  assert (Hf1 : files w1 = files w).
  { simpl in H1. apply make_dirs_spec in H1. tauto. }
  assert (Hd : dirs w' = dirs w1 /\ exists md0,
             files w' = <[path := (content, mode)]>
                          (delete (path +:+ ".tmp")
                             (<[path +:+ ".tmp" := (content, mode)]>
                                (<[path +:+ ".tmp" := (content, md0)]> (files w1))))).
  { simpl in H2, H3, H4.
    destruct (bool_decide (path +:+ ".tmp" ∈ dirs w1)); [discriminate |].
    assert (exists md0, w2 = set_files (<[path +:+ ".tmp" := (content, md0)]> (files w1)) w1)
      as [md0 ->].
    { destruct (files w1 !! (path +:+ ".tmp")) as [[c md] |].
      - injection H2 as <-. eauto.
      - destruct (is_dir w1 (parent (path +:+ ".tmp"))); [| discriminate].
        injection H2 as <-. eauto. }
    simpl in H3. rewrite lookup_insert_eq in H3. injection H3 as <-.
    simpl in H4. rewrite lookup_insert_eq in H4.
    destruct (bool_decide (path ∈ dirs w1)); [discriminate |].
    injection H4 as <-. simpl. eauto. }
  destruct Hd as (Hd & md0 & Hf).
  split; [| split; [congruence |]].
  - rewrite Hf, Hf1. f_equal.
    rewrite insert_insert_eq, delete_insert_eq. reflexivity.
  - unfold is_dir in *. rewrite Hd. exact Hdir.
Qed.

(** ** The file writer *)



(** ** Dicts *)

Lemma dict_get_set (k k' : string) (v : value) (d : dict) :
  dict_get k (dict_set k' v d) = if String.eqb k k' then Some v else dict_get k d.
Proof.
  induction d as [| [k0 v0] d IH]; simpl.
  - destruct (String.eqb k k'); reflexivity.
  - destruct (String.eqb_spec k' k0) as [-> | Hne]; simpl.
    + destruct (String.eqb k k0); reflexivity.
    + rewrite IH. destruct (String.eqb_spec k k0) as [-> | Hne'].
      * destruct (String.eqb_spec k0 k'); [congruence | reflexivity].
      * reflexivity.
Qed.

Lemma dict_item_some (k : string) (d : dict) (v : value) :
  dict_get k d = Some v -> dict_item k d = Ok v.
Proof. unfold dict_item. intros ->. reflexivity. Qed.

Lemma dict_item_none (k : string) (d : dict) :
  dict_get k d = None -> dict_item k d = Err (KeyError k).
Proof. unfold dict_item. intros ->. reflexivity. Qed.

Lemma dict_get_or_some (k : string) (dflt : value) (d : dict) (v : value) :
  dict_get k d = Some v -> dict_get_or k dflt d = v.
Proof. unfold dict_get_or. intros ->. reflexivity. Qed.

Lemma dict_get_or_none (k : string) (dflt : value) (d : dict) :
  dict_get k d = None -> dict_get_or k dflt d = dflt.
Proof. unfold dict_get_or. intros ->. reflexivity. Qed.

(** ** Loading *)

Lemma load_manifest_ok (ext : Ext) (p text : string) (md : Z) (d : dict) (w : World) :
  files w !! p = Some (text, md) ->
  yaml_safe_load ext text = Ok (VDict d) ->
  load_manifest ext p w = (w, [], Ok (dict_set "__manifest_path" (VStr p) d)).
Proof.
  intros Hfile Hyaml. unfold load_manifest.
  erewrite bind_ok; cycle 1.
  - unfold read_text. rewrite Hfile. reflexivity.
  - rewrite Hyaml, bind_lift_ok. reflexivity.
  - reflexivity.
Qed.

(** ** Unsupported kinds *)

(** C9. For every manifest whose kind is not one the program supports,
    [apply] reports a configuration error and exits with status 2; it
    invokes no applier and no deployer and writes nothing: its only
    effect is the message, and the host is left as it was. *)
Theorem unsupported_kind_exits_2
    (ext : Ext) (manifest text : string) (md : Z) (d : dict) (kind : value)
    (w : World) :
  files w !! manifest = Some (text, md) ->
  yaml_safe_load ext text = Ok (VDict d) ->
  dict_get "kind" d = Some kind ->
  supported_kind kind = false ->
  apply ext manifest w
    = (w, [EEcho ("Unsupported kind: " +:+ py_str ext kind)], Err (Exit 2)) /\
  exit_code (snd (apply ext manifest w)) = 2.
Proof.
  intros Hfile Hyaml Hkind Hsup.
  assert (Hrun : apply ext manifest w
                 = (w, [EEcho ("Unsupported kind: " +:+ py_str ext kind)], Err (Exit 2))).
  { unfold supported_kind in Hsup.
    apply orb_false_elim in Hsup as [Hsup Hd].
    apply orb_false_elim in Hsup as [Hsup Hf].
    apply orb_false_elim in Hsup as [Ha Hs].
    unfold apply.
    erewrite bind_ok; cycle 1.
    - eapply load_manifest_ok; eassumption.
    - unfold apply_manifest.
      rewrite (dict_item_some "kind" _ kind), bind_lift_ok
        by (rewrite dict_get_set; exact Hkind).
      unfold converge. rewrite Ha, Hs, Hf, Hd. reflexivity.
    - reflexivity. }
  split; [exact Hrun | rewrite Hrun; reflexivity].
Qed.

Lemma unsupported_kind_exits_2_witness :
  let w := Demo.world_with "/opt/publisher/apps/x.yml" "kind: unknown-kind" in
  apply Demo.host "/opt/publisher/apps/x.yml" w
    = (w, [EEcho "Unsupported kind: unknown-kind"], Err (Exit 2)) /\
  exit_code (snd (apply Demo.host "/opt/publisher/apps/x.yml" w)) = 2.
Proof.
  apply (unsupported_kind_exits_2 Demo.host "/opt/publisher/apps/x.yml"
           "kind: unknown-kind" 420 [("kind", VStr "unknown-kind")]
           (VStr "unknown-kind"));
    reflexivity.
Defined.

(** ** The reverse proxy applier *)

Lemma get_or_optional (k sub : string) (dflt : value) (m : dict) :
  optional_record sub m ->
  exists v, get_or k dflt (dict_get_or sub (VDict []) m) = Ok v /\
            (dict_get sub m = None -> v = dflt).
Proof.
  unfold optional_record, dict_get_or.
  destruct (dict_get sub m) as [[] |]; try contradiction; intros _.
  - eexists. split; [reflexivity | discriminate].
  - exists dflt. split; [reflexivity | reflexivity].
Qed.

(** C10. For every manifest on which the reverse proxy applier runs
    without a backend sub-record, or without a static-site ([flutter])
    sub-record, the applier does not fail on that account: it renders the
    proxy template with the defaults 127.0.0.1 and 8000 for the backend
    host and port, and /var/www/html for the document root, and goes on
    to write and enable the site. *)
Theorem apache_apply_defaults
    (ext : Ext) (m apache : dict) (template fqdn name : value) :
  dict_get "apache" m = Some (VDict apache) ->
  dict_get "template" apache = Some template ->
  dict_get "fqdn" m = Some fqdn ->
  dict_get "name" m = Some name ->
  optional_record "backend" m ->
  optional_record "flutter" m ->
  exists backend_host backend_port docroot,
    let tpl := "apache/" +:+ py_str ext template in
    let ctx := [("fqdn", fqdn); ("backend_host", backend_host);
                ("backend_port", backend_port); ("docroot", docroot);
                ("log_prefix", dict_get_or "log_prefix" name apache)] in
    apache_render_args ext m = Ok (tpl, ctx) /\
    (dict_get "backend" m = None ->
     backend_host = VStr "127.0.0.1" /\ backend_port = VInt 8000) /\
    (dict_get "flutter" m = None -> docroot = VStr "/var/www/html") /\
    (forall w,
        apache_apply ext m w
        = (vhost <- render ext tpl ctx;;
           write_file (path_join APACHE_SITES (py_str ext fqdn +:+ ".conf")) vhost 420;;
           Sh_run ext [VStr "sudo"; VStr "a2ensite"; VStr (py_str ext fqdn +:+ ".conf")];;
           Sh_run ext [VStr "sudo"; VStr "service"; VStr "apache2"; VStr "reload"]) w).
Proof.
  intros Hapache Htemplate Hfqdn Hname Hbackend Hflutter.
  destruct (get_or_optional "host" "backend" (VStr "127.0.0.1") m Hbackend)
    as (bh & Hbh & Dbh).
  destruct (get_or_optional "port" "backend" (VInt 8000) m Hbackend)
    as (bp & Hbp & Dbp).
  destruct (get_or_optional "document_root" "flutter" (VStr "/var/www/html") m Hflutter)
    as (dr & Hdr & Ddr).
  exists bh, bp, dr.
  assert (Hargs : apache_render_args ext m
                  = Ok ("apache/" +:+ py_str ext template,
                        [("fqdn", fqdn); ("backend_host", bh); ("backend_port", bp);
                         ("docroot", dr);
                         ("log_prefix", dict_get_or "log_prefix" name apache)])).
  { unfold apache_render_args.
    rewrite (dict_item_some _ _ _ Hapache). unfold rbind at 1.
    unfold item. rewrite (dict_item_some _ _ _ Htemplate). unfold rbind at 1.
    rewrite (dict_item_some _ _ _ Hfqdn). unfold rbind at 1.
    rewrite Hbh. unfold rbind at 1. rewrite Hbp. unfold rbind at 1.
    rewrite Hdr. unfold rbind at 1.
    rewrite (dict_item_some _ _ _ Hname). reflexivity. }
  cbv zeta. split; [exact Hargs |].
  split; [intros Hnone; split; auto |]. split; [exact Ddr |].
  intros w. unfold apache_apply. rewrite Hargs, bind_lift_ok. cbn [fst snd].
  apply bind_ext. intros vhost w1.
  rewrite (dict_item_some _ _ _ Hfqdn), bind_lift_ok. reflexivity.
Qed.

Lemma apache_apply_defaults_witness :
  exists backend_host backend_port docroot,
    let tpl := "apache/" +:+ py_str Demo.host (VStr "docker.conf.j2") in
    let ctx := [("fqdn", VStr "shop.example.org"); ("backend_host", backend_host);
                ("backend_port", backend_port); ("docroot", docroot);
                ("log_prefix",
                 dict_get_or "log_prefix" (VStr "shop")
                   [("template", VStr "docker.conf.j2")])] in
    apache_render_args Demo.host Demo.container_stack = Ok (tpl, ctx) /\
    (dict_get "backend" Demo.container_stack = None ->
     backend_host = VStr "127.0.0.1" /\ backend_port = VInt 8000) /\
    (dict_get "flutter" Demo.container_stack = None -> docroot = VStr "/var/www/html") /\
    (forall w,
        apache_apply Demo.host Demo.container_stack w
        = (vhost <- render Demo.host tpl ctx;;
           write_file (path_join APACHE_SITES
                         (py_str Demo.host (VStr "shop.example.org") +:+ ".conf"))
                      vhost 420;;
           Sh_run Demo.host [VStr "sudo"; VStr "a2ensite";
                             VStr (py_str Demo.host (VStr "shop.example.org") +:+ ".conf")];;
           Sh_run Demo.host [VStr "sudo"; VStr "service"; VStr "apache2"; VStr "reload"]) w).
Proof.
  apply (apache_apply_defaults Demo.host Demo.container_stack
           [("template", VStr "docker.conf.j2")] (VStr "docker.conf.j2")
           (VStr "shop.example.org") (VStr "shop"));
    first [reflexivity | exact I].
Defined.

(** ** The proxy of a container stack *)

Lemma rbind_inv {A B} (r : res A) (f : A -> res B) (b : B) :
  rbind r f = Ok b -> exists a, r = Ok a /\ f a = Ok b.
Proof. destruct r as [a | e]; simpl; [eauto | discriminate]. Qed.

Lemma dict_get_setdefault_ne (k k' : string) (v : value) (d : dict) :
  k <> k' -> dict_get k (dict_setdefault k' v d) = dict_get k d.
Proof.
  intros Hne. unfold dict_setdefault. destruct (dict_has k' d); [reflexivity |].
  rewrite dict_get_set. destruct (String.eqb_spec k k'); [contradiction | reflexivity].
Qed.

Lemma resolve_backend_inv (ext : Ext) (m m' : dict) :
  resolve_backend ext m = Ok m' ->
  exists hp host port n backend,
    published_endpoint m = Ok (VStr hp) /\
    split_on ":"%char hp = [host; port] /\
    int_of_str ext port = Some n /\
    m' = dict_set "backend"
           (VDict (dict_set "port" (VInt n) (dict_set "host" (VStr host) backend)))
           (dict_setdefault "backend" (VDict []) m).
Proof.
  unfold resolve_backend. cbv zeta. intros H.
  apply rbind_inv in H as (publish & Hpub & H).
  apply rbind_inv in H as (hp & Hhp & H).
  apply rbind_inv in H as (parts & Hparts & H).
  apply rbind_inv in H as ([host port] & Hhost & H).
  apply rbind_inv in H as (backend & Hb & H).
  apply rbind_inv in H as (backend1 & Hb1 & H).
  apply rbind_inv in H as (n & Hn & H).
  apply rbind_inv in H as (backend2 & Hb2 & H).
  injection H as <-.
  destruct hp as [| | | s | |]; try discriminate.
  cbv beta iota in Hparts. injection Hparts as <-.
  destruct (split_on ":" s) as [| h [| p [| ? ?]]] eqn:Hsplit; try discriminate.
  injection Hhost as -> ->. cbn [fst snd] in *.
  destruct backend as [| | | | | b]; try discriminate.
  unfold set_item in Hb1. injection Hb1 as <-.
  unfold set_item in Hb2. injection Hb2 as <-.
  destruct (int_of_str ext port) as [n' |] eqn:Hint; [| discriminate].
  injection Hn as ->.
  exists s, host, port, n, b. repeat split; auto.
  unfold published_endpoint, docker_item in *.
  rewrite <- Hhp. unfold dict_item in *.
  rewrite dict_get_setdefault_ne in Hpub by discriminate.
  rewrite Hpub. reflexivity.
Qed.

(** What a successful evaluation of the render arguments has read. *)
Lemma apache_render_args_inv (ext : Ext) (m : dict) (tpl : string) (ctx : dict) :
  apache_render_args ext m = Ok (tpl, ctx) ->
  exists fqdn bh bp dr lp,
    ctx = [("fqdn", fqdn); ("backend_host", bh); ("backend_port", bp);
           ("docroot", dr); ("log_prefix", lp)] /\
    get_or "host" (VStr "127.0.0.1") (dict_get_or "backend" (VDict []) m) = Ok bh /\
    get_or "port" (VInt 8000) (dict_get_or "backend" (VDict []) m) = Ok bp /\
    get_or "document_root" (VStr "/var/www/html")
           (dict_get_or "flutter" (VDict []) m) = Ok dr.
Proof.
  intros H. unfold apache_render_args in H.
  apply rbind_inv in H as (apache & _ & H).
  apply rbind_inv in H as (template & _ & H).
  apply rbind_inv in H as (fqdn & _ & H).
  apply rbind_inv in H as (bh & Hbh & H).
  apply rbind_inv in H as (bp & Hbp & H).
  apply rbind_inv in H as (dr & Hdr & H).
  apply rbind_inv in H as (name & _ & H).
  apply rbind_inv in H as (lp & _ & H).
  injection H as <- <-. exists fqdn, bh, bp, dr, lp. auto.
Qed.

(** The proxy context built from a manifest whose backend was resolved
    carries the resolved host and port. *)
Lemma apache_render_args_backend
    (ext : Ext) (m : dict) (b : dict) (host port : value) (tpl : string) (ctx : dict) :
  dict_get "backend" m = Some (VDict b) ->
  dict_get "host" b = Some host -> dict_get "port" b = Some port ->
  apache_render_args ext m = Ok (tpl, ctx) ->
  dict_get "backend_host" ctx = Some host /\ dict_get "backend_port" ctx = Some port.
Proof.
  intros Hb Hh Hp H.
  apply apache_render_args_inv in H as (fqdn & bh & bp & dr & lp & -> & Hbh & Hbp & _).
  rewrite (dict_get_or_some _ _ _ _ Hb) in Hbh, Hbp. simpl in Hbh, Hbp.
  rewrite (dict_get_or_some _ _ _ _ Hh) in Hbh.
  rewrite (dict_get_or_some _ _ _ _ Hp) in Hbp.
  injection Hbh as <-. injection Hbp as <-. split; reflexivity.
Qed.

Lemma write_file_no_render (path content : string) (mode : Z) :
  emits (fun e => ~ is_render e) (write_file path content mode).
Proof.
  unfold write_file.
  repeat first [ apply emits_bind; [| intros ?]
               | apply emits_do_fs; simpl; tauto
               | apply emits_lift ].
Qed.

Lemma Sh_run_no_render (ext : Ext) (cmd : list value) :
  emits (fun e => ~ is_render e) (Sh_run ext cmd).
Proof. apply emits_Sh_run. simpl. auto. Qed.

(** A run of the proxy applier renders once, first, with the context
    that [apache_render_args] builds. *)
Lemma apache_apply_events (ext : Ext) (m : dict) w w' evs r :
  apache_apply ext m w = (w', evs, r) ->
  evs = [] \/
  exists tpl ctx rest,
    apache_render_args ext m = Ok (tpl, ctx) /\
    evs = ERender tpl (VDict ctx) :: rest /\ Forall (fun e => ~ is_render e) rest.
Proof.
  unfold apache_apply. intros H.
  apply bind_inv in H as [(e & H & _) | (w1 & t1 & [tpl ctx] & t2 & H1 & H & ->)].
  { apply lift_inv in H as (_ & -> & _). left. reflexivity. }
  apply lift_inv in H1 as (-> & -> & Hargs). right. exists tpl, ctx.
  cbn [fst snd] in H.
  apply bind_inv in H as [(e & H & _) | (w1 & t1 & vhost & t3 & H1 & H & ->)].
  { injection H as <- <- _. exists []. auto. }
  injection H1 as <- <- _. exists t3. repeat split; auto.
  refine ((_ : emits (fun e => ~ is_render e) _) _ _ _ _ H).
  apply emits_bind; [apply emits_lift | intros fqdn].
  apply emits_bind; [apply write_file_no_render | intros _].
  apply emits_bind; [apply Sh_run_no_render | intros _].
  apply Sh_run_no_render.
Qed.

Lemma converge_docker (ext : Ext) (m : dict) :
  converge ext (VStr "docker") m
  = (deploy_code ext m;;
     docker_apply ext m;;
     if dict_has "apache" m then
       m' <- lift (resolve_backend ext m);;
       apache_apply ext m';;
       ret m'
     else ret m).
Proof. reflexivity. Qed.

(** C6. For every container-stack ([docker]) manifest with a proxy
    ([apache]) sub-record, everything the reverse proxy applier does,
    the writing of the site file included, comes after the deployer and
    the container stack applier have finished and the published endpoint
    has been resolved; and the backend host and port of the context the
    site file is rendered from are exactly the host and the port parsed
    from [docker.publish.http_target], never a default or a value the
    manifest carried. *)
Theorem docker_proxy_uses_published_endpoint
    (ext : Ext) (m : dict) (w w' : World) (evs : list event) (r : res dict) :
  dict_has "apache" m = true ->
  converge ext (VStr "docker") m w = (w', evs, r) ->
  exists w1 evs1 r1 evs2,
    (deploy_code ext m;; docker_apply ext m) w = (w1, evs1, r1) /\
    evs = evs1 ++ evs2 /\
    (evs2 = [] \/
     exists m' hp host port n r2,
       r1 = Ok tt /\
       published_endpoint m = Ok (VStr hp) /\
       split_on ":"%char hp = [host; port] /\
       int_of_str ext port = Some n /\
       resolve_backend ext m = Ok m' /\
       apache_apply ext m' w1 = (w', evs2, r2) /\
       exists tpl ctx rest,
         evs2 = ERender tpl (VDict ctx) :: rest /\
         Forall (fun e => ~ is_render e) rest /\
         dict_get "backend_host" ctx = Some (VStr host) /\
         dict_get "backend_port" ctx = Some (VInt n)).
Proof.
  intros Hproxy H. rewrite converge_docker, Hproxy in H.
  apply bind_inv in H as [(e & H & _) | (w0 & t0 & [] & t & H0 & H & ->)].
  { exists w', evs, (Err e), []. rewrite app_nil_r.
    split; [apply bind_err; exact H | auto]. }
  apply bind_inv in H as [(e & H & _) | (w1 & t1 & [] & t2 & H1 & H & ->)].
  { exists w', (t0 ++ t), (Err e), []. rewrite app_nil_r.
    split; [eapply bind_ok; eassumption | auto]. }
  exists w1, (t0 ++ t1), (Ok tt), t2.
  split; [eapply bind_ok; eassumption |].
  split; [apply app_assoc |].
  apply bind_inv in H as [(e & H & _) | (w2 & t3 & m' & t4 & H2 & H & ->)].
  { apply lift_inv in H as (_ & -> & _). left. reflexivity. }
  apply lift_inv in H2 as (-> & -> & Hres).
  assert (exists r2, apache_apply ext m' w1 = (w', t4, r2)) as [r2 Happ].
  { apply bind_inv in H as [(e & H & _) | (w3 & t5 & [] & t6 & H3 & H & ->)].
    - eauto.
    - injection H as <- <- _. rewrite app_nil_r. eauto. }
  destruct (apache_apply_events _ _ _ _ _ _ Happ)
    as [-> | (tpl & ctx & rest & Hargs & -> & Hrest)]; [left; reflexivity |].
  right. destruct (resolve_backend_inv _ _ _ Hres)
    as (hp & host & port & n & backend & Hhp & Hsplit & Hint & Hm').
  exists m', hp, host, port, n, r2. repeat split; auto.
  exists tpl, ctx, rest. split; [reflexivity |]. split; [exact Hrest |].
  eapply apache_render_args_backend; [| | | exact Hargs].
  - rewrite Hm', dict_get_set. reflexivity.
  - rewrite dict_get_set. simpl String.eqb. rewrite dict_get_set. reflexivity.
  - rewrite dict_get_set. reflexivity.
Qed.

Lemma docker_proxy_uses_published_endpoint_witness :
  let run := converge Demo.host (VStr "docker") Demo.container_stack
               Demo.empty_world in
  exists w1 evs1 r1 evs2,
    (deploy_code Demo.host Demo.container_stack;;
     docker_apply Demo.host Demo.container_stack) Demo.empty_world
    = (w1, evs1, r1) /\
    snd (fst run) = evs1 ++ evs2 /\
    (evs2 = [] \/
     exists m' hp host port n r2,
       r1 = Ok tt /\
       published_endpoint Demo.container_stack = Ok (VStr hp) /\
       split_on ":"%char hp = [host; port] /\
       int_of_str Demo.host port = Some n /\
       resolve_backend Demo.host Demo.container_stack = Ok m' /\
       apache_apply Demo.host m' w1 = (fst (fst run), evs2, r2) /\
       exists tpl ctx rest,
         evs2 = ERender tpl (VDict ctx) :: rest /\
         Forall (fun e => ~ is_render e) rest /\
         dict_get "backend_host" ctx = Some (VStr host) /\
         dict_get "backend_port" ctx = Some (VInt n)).
Proof.
  intros run.
  apply (docker_proxy_uses_published_endpoint Demo.host Demo.container_stack
           Demo.empty_world (fst (fst run)) (snd (fst run)) (snd run)).
  - reflexivity.
  - vm_compute. reflexivity.
Defined.

(** ** Certification *)

Lemma Sh_run_ok (ext : Ext) (cmd : list value) (argv : list string) w w' :
  all_str cmd = Ok argv -> spawn ext argv w = (w', Some 0) ->
  Sh_run ext cmd w = (w', [ERun argv], Ok tt).
Proof.
  intros Hargv Hspawn. unfold Sh_run. rewrite Hargv, bind_lift_ok, Hspawn.
  reflexivity.
Qed.

Lemma Sh_run_fail (ext : Ext) (cmd : list value) (argv : list string) w w' rc :
  all_str cmd = Ok argv -> spawn ext argv w = (w', Some rc) -> rc <> 0 ->
  Sh_run ext cmd w = (w', [ERun argv], Err (CalledProcessError argv rc)).
Proof.
  intros Hargv Hspawn Hrc. unfold Sh_run. rewrite Hargv, bind_lift_ok, Hspawn.
  destruct (Z.eqb_spec rc 0); [contradiction | reflexivity].
Qed.

(** C1, as the program has it. For every manifest with [ssl] set, a
    failure of the certificate command after the convergence steps have
    succeeded reverts none of them: the program issues nothing after
    the failed command, so the host is left as that command left it.  But
    the failure is not a warning: it ends [apply] with the command's
    error, before the health check, and the process exits with status 1. *)
Theorem certification_failure_is_fatal
    (ext : Ext) (m m' : dict) (kind : value) (fqdn : string)
    (w w1 w2 : World) (evs1 : list event) (rc : Z) :
  dict_get "kind" m = Some kind ->
  converge ext kind m w = (w1, evs1, Ok m') ->
  truthy (dict_get_or "ssl" VNone m') = true ->
  dict_get "fqdn" m' = Some (VStr fqdn) ->
  spawn ext (certbot_argv fqdn) w1 = (w2, Some rc) ->
  rc <> 0 ->
  apply_manifest ext m w
    = (w2, evs1 ++ [ERun (certbot_argv fqdn)],
       Err (CalledProcessError (certbot_argv fqdn) rc)) /\
  exit_code (snd (apply_manifest ext m w)) = 1.
Proof.
  intros Hkind Hconv Hssl Hfqdn Hspawn Hrc.
  assert (Hrun : apply_manifest ext m w
                 = (w2, evs1 ++ [ERun (certbot_argv fqdn)],
                    Err (CalledProcessError (certbot_argv fqdn) rc))).
  { unfold apply_manifest.
    rewrite (dict_item_some _ _ _ Hkind), bind_lift_ok.
    erewrite bind_ok; cycle 1.
    - exact Hconv.
    - apply bind_err. unfold certify. rewrite Hssl.
      rewrite (dict_item_some _ _ _ Hfqdn), bind_lift_ok.
      unfold ensure_ssl. rewrite bind_lift_ok.
      apply Sh_run_fail; [reflexivity | exact Hspawn | exact Hrc].
    - reflexivity. }
  split; [exact Hrun | rewrite Hrun; reflexivity].
Qed.

Lemma certification_failure_is_fatal_witness :
  let run := converge Demo.host_without_certificates (VStr "flutter")
               Demo.static_site_tls Demo.empty_world in
  apply_manifest Demo.host_without_certificates Demo.static_site_tls Demo.empty_world
    = (fst (fst run), snd (fst run) ++ [ERun (certbot_argv "example.org")],
       Err (CalledProcessError (certbot_argv "example.org") 1)) /\
  exit_code (snd (apply_manifest Demo.host_without_certificates
                    Demo.static_site_tls Demo.empty_world)) = 1.
Proof.
  intros run.
  apply (certification_failure_is_fatal Demo.host_without_certificates
           Demo.static_site_tls Demo.static_site_tls (VStr "flutter")
           "example.org" Demo.empty_world (fst (fst run)) (fst (fst run))
           (snd (fst run)) 1).
  - reflexivity.
  - vm_compute. reflexivity.
  - reflexivity.
  - reflexivity.
  - reflexivity.
  - lia.
Defined.

(** C1 as the specification words it does not hold: on a host whose
    certificate tool fails, applying a static site with [ssl] set
    converges the site and then exits with status 1. *)
Lemma certification_failure_is_nonfatal_refuted :
  ~ certification_failure_is_nonfatal.
Proof.
  intros Hclaim.
  pose (run := converge Demo.host_without_certificates (VStr "flutter")
                 Demo.static_site_tls Demo.empty_world).
  specialize (Hclaim Demo.host_without_certificates Demo.static_site_tls
                Demo.static_site_tls (VStr "flutter") "example.org"
                Demo.empty_world (fst (fst run)) (fst (fst run))
                (snd (fst run)) 1).
  assert (H : exit_code (snd (apply_manifest Demo.host_without_certificates
                                Demo.static_site_tls Demo.empty_world)) = 1)
    by (vm_compute; reflexivity).
  rewrite Hclaim in H; [discriminate | reflexivity | vm_compute; reflexivity
                       | reflexivity | reflexivity | reflexivity | lia].
Qed.

Lemma Sh_run_inv_ok (ext : Ext) (cmd : list value) w w' t :
  Sh_run ext cmd w = (w', t, Ok tt) ->
  exists argv, all_str cmd = Ok argv /\ t = [ERun argv] /\
               spawn ext argv w = (w', Some 0).
Proof.
  unfold Sh_run. intros H.
  apply bind_inv_ok in H as (w1 & t1 & argv & t2 & H1 & H & ->).
  apply lift_inv in H1 as (-> & -> & Hargv).
  exists argv. split; [exact Hargv |].
  destruct (spawn ext argv w) as [w2 [rc |]]; [| discriminate H].
  destruct (rc =? 0) eqn:Hrc; [| discriminate H].
  apply Z.eqb_eq in Hrc as ->. injection H as <- <-. auto.
Qed.

Lemma all_str_head (s : string) (rest : list value) (argv : list string) :
  all_str (VStr s :: rest) = Ok argv ->
  exists tl, argv = s :: tl /\ all_str rest = Ok tl.
Proof.
  simpl. destruct (all_str rest) as [tl | e]; [| discriminate].
  intros [= <-]. eauto.
Qed.

Lemma render_inv (ext : Ext) (tpl : string) (ctx : dict) w w' t r :
  render ext tpl ctx w = (w', t, r) ->
  w' = w /\ t = [ERender tpl (VDict ctx)] /\ r = render_template ext tpl (VDict ctx).
Proof. unfold render. intros [= <- <- <-]. auto. Qed.

(** ** Static sites *)

Lemma converge_flutter (ext : Ext) (m : dict) :
  converge ext (VStr "flutter") m
  = (apache_apply ext m;;
     docroot <- lift (document_root m);;
     do_fs (EMkdir docroot);;
     ret m).
Proof. reflexivity. Qed.

Lemma document_root_inv (m : dict) (docroot : string) :
  document_root m = Ok docroot ->
  exists flutter,
    dict_get "flutter" m = Some (VDict flutter) /\
    dict_get "document_root" flutter = Some (VStr docroot).
Proof.
  unfold document_root. intros H.
  apply rbind_inv in H as (fl & Hfl & H).
  apply rbind_inv in H as (p & Hp & H).
  destruct p; try discriminate. injection H as ->.
  unfold dict_item in Hfl. destruct (dict_get "flutter" m) as [v |]; [| discriminate].
  injection Hfl as ->. destruct fl as [| | | | | flutter]; try discriminate.
  exists flutter. split; [reflexivity |].
  simpl in Hp. unfold dict_item in Hp.
  destruct (dict_get "document_root" flutter); [| discriminate].
  injection Hp as ->. reflexivity.
Qed.

(** C5, as the program has it. For every static-site ([flutter])
    manifest on which [apply] gets through its branch, the reverse proxy
    applier runs first: it renders the site configuration pointing at the
    document root, writes it, enables it and reloads the proxy; only then
    is the document root directory created, and it exists at the end. *)
Theorem static_site_docroot_after_proxy
    (ext : Ext) (m m' : dict) (docroot : string) (w w' : World)
    (evs : list event) :
  document_root m = Ok docroot ->
  converge ext (VStr "flutter") m w = (w', evs, Ok m') ->
  exists w1 tpl ctx rest,
    apache_apply ext m w = (w1, ERender tpl (VDict ctx) :: rest, Ok tt) /\
    dict_get "docroot" ctx = Some (VStr docroot) /\
    Forall (fun e => ~ is_render e) rest /\
    evs = ERender tpl (VDict ctx) :: rest ++ [EMkdir docroot] /\
    fs_step (EMkdir docroot) w1 = Ok w' /\
    is_dir w' docroot = true.
Proof.
  intros Hroot H. rewrite converge_flutter in H.
  apply bind_inv_ok in H as (w1 & t1 & [] & t2 & Happ & H & ->).
  rewrite Hroot, bind_lift_ok in H.
  apply bind_inv_ok in H as (w2 & t3 & [] & t4 & Hmk & H & ->).
  injection H as <- <- _.
  apply do_fs_inv in Hmk as (-> & [(Hmk & _) | (x & _ & _ & [=])]).
  destruct (apache_apply_events _ _ _ _ _ _ Happ)
    as [-> | (tpl & ctx & rest & Hargs & -> & Hrest)].
  { exfalso. unfold apache_apply in Happ.
    apply bind_inv_ok in Happ as (? & ? & ? & ? & _ & Happ & Ht).
    apply bind_inv_ok in Happ as (? & ? & ? & ? & Hr & _ & ->).
    injection Hr as _ <- _. destruct x0; discriminate. }
  exists w1, tpl, ctx, rest. split; [exact Happ |].
  split.
  { apply apache_render_args_inv in Hargs
      as (fqdn & bh & bp & dr & lp & -> & _ & _ & Hdr).
    destruct (document_root_inv _ _ Hroot) as (flutter & Hfl & Hd).
    rewrite (dict_get_or_some _ _ _ _ Hfl) in Hdr. simpl in Hdr.
    rewrite (dict_get_or_some _ _ _ _ Hd) in Hdr. injection Hdr as <-.
    reflexivity. }
  split; [exact Hrest |].
  split; [rewrite app_nil_r; reflexivity |].
  split; [exact Hmk |].
  simpl in Hmk. apply make_dirs_spec in Hmk as (_ & _ & _ & Hc).
  unfold is_dir. rewrite (bool_decide_eq_true_2 (docroot ∈ dirs w2)).
  - apply orb_true_r.
  - apply Hc, in_or_app. right. left. reflexivity.
Qed.

Lemma static_site_docroot_after_proxy_witness :
  let run := converge Demo.host (VStr "flutter") Demo.static_site
               Demo.empty_world in
  exists w1 tpl ctx rest,
    apache_apply Demo.host Demo.static_site Demo.empty_world
    = (w1, ERender tpl (VDict ctx) :: rest, Ok tt) /\
    dict_get "docroot" ctx = Some (VStr "/srv/www/example") /\
    Forall (fun e => ~ is_render e) rest /\
    snd (fst run) = ERender tpl (VDict ctx) :: rest ++ [EMkdir "/srv/www/example"] /\
    fs_step (EMkdir "/srv/www/example") w1 = Ok (fst (fst run)) /\
    is_dir (fst (fst run)) "/srv/www/example" = true.
Proof.
  intros run.
  apply (static_site_docroot_after_proxy Demo.host Demo.static_site
           Demo.static_site "/srv/www/example" Demo.empty_world
           (fst (fst run)) (snd (fst run))).
  - reflexivity.
  - vm_compute. reflexivity.
Defined.

(** C5 as the specification words it does not hold: applying the static
    site of the first end-to-end scenario renders, writes and enables the
    site before [/srv/www/example] is created. *)
Lemma docroot_ensured_first_refuted : ~ docroot_ensured_first.
Proof.
  intros Hclaim.
  pose (run := converge Demo.host (VStr "flutter") Demo.static_site
                 Demo.empty_world).
  assert (Hrun : exists tpl ctx post,
             run = (fst (fst run), ERender tpl ctx :: post, Ok Demo.static_site)).
  { vm_compute. eauto. }
  destruct Hrun as (tpl & ctx & post & Hrun).
  exact (Hclaim Demo.host Demo.static_site Demo.static_site "/srv/www/example"
           Demo.empty_world (fst (fst run)) (ERender tpl ctx :: post) [] post
           tpl ctx eq_refl Hrun eq_refl).
Qed.

(** ** Missing sub-records *)

Lemma required_subrecord_cases (kind : value) (sub : string) :
  required_subrecord kind = Some sub ->
  (eq_str kind "fastapi" || eq_str kind "streamlit" = true /\ sub = "service") \/
  (kind = VStr "flutter" /\ sub = "flutter") \/
  (kind = VStr "docker" /\ sub = "docker").
Proof.
  unfold required_subrecord.
  destruct (eq_str kind "fastapi" || eq_str kind "streamlit") eqn:Hn.
  { intros [= <-]. auto. }
  destruct (eq_str kind "flutter") eqn:Hf.
  { intros [= <-]. right. left. split; [| reflexivity].
    destruct kind; try discriminate. apply String.eqb_eq in Hf as ->. reflexivity. }
  destruct (eq_str kind "docker") eqn:Hd; [| discriminate].
  intros [= <-]. right. right. split; [| reflexivity].
  destruct kind; try discriminate. apply String.eqb_eq in Hd as ->. reflexivity.
Qed.

Lemma converge_native (ext : Ext) (kind : value) (m : dict) :
  eq_str kind "fastapi" || eq_str kind "streamlit" = true ->
  converge ext kind m
  = (deploy_code ext m;; systemd_apply ext m;; apache_apply ext m;; ret m).
Proof. intros H. unfold converge. rewrite H. reflexivity. Qed.

Lemma systemd_apply_no_service (ext : Ext) (m : dict) (w : World) :
  dict_get "service" m = None ->
  systemd_apply ext m w = (w, [], Err (KeyError "service")).
Proof.
  intros H. unfold systemd_apply, systemd_render_args.
  rewrite (dict_item_none _ _ H). reflexivity.
Qed.

Lemma docker_apply_no_docker (ext : Ext) (m : dict) (w : World) (compose : string) :
  dict_get "docker" m = None ->
  render_template ext "docker/docker-compose.j2" (VDict m) = Ok compose ->
  docker_apply ext m w
  = (w, [ERender "docker/docker-compose.j2" (VDict m)], Err (KeyError "docker")).
Proof.
  intros H Hr. unfold docker_apply.
  erewrite bind_ok; cycle 1.
  - unfold render. rewrite Hr. reflexivity.
  - unfold docker_item. rewrite (dict_item_none _ _ H). reflexivity.
  - reflexivity.
Qed.

(** C4, as the program has it. The program does not validate a manifest
    up front. For every manifest whose kind lacks the sub-record it
    requires ([service] for a native service, [flutter] for a static
    site, [docker] for a container stack), [apply] never completes the
    branch of the kind; once the steps that precede the first read of the
    sub-record have succeeded it stops there with a lookup error on the
    missing key (exit status 1, not 2), and the effects of those steps,
    commands issued and files written, stay. *)
Theorem missing_subrecord_fails_late
    (ext : Ext) (m : dict) (kind : value) (sub : string) (w : World) :
  required_subrecord kind = Some sub ->
  dict_get sub m = None ->
  (forall w' evs r, converge ext kind m w = (w', evs, r) -> exists e, r = Err e) /\
  (forall w1 evs1,
      steps_before_subrecord ext kind m w = (w1, evs1, Ok tt) ->
      converge ext kind m w = (w1, evs1, Err (KeyError sub)) /\
      exit_code (snd (converge ext kind m w)) = 1).
Proof.
  intros Hreq Hnone.
  apply required_subrecord_cases in Hreq
    as [(Hk & ->) | [(-> & ->) | (-> & ->)]].
  - rewrite (converge_native _ _ _ Hk). unfold steps_before_subrecord. rewrite Hk.
    split.
    + intros w' evs r H.
      apply bind_inv in H as [(e & _ & ->) | (w1 & t1 & [] & t2 & _ & H & _)]; [eauto |].
      apply bind_inv in H as [(e & _ & ->) | (w2 & t3 & [] & t4 & H & _ & _)]; [eauto |].
      rewrite (systemd_apply_no_service _ _ _ Hnone) in H. discriminate.
    + intros w1 evs1 Hdep.
      assert (Hrun : (deploy_code ext m;; systemd_apply ext m;; apache_apply ext m;; ret m) w
                     = (w1, evs1, Err (KeyError "service"))).
      { erewrite bind_ok; cycle 1.
        - exact Hdep.
        - apply bind_err. apply systemd_apply_no_service, Hnone.
        - rewrite app_nil_r. reflexivity. }
      rewrite Hrun. auto.
  - rewrite converge_flutter. split.
    + intros w' evs r H.
      apply bind_inv in H as [(e & _ & ->) | (w1 & t1 & [] & t2 & _ & H & _)]; [eauto |].
      unfold document_root in H. rewrite (dict_item_none _ _ Hnone) in H.
      injection H as _ _ <-. eauto.
    + intros w1 evs1 Happ. change (steps_before_subrecord ext (VStr "flutter") m)
        with (apache_apply ext m) in Happ.
      assert (Hrun : (apache_apply ext m;;
                      docroot <- lift (document_root m);;
                      do_fs (EMkdir docroot);; ret m) w
                     = (w1, evs1, Err (KeyError "flutter"))).
      { erewrite bind_ok; cycle 1.
        - exact Happ.
        - unfold document_root. rewrite (dict_item_none _ _ Hnone). reflexivity.
        - rewrite app_nil_r. reflexivity. }
      rewrite Hrun. auto.
  - rewrite converge_docker. split.
    + intros w' evs r H.
      apply bind_inv in H as [(e & _ & ->) | (w1 & t1 & [] & t2 & _ & H & _)]; [eauto |].
      apply bind_inv in H as [(e & _ & ->) | (w2 & t3 & [] & t4 & H & _ & _)]; [eauto |].
      unfold docker_apply in H.
      apply bind_inv_ok in H as (w3 & t5 & compose & t6 & _ & H & _).
      unfold docker_item in H. rewrite (dict_item_none _ _ Hnone) in H.
      discriminate.
    + intros w1 evs1 Hpre.
      change (steps_before_subrecord ext (VStr "docker") m)
        with (deploy_code ext m;; render ext "docker/docker-compose.j2" m;; ret tt)
        in Hpre.
      apply bind_inv_ok in Hpre as (w0 & t0 & [] & t & Hdep & Hpre & ->).
      apply bind_inv_ok in Hpre as (w2 & t1 & compose & t2 & Hren & Hret & ->).
      injection Hret as <- <-. injection Hren as <- <- Hren.
      assert (Hrun : (deploy_code ext m;;
                      docker_apply ext m;;
                      (if dict_has "apache" m
                       then m' <- lift (resolve_backend ext m);;
                            apache_apply ext m';; ret m'
                       else ret m)) w
                     = (w0, t0 ++ [ERender "docker/docker-compose.j2" (VDict m)] ++ [],
                        Err (KeyError "docker"))).
      { erewrite bind_ok; cycle 1.
        - exact Hdep.
        - apply bind_err. eapply docker_apply_no_docker; eassumption.
        - rewrite app_nil_r. reflexivity. }
      rewrite Hrun. auto.
Qed.

Lemma missing_subrecord_fails_late_witness :
  let run := apache_apply Demo.host Demo.static_site_incomplete Demo.empty_world in
  converge Demo.host (VStr "flutter") Demo.static_site_incomplete Demo.empty_world
    = (fst (fst run), snd (fst run), Err (KeyError "flutter")) /\
  exit_code (snd (converge Demo.host (VStr "flutter")
                    Demo.static_site_incomplete Demo.empty_world)) = 1.
Proof.
  intros run.
  apply (missing_subrecord_fails_late Demo.host Demo.static_site_incomplete
           (VStr "flutter") "flutter" Demo.empty_world eq_refl eq_refl).
  vm_compute. reflexivity.
Defined.

(** C4 as the specification words it does not hold: a static site
    without its [flutter] sub-record has its site file written and
    enabled before [apply] fails. *)
Lemma missing_subrecord_fails_fast_refuted : ~ missing_subrecord_fails_fast.
Proof.
  intros Hclaim.
  pose (run := apply_manifest Demo.host Demo.static_site_incomplete
                 Demo.empty_world).
  destruct (Hclaim Demo.host Demo.static_site_incomplete (VStr "flutter")
              "flutter" Demo.empty_world (fst (fst run)) (snd (fst run))
              (snd run) eq_refl eq_refl eq_refl)
    as (_ & Hevs & _).
  - vm_compute. reflexivity.
  - vm_compute in Hevs. discriminate Hevs.
Qed.

(** ** The code deployer *)

Lemma write_file_no_command (path content : string) (mode : Z) :
  emits proxy_command (write_file path content mode).
Proof.
  unfold write_file.
  repeat first [ apply emits_bind; [| intros ?]
               | apply emits_do_fs; intros argv [=]
               | apply emits_lift ].
Qed.

Lemma apache_apply_commands (ext : Ext) (m : dict) :
  emits proxy_command (apache_apply ext m).
Proof.
  unfold apache_apply.
  apply emits_bind; [apply emits_lift | intros args].
  apply emits_bind; [apply emits_render; intros argv [=] | intros vhost].
  apply emits_bind; [apply emits_lift | intros fqdn].
  apply emits_bind; [apply write_file_no_command | intros _].
  apply emits_bind; [| intros _];
    apply emits_Sh_run; intros argv [= <-] argv' [= <-]; eauto.
Qed.

(** C2, as the program has it. Whether [apply] runs the code deployer
    is decided by the kind, not by the source record.  For a native
    service ([fastapi], [streamlit]) and for a container stack
    ([docker]) the deployer is the first step of the branch, with or
    without a source, and when it fails the branch ends there with its
    error.  A static site ([flutter]) never runs it, with or without a
    source: the only commands its branch issues are the proxy's
    [a2ensite] and reload. *)
Theorem deployer_runs_by_kind
    (ext : Ext) (m : dict) (kind : value) (w w1 : World)
    (evs1 : list event) (r1 : res unit) :
  deploys kind = true ->
  deploy_code ext m w = (w1, evs1, r1) ->
  (exists rest, events_of (converge ext kind m w) = evs1 ++ rest) /\
  (forall e, r1 = Err e -> converge ext kind m w = (w1, evs1, Err e)) /\
  emits proxy_command (converge ext (VStr "flutter") m).
Proof.
  intros Hk Hdep.
  assert (Hshape : exists k : unit -> M dict,
             converge ext kind m = bind (deploy_code ext m) k).
  { unfold deploys in Hk.
    destruct (eq_str kind "fastapi" || eq_str kind "streamlit") eqn:Hn.
    - rewrite (converge_native _ _ _ Hn). eauto.
    - simpl in Hk. destruct kind; try discriminate.
      apply String.eqb_eq in Hk as ->. rewrite converge_docker. eauto. }
  destruct Hshape as [k ->]. split; [| split].
  - unfold events_of, bind. rewrite Hdep. destruct r1 as [[] | e].
    + destruct (k tt w1) as [[w2 t2] r2]. simpl. eauto.
    + exists []. simpl. rewrite app_nil_r. reflexivity.
  - intros e ->. apply bind_err. exact Hdep.
  - rewrite converge_flutter.
    apply emits_bind; [apply apache_apply_commands | intros _].
    apply emits_bind; [apply emits_lift | intros docroot].
    apply emits_bind; [apply emits_do_fs; intros argv [=] | intros _].
    apply emits_ret.
Qed.

Lemma deployer_runs_by_kind_witness :
  let run := deploy_code Demo.host Demo.container_stack Demo.empty_world in
  (exists rest,
      events_of (converge Demo.host (VStr "docker") Demo.container_stack
                   Demo.empty_world) = snd (fst run) ++ rest) /\
  (forall e, snd run = Err e ->
      converge Demo.host (VStr "docker") Demo.container_stack Demo.empty_world
      = (fst (fst run), snd (fst run), Err e)) /\
  emits proxy_command
    (converge Demo.host (VStr "flutter") Demo.container_stack).
Proof.
  intros run.
  apply (deployer_runs_by_kind Demo.host Demo.container_stack (VStr "docker")
           Demo.empty_world (fst (fst run)) (snd (fst run)) (snd run)).
  - reflexivity.
  - vm_compute. reflexivity.
Defined.

(** C2 as the specification words it does not hold: a static site that
    declares a source is applied without the deployer running. *)
Lemma deploys_iff_source_refuted : ~ deploys_iff_source.
Proof.
  intros Hclaim.
  destruct (Hclaim Demo.host Demo.static_site_with_source (VStr "flutter")
              Demo.empty_world eq_refl) as [_ Hruns].
  destruct (Hruns eq_refl) as (w1 & evs1 & r1 & rest & Hdep & Hne & Hevs).
  vm_compute in Hdep. injection Hdep as _ <- _.
  vm_compute in Hevs. discriminate Hevs.
Qed.

(** With a source declared and a checkout in place the deployer issues
    no [git] command at all: what it runs, if anything, are the
    pre-install steps. *)
Lemma deploy_code_existing_checkout_no_git
    (ext : Ext) (m : dict) (wd : string) (w w' : World)
    (evs : list event) (r : res unit) :
  working_dir m = Ok wd ->
  dict_has "scm" m = true ->
  (forall w1, fs_step (EMkdir wd) w = Ok w1 ->
              path_exists w1 (path_join wd ".git") = true) ->
  deploy_code ext m w = (w', evs, r) ->
  Forall preinstall_command evs.
Proof.
  intros Hwd Hscm Hgit H. unfold deploy_code in H.
  rewrite Hwd, bind_lift_ok, Hscm in H.
  apply bind_inv in H as [(e & H & _) | (w1 & t1 & [] & t2 & H1 & H & ->)].
  { apply do_fs_inv in H as (-> & _). repeat constructor. intros argv [=]. }
  apply do_fs_inv in H1 as (-> & [(Hmk & _) | (x & _ & _ & [=])]).
  specialize (Hgit _ Hmk).
  apply Forall_app. split; [repeat constructor; intros argv [=] |].
  apply bind_inv in H as [(e & H & _) | (w2 & t3 & [] & t4 & Hco & H & ->)].
  - apply bind_inv in H as [(e1 & H & _) | (? & ? & scm & ? & H1 & H & ->)];
      [apply lift_inv in H as (_ & -> & _); constructor |].
    apply lift_inv in H1 as (-> & -> & _).
    apply bind_inv in H as [(e1 & H & _) | (? & ? & repo & ? & H1 & H & ->)];
      [apply lift_inv in H as (_ & -> & _); constructor |].
    apply lift_inv in H1 as (-> & -> & _).
    apply bind_inv in H as [(e1 & H & _) | (? & ? & branch & ? & H1 & H & ->)];
      [apply lift_inv in H as (_ & -> & _); constructor |].
    apply lift_inv in H1 as (-> & -> & _).
    apply bind_inv in H as [(e1 & H & _) | (? & ? & checkout & ? & H1 & H & ->)];
      [discriminate H |].
    injection H1 as <- <- <-. rewrite Hgit in H. discriminate H.
  - apply Forall_app. split.
    + apply bind_inv_ok in Hco as (? & ? & scm & ? & H1 & Hco & ->).
      apply lift_inv in H1 as (-> & -> & _).
      apply bind_inv_ok in Hco as (? & ? & repo & ? & H1 & Hco & ->).
      apply lift_inv in H1 as (-> & -> & _).
      apply bind_inv_ok in Hco as (? & ? & branch & ? & H1 & Hco & ->).
      apply lift_inv in H1 as (-> & -> & _).
      apply bind_inv_ok in Hco as (? & ? & checkout & ? & H1 & Hco & ->).
      injection H1 as <- <- <-. rewrite Hgit in Hco.
      injection Hco as _ <-. constructor.
    + refine ((_ : emits preinstall_command _) _ _ _ _ H).
      apply emits_bind; [apply emits_lift | intros steps].
      apply emits_for_each. intros cmd.
      apply emits_Sh_run. intros argv [= <-] argv' [= <-]. eauto.
Qed.

(** C3 on the program. On a host where the working directory of a
    native service already holds a checkout, the deployer of a manifest
    that declares its source issues no command at all: it creates the
    (existing) directory and returns, with neither a fetch nor a reset,
    so the files in the working directory stay as they were. *)
Theorem deploy_code_existing_checkout_untouched :
  deploy_code Demo.host Demo.native_service Demo.world_with_checkout
  = (Demo.world_with_checkout, [EMkdir "/srv/api"], Ok tt).
Proof. vm_compute. reflexivity. Qed.

(** ** Applying twice *)

Ltac guarded_steps :=
  repeat first
    [ apply guarded_Sh_run; assumption
    | apply guarded_lift
    | apply guarded_ret
    | apply guarded_raise
    | apply guarded_for_each; intros ?
    | apply guarded_state
    | apply guarded_bind; [| intros ?]
    | apply guarded_do_fs; auto
    | match goal with
      | |- guarded _ _ (if ?b then _ else _) => destruct b
      end ].

Section Frames.

Variable ext : Ext.
Variable I : World -> Prop.
Variable P : event -> Prop.

Hypothesis P_run :
  forall argv w, P (ERun argv) -> I w -> I (fst (spawn ext argv w)).
Hypothesis I_mkdir : forall p w w', fs_step (EMkdir p) w = Ok w' -> I w -> I w'.

Lemma guarded_deploy_code (m : dict) : guarded I P (deploy_code ext m).
Proof. unfold deploy_code. guarded_steps; apply I_mkdir. Qed.

Lemma guarded_certify (m : dict) : guarded I P (certify ext m).
Proof. unfold certify, ensure_ssl. guarded_steps. Qed.

Lemma guarded_healthcheck (m : dict) : guarded I P (healthcheck ext m).
Proof.
  unfold healthcheck.
  apply guarded_bind; [apply guarded_lift | intros url].
  destruct (truthy url); [| apply guarded_ret].
  apply guarded_bind; [apply guarded_lift | intros timeout].
  intros w w' t r H _ HI.
  destruct (requests_get ext url timeout w); injection H as <- _ _; exact HI.
Qed.

Hypothesis I_fs : forall e w w', fs_step e w = Ok w' -> I w -> I w'.

Lemma guarded_write_file (path content : string) (mode : Z) :
  guarded I P (write_file path content mode).
Proof. unfold write_file. guarded_steps; apply I_fs. Qed.

Lemma guarded_apache_apply (m : dict) : guarded I P (apache_apply ext m).
Proof. unfold apache_apply, render. guarded_steps; apply I_fs. Qed.

Lemma guarded_systemd_apply (m : dict) : guarded I P (systemd_apply ext m).
Proof. unfold systemd_apply, render. cbv zeta. guarded_steps; apply I_fs. Qed.

Lemma guarded_docker_apply (m : dict) : guarded I P (docker_apply ext m).
Proof. unfold docker_apply, render. guarded_steps; apply I_fs. Qed.

Lemma guarded_converge (kind : value) (m : dict) : guarded I P (converge ext kind m).
Proof.
  unfold converge, echo.
  repeat first
    [ apply guarded_deploy_code | apply guarded_apache_apply
    | apply guarded_systemd_apply | apply guarded_docker_apply
    | apply guarded_lift | apply guarded_ret | apply guarded_raise
    | apply guarded_state
    | apply guarded_bind; [| intros ?]
    | apply guarded_do_fs; apply I_fs
    | match goal with
      | |- guarded _ _ (if ?b then _ else _) => destruct b
      end ].
Qed.

Lemma guarded_apply_manifest (m : dict) : guarded I P (apply_manifest ext m).
Proof.
  unfold apply_manifest.
  apply guarded_bind; [apply guarded_lift | intros kind].
  apply guarded_bind; [apply guarded_converge | intros m'].
  apply guarded_bind; [apply guarded_certify | intros _].
  apply guarded_healthcheck.
Qed.

End Frames.

Lemma assigns_app (ws1 ws2 : list (string * file)) (k : string) (x : option file) :
  assigns (ws1 ++ ws2) k x = assigns ws2 k (assigns ws1 k x).
Proof.
  revert x. induction ws1 as [| [p f] ws1 IH]; intros x; simpl; [reflexivity | apply IH].
Qed.

(** At a given path a sequence of writes either changes nothing or
    fixes the file, whatever was there. *)
Lemma assigns_id_or_const (ws : list (string * file)) (k : string) :
  (forall x, assigns ws k x = x) \/ (exists c, forall x, assigns ws k x = c).
Proof.
  induction ws as [| [p f] ws IH]; simpl; [left; reflexivity |].
  destruct IH as [Hid | [c Hc]]; [| right; exists c; intros x; apply Hc].
  unfold assign. destruct (decide (k = p)).
  - right. exists (Some f). intros x. apply Hid.
  - destruct (decide (k = p +:+ ".tmp")).
    + right. exists None. intros x. apply Hid.
    + left. intros x. apply Hid.
Qed.

Lemma assigns_idempotent (ws : list (string * file)) (k : string) (x : option file) :
  assigns ws k (assigns ws k x) = assigns ws k x.
Proof.
  destruct (assigns_id_or_const ws k) as [Hid | [c Hc]].
  - rewrite !Hid. reflexivity.
  - rewrite !Hc. reflexivity.
Qed.

Section Determined.

Variable ext : Ext.
Variable k : string.

Lemma writes_nothing {A} (m : M A) :
  (forall x, guarded (fun w => files w !! k = x) (leaves_file ext k) m) ->
  writes ext k [] m.
Proof.
  intros H w w' t a Hrun HP. exact (H (files w !! k) _ _ _ _ Hrun HP eq_refl).
Qed.

Lemma frame_spawn (x : option file) argv w :
  leaves_file ext k (ERun argv) ->
  files w !! k = x -> files (fst (spawn ext argv w)) !! k = x.
Proof. intros H <-. exact (H argv eq_refl w). Qed.

Lemma frame_mkdir (x : option file) p w w' :
  fs_step (EMkdir p) w = Ok w' -> files w !! k = x -> files w' !! k = x.
Proof.
  intros Hs <-. eapply fs_step_untouched; [exact Hs | simpl; tauto].
Qed.

Lemma writes_bind {A B} (ws1 ws2 : list (string * file)) (m : M A) (f : A -> M B) :
  writes ext k ws1 m -> (forall a, writes ext k ws2 (f a)) ->
  writes ext k (ws1 ++ ws2) (bind m f).
Proof.
  intros Hm Hf w w' t b H HP.
  apply bind_inv_ok in H as (w1 & t1 & a & t2 & H1 & H2 & ->).
  apply Forall_app in HP as [HP1 HP2].
  rewrite assigns_app, <- (Hm _ _ _ _ H1 HP1). exact (Hf a _ _ _ _ H2 HP2).
Qed.

Lemma determined_nothing {A} (m : M A) : writes ext k [] m -> determined ext k m.
Proof. intros H. exists []. exact H. Qed.

Lemma determined_ret {A} (a : A) : determined ext k (ret a).
Proof. exists []. intros w w' t a' [= <- _ _] _. reflexivity. Qed.

Lemma determined_bind_unit {B} (m : M unit) (f : unit -> M B) :
  determined ext k m -> determined ext k (f tt) -> determined ext k (bind m f).
Proof.
  intros [ws1 H1] [ws2 H2]. exists (ws1 ++ ws2).
  apply writes_bind; [exact H1 | intros []; exact H2].
Qed.

Lemma determined_bind_nothing {A B} (m : M A) (f : A -> M B) :
  determined ext k m -> (forall a, writes ext k [] (f a)) ->
  determined ext k (bind m f).
Proof.
  intros [ws1 H1] H2. exists (ws1 ++ []). apply writes_bind; assumption.
Qed.

Lemma determined_bind_lift {A B} (r : res A) (f : A -> M B) :
  (forall a, determined ext k (f a)) -> determined ext k (bind (lift r) f).
Proof.
  intros Hf. destruct r as [a | e].
  - destruct (Hf a) as [ws H]. exists ws. intros w w' t b Hrun.
    rewrite bind_lift_ok in Hrun. exact (H _ _ _ _ Hrun).
  - exists []. intros w w' t b Hrun. discriminate Hrun.
Qed.

Lemma determined_bind_render {B} (tpl : string) (ctx : dict) (f : string -> M B) :
  (forall text, determined ext k (f text)) ->
  determined ext k (bind (render ext tpl ctx) f).
Proof.
  intros Hf. destruct (render_template ext tpl (VDict ctx)) as [text | e] eqn:Hr.
  - destruct (Hf text) as [ws H]. exists ws. intros w w' t b Hrun HP.
    apply bind_inv_ok in Hrun as (w1 & t1 & a & t2 & H1 & H2 & ->).
    apply Forall_app in HP as [_ HP2].
    unfold render in H1. rewrite Hr in H1. injection H1 as <- _ <-.
    exact (H _ _ _ _ H2 HP2).
  - exists []. intros w w' t b Hrun.
    apply bind_inv_ok in Hrun as (w1 & t1 & a & t2 & H1 & _).
    unfold render in H1. rewrite Hr in H1. discriminate H1.
Qed.

Lemma determined_write_file (path content : string) (mode : Z) :
  determined ext k (write_file path content mode).
Proof.
  exists [(path, (content, mode))]. intros w w' t [] H _.
  apply write_file_returns in H as (_ & _ & Hf & _). rewrite Hf.
  simpl. unfold assign. destruct (decide (k = path)) as [-> | Hne].
  - apply lookup_insert_eq.
  - rewrite lookup_insert_ne by congruence.
    destruct (decide (k = path +:+ ".tmp")) as [-> | Hne'].
    + apply lookup_delete_eq.
    + apply lookup_delete_ne. congruence.
Qed.

Lemma determined_Sh_run (cmd : list value) : determined ext k (Sh_run ext cmd).
Proof.
  apply determined_nothing, writes_nothing. intros x.
  apply guarded_Sh_run. intros argv w. apply frame_spawn.
Qed.

Lemma determined_deploy_code (m : dict) : determined ext k (deploy_code ext m).
Proof.
  apply determined_nothing, writes_nothing. intros x.
  apply guarded_deploy_code; [intros argv w; apply frame_spawn | apply frame_mkdir].
Qed.

Lemma determined_apache_apply (m : dict) : determined ext k (apache_apply ext m).
Proof.
  unfold apache_apply.
  apply determined_bind_lift. intros args.
  apply determined_bind_render. intros vhost.
  apply determined_bind_lift. intros fqdn.
  apply determined_bind_unit; [apply determined_write_file |].
  apply determined_bind_unit; apply determined_Sh_run.
Qed.

Lemma determined_systemd_apply (m : dict) : determined ext k (systemd_apply ext m).
Proof.
  unfold systemd_apply.
  apply determined_bind_lift. intros args. cbv zeta.
  apply determined_bind_render. intros unit.
  apply determined_bind_unit; [apply determined_write_file |].
  apply determined_bind_unit; apply determined_Sh_run.
Qed.

Lemma determined_docker_apply (m : dict) : determined ext k (docker_apply ext m).
Proof.
  unfold docker_apply.
  apply determined_bind_render. intros compose.
  apply determined_bind_lift. intros compose_path.
  apply determined_bind_unit; [apply determined_write_file |].
  apply determined_bind_lift. intros project.
  apply determined_Sh_run.
Qed.

Lemma determined_converge (kind : value) (m : dict) :
  determined ext k (converge ext kind m).
Proof.
  unfold converge.
  destruct (eq_str kind "fastapi" || eq_str kind "streamlit").
  { apply determined_bind_unit; [apply determined_deploy_code |].
    apply determined_bind_unit; [apply determined_systemd_apply |].
    apply determined_bind_unit; [apply determined_apache_apply |].
    apply determined_ret. }
  destruct (eq_str kind "flutter").
  { apply determined_bind_unit; [apply determined_apache_apply |].
    apply determined_bind_lift. intros docroot.
    apply determined_bind_unit; [| apply determined_ret].
    apply determined_nothing, writes_nothing. intros x.
    apply guarded_do_fs, frame_mkdir. }
  destruct (eq_str kind "docker").
  { apply determined_bind_unit; [apply determined_deploy_code |].
    apply determined_bind_unit; [apply determined_docker_apply |].
    destruct (dict_has "apache" m); [| apply determined_ret].
    apply determined_bind_lift. intros m'.
    apply determined_bind_unit; [apply determined_apache_apply |].
    apply determined_ret. }
  exists []. intros w w' t a H.
  apply bind_inv_ok in H as (? & ? & ? & ? & _ & H & _). discriminate H.
Qed.

Lemma determined_apply_manifest (m : dict) :
  determined ext k (apply_manifest ext m).
Proof.
  unfold apply_manifest.
  apply determined_bind_lift. intros kind.
  apply determined_bind_nothing; [apply determined_converge |].
  intros m'. apply writes_nothing. intros x.
  apply guarded_bind; [| intros _].
  - apply guarded_certify. intros argv w. apply frame_spawn.
  - apply guarded_healthcheck.
Qed.

End Determined.

Lemma Forall_commands (Q : list string -> Prop) (t : list event) :
  (forall argv, In (ERun argv) t -> Q argv) ->
  Forall (fun e => forall argv, e = ERun argv -> Q argv) t.
Proof.
  intros H. apply List.Forall_forall. intros e He argv ->. apply H, He.
Qed.

(** *** The commands of a run *)

Lemma recurring_app (t1 t2 : list event) :
  recurring (t1 ++ t2) = recurring t1 ++ recurring t2.
Proof.
  induction t1 as [| e t1 IH]; [reflexivity |].
  destruct e; simpl; try exact IH.
  destruct (is_clone argv); simpl; rewrite IH; reflexivity.
Qed.

Section Steady.

Variable ext : Ext.

Lemma steady_lift {A} (r : res A) : steady (lift r).
Proof.
  intros w1 w1' t1 a1 w2 w2' t2 a2 H1 H2.
  apply lift_inv in H1 as (_ & -> & H1). apply lift_inv in H2 as (_ & -> & H2).
  split; congruence.
Qed.

Lemma steady_ret {A} (a : A) : steady (ret a).
Proof. apply steady_lift. Qed.

Lemma steady_raise {A} (e : exn) : steady (@raise A e).
Proof. apply (steady_lift (Err e)). Qed.

Lemma steady_bind {A B} (m : M A) (f : A -> M B) :
  steady m -> (forall a, steady (f a)) -> steady (bind m f).
Proof.
  intros Hm Hf w1 w1' t1 b1 w2 w2' t2 b2 H1 H2.
  apply bind_inv_ok in H1 as (u1 & s1 & a1 & s1' & Hm1 & Hf1 & ->).
  apply bind_inv_ok in H2 as (u2 & s2 & a2 & s2' & Hm2 & Hf2 & ->).
  destruct (Hm _ _ _ _ _ _ _ _ Hm1 Hm2) as [Es <-].
  destruct (Hf a1 _ _ _ _ _ _ _ _ Hf1 Hf2) as [Es' <-].
  rewrite !recurring_app, Es, Es'. auto.
Qed.

(** A step without a result that issues no command but, at most, a
    clone. *)
Lemma steady_quiet (m : M unit) :
  (forall w w' t a, m w = (w', t, Ok a) -> recurring t = []) -> steady m.
Proof.
  intros Hm w1 w1' t1 [] w2 w2' t2 [] H1 H2.
  rewrite (Hm _ _ _ _ H1), (Hm _ _ _ _ H2). auto.
Qed.

Lemma steady_do_fs (e : event) : (forall argv, e <> ERun argv) -> steady (do_fs e).
Proof.
  intros He. apply steady_quiet. intros w w' t a H.
  apply do_fs_inv in H as [-> _]. destruct e; try reflexivity.
  destruct (He argv eq_refl).
Qed.

Lemma steady_echo (line : string) : steady (echo line).
Proof. apply steady_quiet. intros w w' t a [= _ <-]. reflexivity. Qed.

Lemma steady_render (tpl : string) (ctx : dict) : steady (render ext tpl ctx).
Proof.
  intros w1 w1' t1 a1 w2 w2' t2 a2 H1 H2.
  apply render_inv in H1 as (_ & -> & H1). apply render_inv in H2 as (_ & -> & H2).
  split; congruence.
Qed.

Lemma steady_Sh_run (cmd : list value) : steady (Sh_run ext cmd).
Proof.
  intros w1 w1' t1 [] w2 w2' t2 [] H1 H2.
  apply Sh_run_inv_ok in H1 as (argv1 & E1 & -> & _).
  apply Sh_run_inv_ok in H2 as (argv2 & E2 & -> & _).
  split; congruence.
Qed.

Lemma steady_for_each {A} (xs : list A) (body : A -> M unit) :
  (forall x, steady (body x)) -> steady (for_each xs body).
Proof.
  intros Hb. induction xs as [| x xs IH]; simpl.
  - apply steady_ret.
  - apply steady_bind; auto.
Qed.

Lemma steady_write_file (path content : string) (mode : Z) :
  steady (write_file path content mode).
Proof.
  apply steady_quiet. intros w w' t [] H.
  apply write_file_returns in H as (-> & _). reflexivity.
Qed.

Lemma steady_apache_apply (m : dict) : steady (apache_apply ext m).
Proof.
  unfold apache_apply.
  apply steady_bind; [apply steady_lift | intros args].
  apply steady_bind; [apply steady_render | intros vhost].
  apply steady_bind; [apply steady_lift | intros fqdn].
  apply steady_bind; [apply steady_write_file | intros _].
  apply steady_bind; [apply steady_Sh_run | intros _].
  apply steady_Sh_run.
Qed.

Lemma steady_systemd_apply (m : dict) : steady (systemd_apply ext m).
Proof.
  unfold systemd_apply.
  apply steady_bind; [apply steady_lift | intros args]. cbv zeta.
  apply steady_bind; [apply steady_render | intros unit].
  apply steady_bind; [apply steady_write_file | intros _].
  apply steady_bind; [apply steady_Sh_run | intros _].
  apply steady_Sh_run.
Qed.

Lemma steady_docker_apply (m : dict) : steady (docker_apply ext m).
Proof.
  unfold docker_apply.
  apply steady_bind; [apply steady_render | intros compose].
  apply steady_bind; [apply steady_lift | intros compose_path].
  apply steady_bind; [apply steady_write_file | intros _].
  apply steady_bind; [apply steady_lift | intros project].
  apply steady_Sh_run.
Qed.

(** The one step of [apply] that looks at the host before it chooses
    its command: the clone, issued only where no checkout is found. *)
Lemma steady_clone (probe : M bool) (branch repo : value) (wd : string) :
  (forall w w' t b, probe w = (w', t, Ok b) -> t = []) ->
  steady (checkout <- probe;;
          if negb checkout
          then Sh_run ext [VStr "git"; VStr "clone"; VStr "--depth=1";
                           VStr "--branch"; branch; repo; VStr wd]
          else ret tt).
Proof.
  intros Hprobe. apply steady_quiet. intros w w' t [] H.
  apply bind_inv_ok in H as (w1 & t1 & checkout & t2 & Hp & H & ->).
  rewrite (Hprobe _ _ _ _ Hp). simpl app.
  destruct (negb checkout).
  - apply Sh_run_inv_ok in H as (argv & Hargv & -> & _).
    apply all_str_head in Hargv as (tl & -> & Hargv).
    apply all_str_head in Hargv as (tl' & -> & _). reflexivity.
  - injection H as _ <-. reflexivity.
Qed.

Lemma steady_deploy_code (m : dict) : steady (deploy_code ext m).
Proof.
  unfold deploy_code.
  apply steady_bind; [apply steady_lift | intros wd].
  apply steady_bind; [apply steady_do_fs; discriminate | intros _].
  apply steady_bind; [| intros _].
  - destruct (dict_has "scm" m).
    + apply steady_bind; [apply steady_lift | intros scm].
      apply steady_bind; [apply steady_lift | intros repo].
      apply steady_bind; [apply steady_lift | intros branch].
      apply steady_clone. intros w w' t b [= _ <- _]. reflexivity.
    + apply steady_bind; [apply steady_raise | intros branch].
      apply steady_bind; [apply steady_Sh_run | intros _].
      apply steady_Sh_run.
  - apply steady_bind; [apply steady_lift | intros preinstall].
    apply steady_for_each. intros cmd. apply steady_Sh_run.
Qed.

Lemma steady_converge (kind : value) (m : dict) : steady (converge ext kind m).
Proof.
  unfold converge.
  destruct (eq_str kind "fastapi" || eq_str kind "streamlit").
  { apply steady_bind; [apply steady_deploy_code | intros _].
    apply steady_bind; [apply steady_systemd_apply | intros _].
    apply steady_bind; [apply steady_apache_apply | intros _].
    apply steady_ret. }
  destruct (eq_str kind "flutter").
  { apply steady_bind; [apply steady_apache_apply | intros _].
    apply steady_bind; [apply steady_lift | intros docroot].
    apply steady_bind; [apply steady_do_fs; discriminate | intros _].
    apply steady_ret. }
  destruct (eq_str kind "docker").
  - apply steady_bind; [apply steady_deploy_code | intros _].
    apply steady_bind; [apply steady_docker_apply | intros _].
    destruct (dict_has "apache" m); [| apply steady_ret].
    apply steady_bind; [apply steady_lift | intros m'].
    apply steady_bind; [apply steady_apache_apply | intros _].
    apply steady_ret.
  - apply steady_bind; [apply steady_echo | intros _]. apply steady_raise.
Qed.

Lemma steady_certify (m : dict) : steady (certify ext m).
Proof.
  unfold certify. destruct (truthy _); [| apply steady_ret].
  apply steady_bind; [apply steady_lift | intros fqdn].
  unfold ensure_ssl.
  apply steady_bind; [apply steady_lift | intros tail].
  apply steady_Sh_run.
Qed.

Lemma steady_healthcheck (m : dict) : steady (healthcheck ext m).
Proof.
  unfold healthcheck. cbv zeta.
  apply steady_bind; [apply steady_lift | intros url].
  destruct (truthy url); [| apply steady_ret].
  apply steady_bind; [apply steady_lift | intros timeout].
  apply steady_quiet. intros w w' t a H.
  destruct (requests_get ext url timeout w); injection H as _ <-; reflexivity.
Qed.

Lemma steady_apply_manifest (m : dict) : steady (apply_manifest ext m).
Proof.
  unfold apply_manifest.
  apply steady_bind; [apply steady_lift | intros kind].
  apply steady_bind; [apply steady_converge | intros m'].
  apply steady_bind; [apply steady_certify | intros _].
  apply steady_healthcheck.
Qed.

End Steady.

(** C7, as the program has it. For every manifest on which two applies
    in a row both succeed: every file that the commands issued by the
    two applies leave alone, each generated artifact (site file, unit
    file, container descriptor) among them, is byte for byte the same
    after the second apply as after the first; leaving out any
    [git clone], the commands that the second apply issues are exactly
    those of the first, in the same order; and the state of the process
    manager and the container runtime, which only commands change, is
    the one the first apply reached provided the commands of the second
    apply leave that state as it is. *)
Theorem apply_twice
    (ext : Ext) (m : dict) (w0 w1 w2 : World) (e1 e2 : list event) :
  apply_manifest ext m w0 = (w1, e1, Ok tt) ->
  apply_manifest ext m w1 = (w2, e2, Ok tt) ->
  (forall k,
      (forall argv, In (ERun argv) (e1 ++ e2) ->
         forall w, files (fst (spawn ext argv w)) !! k = files w !! k) ->
      files w2 !! k = files w1 !! k) /\
  recurring e2 = recurring e1 /\
  ((forall argv, In (ERun argv) e2 ->
      forall w, runtime w = runtime w1 ->
                runtime (fst (spawn ext argv w)) = runtime w1) ->
   runtime w2 = runtime w1).
Proof.
  intros H1 H2. split; [| split].
  - intros k Hframe.
    apply (Forall_commands
             (fun argv => forall w, files (fst (spawn ext argv w)) !! k = files w !! k))
      in Hframe.
    apply Forall_app in Hframe as [HP1 HP2].
    destruct (determined_apply_manifest ext k m) as [ws Hws].
    rewrite (Hws _ _ _ _ H2 HP2), (Hws _ _ _ _ H1 HP1). apply assigns_idempotent.
  - apply (steady_apply_manifest ext m _ _ _ _ _ _ _ _ H2 H1).
  - intros Hspawn.
    apply (Forall_commands
             (fun argv => forall w, runtime w = runtime w1 ->
                                    runtime (fst (spawn ext argv w)) = runtime w1))
      in Hspawn.
    refine (guarded_apply_manifest ext (fun w => runtime w = runtime w1)
              (leaves_runtime ext (runtime w1)) _ _ _ m _ _ _ _ H2 Hspawn eq_refl).
    + intros argv w HP. exact (HP argv eq_refl w).
    + intros p w w' Hs <-. eapply fs_step_runtime, Hs.
    + intros e w w' Hs <-. eapply fs_step_runtime, Hs.
Qed.

(** On the demonstration host the static site is idempotent outright. *)
Lemma apply_twice_witness :
  let run1 := apply_manifest Demo.host Demo.static_site Demo.empty_world in
  let w1 := fst (fst run1) in
  let run2 := apply_manifest Demo.host Demo.static_site w1 in
  let w2 := fst (fst run2) in
  (forall k, files w2 !! k = files w1 !! k) /\
  recurring (snd (fst run2)) = recurring (snd (fst run1)) /\
  runtime w2 = runtime w1.
Proof.
  intros run1 w1 run2 w2.
  destruct (apply_twice Demo.host Demo.static_site Demo.empty_world w1 w2
              (snd (fst run1)) (snd (fst run2)))
    as [Hfiles [Hcommands Hruntime]].
  - vm_compute. reflexivity.
  - vm_compute. reflexivity.
  - split; [| split; [exact Hcommands |]].
    + intros k. apply Hfiles. intros argv Hin w.
      vm_compute in Hin.
      repeat (destruct Hin as [Hin | Hin];
              [try discriminate Hin; injection Hin as <-; reflexivity |]).
      destruct Hin.
    + apply Hruntime. intros argv Hin w Hw.
      vm_compute in Hin.
      repeat (destruct Hin as [Hin | Hin];
              [try discriminate Hin; injection Hin as <-; exact Hw |]).
      destruct Hin.
Defined.

(** C7 as the specification words it does not hold: the container stack
    below has a pre-install step that starts a container; the step runs
    on every apply, so the runtime shows two of them after the second
    apply and one after the first. *)
Lemma apply_is_idempotent_refuted : ~ apply_is_idempotent.
Proof.
  intros Hclaim.
  pose (run1 := apply_manifest Demo.host Demo.container_stack Demo.empty_world).
  pose (run2 := apply_manifest Demo.host Demo.container_stack (fst (fst run1))).
  destruct (Hclaim Demo.host Demo.container_stack Demo.empty_world
              (fst (fst run1)) (fst (fst run2)) (snd (fst run1)) (snd (fst run2)))
    as [_ Hruntime].
  - vm_compute. reflexivity.
  - vm_compute. reflexivity.
  - vm_compute in Hruntime. discriminate Hruntime.
Qed.

(** * Further properties of the program *)

(** ** Loading a manifest *)

(** X1. [load_manifest] only reads: whatever it returns, the host is as
    it was and nothing is emitted.  When it returns a manifest, the file
    exists and parses to a mapping, the key [__manifest_path] holds the
    path it was loaded from (replacing one the file may carry), and
    every other key is as parsed. *)
Theorem load_manifest_reads_only
    (ext : Ext) (p : string) (w w' : World) (evs : list event) (r : res dict) :
  load_manifest ext p w = (w', evs, r) ->
  w' = w /\ evs = [] /\
  forall m, r = Ok m ->
    exists text md d,
      files w !! p = Some (text, md) /\
      yaml_safe_load ext text = Ok (VDict d) /\
      dict_get "__manifest_path" m = Some (VStr p) /\
      forall k, k <> "__manifest_path" -> dict_get k m = dict_get k d.
Proof.
  unfold load_manifest, read_text. intros H.
  apply bind_inv in H as [(e & H & ->) | (w1 & t1 & text & t2 & H1 & H & ->)].
  { cbv beta in H. destruct (files w !! p) as [[text md] |]; [discriminate H |].
    injection H as <- <- _. repeat split; auto. discriminate. }
  cbv beta in H1. destruct (files w !! p) as [[text0 md] |] eqn:Hfile; [| discriminate H1].
  injection H1 as <- <- <-.
  apply bind_inv in H as [(e & H & ->) | (w2 & t3 & data & t4 & H1 & H & ->)].
  - apply lift_inv in H as (-> & -> & _). repeat split; auto. discriminate.
  - apply lift_inv in H1 as (-> & -> & Hyaml).
    destruct data; injection H as <- <- <-; repeat split; auto; try discriminate.
    intros m [= <-]. exists text0, md, d. repeat split; auto.
    + rewrite dict_get_set. reflexivity.
    + intros k Hk. rewrite dict_get_set.
      destruct (String.eqb_spec k "__manifest_path"); [contradiction | reflexivity].
Qed.

Lemma load_manifest_reads_only_witness :
  let w := Demo.world_with "/opt/publisher/apps/x.yml" "kind: unknown-kind" in
  let run := load_manifest Demo.host "/opt/publisher/apps/x.yml" w in
  fst (fst run) = w /\ snd (fst run) = [] /\
  forall m, snd run = Ok m ->
    exists text md d,
      files w !! "/opt/publisher/apps/x.yml" = Some (text, md) /\
      yaml_safe_load Demo.host text = Ok (VDict d) /\
      dict_get "__manifest_path" m = Some (VStr "/opt/publisher/apps/x.yml") /\
      forall k, k <> "__manifest_path" -> dict_get k m = dict_get k d.
Proof.
  intros w run.
  apply (load_manifest_reads_only Demo.host "/opt/publisher/apps/x.yml" w
           (fst (fst run)) (snd (fst run)) (snd run)).
  vm_compute. reflexivity.
Defined.

(** ** The certificate command *)

Lemma after_dot_app (host rest : string) :
  after_dot host = None -> after_dot (host +:+ "." +:+ rest) = Some rest.
Proof.
  induction host as [| c host IH]; [reflexivity |].
  rewrite append_cons. simpl.
  destruct (Ascii.eqb c "."); [discriminate | exact IH].
Qed.

(** X2. The contact address that [ensure_ssl] passes to certbot is
    [admin@] followed by what comes after the first dot of the domain:
    for [host.rest] with no dot in [host] it is [admin@rest] (so
    [admin@org] for [example.org]); for a name without a dot it is
    [admin@] the name itself.  One command is issued, for the full
    domain.  A domain that is not a string raises before any command. *)
Theorem ensure_ssl_contact_address (ext : Ext) (host rest : string) (w : World) :
  after_dot host = None ->
  events_of (ensure_ssl ext (VStr (host +:+ "." +:+ rest)) w)
    = [ERun ["sudo"; "certbot"; "--apache"; "-n"; "--agree-tos"; "-m";
             "admin@" +:+ rest; "-d"; host +:+ "." +:+ rest; "--redirect"]] /\
  events_of (ensure_ssl ext (VStr host) w)
    = [ERun ["sudo"; "certbot"; "--apache"; "-n"; "--agree-tos"; "-m";
             "admin@" +:+ host; "-d"; host; "--redirect"]] /\
  forall v, (forall s, v <> VStr s) ->
            ensure_ssl ext v w = (w, [], Err AttributeError).
Proof.
  intros Hhost.
  assert (Hev : forall fqdn tail, after_first_dot fqdn = tail ->
            events_of (ensure_ssl ext (VStr fqdn) w)
            = [ERun ["sudo"; "certbot"; "--apache"; "-n"; "--agree-tos"; "-m";
                     "admin@" +:+ tail; "-d"; fqdn; "--redirect"]]).
  { intros fqdn tail <-. unfold events_of, ensure_ssl. rewrite bind_lift_ok.
    unfold Sh_run. simpl all_str. rewrite bind_lift_ok.
    match goal with
    | |- context [spawn ext ?a w] => destruct (spawn ext a w) as [w1 [rc |]]
    end; [destruct (rc =? 0) |]; reflexivity. }
  split; [| split].
  - apply Hev. unfold after_first_dot. rewrite (after_dot_app _ _ Hhost). reflexivity.
  - apply Hev. unfold after_first_dot. rewrite Hhost. reflexivity.
  - intros v Hv. destruct v; try reflexivity. exfalso. exact (Hv s eq_refl).
Qed.

Lemma ensure_ssl_contact_address_witness :
  events_of (ensure_ssl Demo.host (VStr ("api" +:+ "." +:+ "example.org"))
               Demo.empty_world)
  = [ERun ["sudo"; "certbot"; "--apache"; "-n"; "--agree-tos"; "-m";
           "admin@" +:+ "example.org"; "-d"; "api" +:+ "." +:+ "example.org";
           "--redirect"]].
Proof.
  apply (ensure_ssl_contact_address Demo.host "api" "example.org" Demo.empty_world).
  reflexivity.
Defined.

(** ** More on the file writer *)

Lemma set_files_same (w : World) : set_files (files w) w = w.
Proof. destruct w. reflexivity. Qed.

Lemma make_dirs_none (chain : list string) (w w' : World) :
  make_dirs chain w = Ok w' -> forall q, In q chain -> files w !! q = None.
Proof.
  revert w. induction chain as [| q0 chain IH]; simpl; intros w H q Hq; [destruct Hq |].
  destruct (files w !! q0) eqn:Hq0; [discriminate |].
  destruct Hq as [<- | Hq]; [exact Hq0 |].
  exact (IH _ H q Hq).
Qed.

Lemma make_dirs_present (chain : list string) (w : World) :
  (forall q, In q chain -> q ∈ dirs w /\ files w !! q = None) ->
  make_dirs chain w = Ok w.
Proof.
  induction chain as [| q chain IH]; simpl; intros H; [reflexivity |].
  destruct (H q (or_introl eq_refl)) as [Hd Hf]. rewrite Hf.
  replace (set_dirs ({[q]} ∪ dirs w) w) with w.
  - apply IH. intros q' Hq'. apply H. right. exact Hq'.
  - destruct w as [f d rt]. unfold set_dirs. simpl in *. f_equal.
    symmetry. apply subseteq_union_1_L. intros x Hx.
    apply elem_of_singleton in Hx as ->. exact Hd.
Qed.

Lemma write_file_leaves_no_tmp_aux
    (path content : string) (mode : Z) (w w' : World) (evs : list event) :
  write_file path content mode w = (w', evs, Ok tt) ->
  files w' !! path = Some (content, mode) /\
  files w' !! (path +:+ ".tmp") = None /\
  (forall k, k <> path -> k <> path +:+ ".tmp" -> files w' !! k = files w !! k).
Proof.
  intros H. apply write_file_returns in H as (_ & _ & Hf & _).
  split; [rewrite Hf; apply lookup_insert_eq |].
  split.
  { rewrite Hf, lookup_insert_ne
      by (intros E; exact (tmp_suffix_fresh path (eq_sym E))).
    apply lookup_delete_eq. }
  intros k Hk Hk'. rewrite Hf, lookup_insert_ne, lookup_delete_ne by congruence.
  reflexivity.
Qed.

(** X3. When [write_file] returns, the target holds exactly the new
    content and mode, whatever it held and whatever mode it had before;
    the temporary file is gone, also one left behind by an earlier
    interrupted run; every other file is untouched, no directory has been
    removed, and the state of the external services is unchanged. *)
Theorem write_file_leaves_no_tmp
    (path content : string) (mode : Z) (w w' : World) (evs : list event) :
  write_file path content mode w = (w', evs, Ok tt) ->
  files w' !! path = Some (content, mode) /\
  files w' !! (path +:+ ".tmp") = None /\
  (forall k, k <> path -> k <> path +:+ ".tmp" -> files w' !! k = files w !! k) /\
  (forall q, q ∈ dirs w -> q ∈ dirs w') /\
  runtime w' = runtime w.
Proof.
  intros H. pose proof H as Hret.
  apply write_file_returns in Hret as (-> & Hw & Hf & Hr & _).
  split; [rewrite Hf; apply lookup_insert_eq |].
  split.
  { rewrite Hf, lookup_insert_ne
      by (intros E; exact (tmp_suffix_fresh path (eq_sym E))).
    apply lookup_delete_eq. }
  split.
  { intros k Hk Hk'. rewrite Hf, lookup_insert_ne, lookup_delete_ne by congruence.
    reflexivity. }
  split; [| exact Hr].
  unfold write_file in H.
  apply bind_inv_ok in H as (w1 & t1 & [] & t2 & H1 & H & _).
  apply bind_inv_ok in H as (w1' & t1' & tmp & t2' & Ht & H & _).
  apply lift_inv in Ht as (-> & _ & _).
  apply bind_inv_ok in H as (w2 & t3 & [] & t4 & H2 & H & _).
  apply bind_inv_ok in H as (w3 & t5 & [] & t6 & H3 & H4 & _).
  apply do_fs_inv in H1 as (_ & [(H1 & _) | (x & _ & _ & [=])]).
  apply do_fs_inv in H2 as (_ & [(H2 & _) | (x & _ & _ & [=])]).
  apply do_fs_inv in H3 as (_ & [(H3 & _) | (x & _ & _ & [=])]).
  apply do_fs_inv in H4 as (_ & [(H4 & _) | (x & _ & _ & [=])]).
  assert (Hd : dirs w' = dirs w1).
  { simpl in H2, H3, H4.
    destruct (bool_decide (tmp ∈ dirs w1)); [discriminate |].
    assert (dirs w2 = dirs w1) as D2.
    { destruct (files w1 !! tmp) as [[c md] |].
      - injection H2 as <-. reflexivity.
      - destruct (is_dir w1 (parent tmp)); [| discriminate].
        injection H2 as <-. reflexivity. }
    assert (dirs w3 = dirs w2) as D3.
    { destruct (files w2 !! tmp) as [[c md] |]; [| discriminate].
      injection H3 as <-. reflexivity. }
    destruct (files w3 !! tmp) as [f |]; [| discriminate].
    destruct (bool_decide (path ∈ dirs w3)); [discriminate |].
    injection H4 as <-. simpl. congruence. }
  intros q Hq. rewrite Hd. simpl in H1.
  apply make_dirs_spec in H1 as (_ & _ & Hsub & _). auto.
Qed.

Lemma write_file_leaves_no_tmp_witness :
  let w := Demo.world_with "/etc/systemd/system/shop.service.tmp" "torn" in
  let run := write_file "/etc/systemd/system/shop.service" "[Unit]" 420 w in
  files (fst (fst run)) !! "/etc/systemd/system/shop.service" = Some ("[Unit]", 420) /\
  files (fst (fst run)) !! ("/etc/systemd/system/shop.service" +:+ ".tmp") = None /\
  (forall k, k <> "/etc/systemd/system/shop.service" ->
             k <> "/etc/systemd/system/shop.service" +:+ ".tmp" ->
             files (fst (fst run)) !! k = files w !! k) /\
  (forall q, q ∈ dirs w -> q ∈ dirs (fst (fst run))) /\
  runtime (fst (fst run)) = runtime w.
Proof.
  intros w run.
  apply (write_file_leaves_no_tmp "/etc/systemd/system/shop.service" "[Unit]" 420
           w (fst (fst run)) (snd (fst run))).
  vm_compute. reflexivity.
Defined.

Lemma do_fs_ok (e : event) (w w' : World) :
  fs_step e w = Ok w' -> do_fs e w = (w', [e], Ok tt).
Proof. intros H. unfold do_fs. rewrite H. reflexivity. Qed.

Lemma fs_write_new (p c : string) (w : World) :
  p ∉ dirs w -> files w !! p = None -> is_dir w (parent p) = true ->
  fs_step (EWriteText p c) w
  = Ok (set_files (<[p := (c, default_mode)]> (files w)) w).
Proof.
  intros Hd Hf Hp. simpl. rewrite (bool_decide_eq_false_2 _ Hd), Hf, Hp. reflexivity.
Qed.

Lemma fs_chmod_ok (p c : string) (md0 md : Z) (w : World) :
  files w !! p = Some (c, md0) ->
  fs_step (EChmod p md) w = Ok (set_files (<[p := (c, md)]> (files w)) w).
Proof. intros Hf. simpl. rewrite Hf. reflexivity. Qed.

Lemma fs_replace_ok (src dst : string) (f : file) (w : World) :
  files w !! src = Some f -> dst ∉ dirs w ->
  fs_step (EReplace src dst) w
  = Ok (set_files (<[dst := f]> (delete src (files w))) w).
Proof.
  intros Hf Hd. simpl. rewrite Hf, (bool_decide_eq_false_2 _ Hd). reflexivity.
Qed.

(** What the first three steps of a successful [write_file] have
    established about the directories. *)
Lemma write_file_dirs (path content : string) (mode : Z) (w w' : World) evs :
  write_file path content mode w = (w', evs, Ok tt) ->
  with_tmp_suffix path = Ok (path +:+ ".tmp") /\
(path ∉ dirs w') /\ (path +:+ ".tmp" ∉ dirs w') /\
  forall q, In q (ancestors (parent path) ++ [parent path]) ->
            q ∈ dirs w' /\ files w !! q = None.
Proof.
  intros H. unfold write_file in H.
  apply bind_inv_ok in H as (w1 & t1 & [] & t2 & H1 & H & _).
  apply bind_inv_ok in H as (w1' & t1' & tmp & t2' & Ht & H & _).
  apply lift_inv in Ht as (-> & _ & Ht).
  destruct (with_tmp_suffix_inv _ _ Ht) as [-> _].
  apply bind_inv_ok in H as (w2 & t3 & [] & t4 & H2 & H & _).
  apply bind_inv_ok in H as (w3 & t5 & [] & t6 & H3 & H4 & _).
  apply do_fs_inv in H1 as (_ & [(H1 & _) | (x & _ & _ & [=])]).
  apply do_fs_inv in H2 as (_ & [(H2 & _) | (x & _ & _ & [=])]).
  apply do_fs_inv in H3 as (_ & [(H3 & _) | (x & _ & _ & [=])]).
  apply do_fs_inv in H4 as (_ & [(H4 & _) | (x & _ & _ & [=])]).
  simpl in H1. pose proof (make_dirs_none _ _ _ H1) as Hnone.
  apply make_dirs_spec in H1 as (_ & _ & _ & Hin).
  simpl in H2, H3, H4.
  destruct (bool_decide (path +:+ ".tmp" ∈ dirs w1)) eqn:Dtmp; [discriminate |].
  apply bool_decide_eq_false in Dtmp.
  assert (dirs w2 = dirs w1) as D2.
  { destruct (files w1 !! (path +:+ ".tmp")) as [[c md] |].
    - injection H2 as <-. reflexivity.
    - destruct (is_dir w1 (parent (path +:+ ".tmp"))); [| discriminate].
      injection H2 as <-. reflexivity. }
  assert (dirs w3 = dirs w2) as D3.
  { destruct (files w2 !! (path +:+ ".tmp")) as [[c md] |]; [| discriminate].
    injection H3 as <-. reflexivity. }
  destruct (files w3 !! (path +:+ ".tmp")) as [f |]; [| discriminate].
  destruct (bool_decide (path ∈ dirs w3)) eqn:Dpath; [discriminate |].
  apply bool_decide_eq_false in Dpath.
  injection H4 as <-. simpl. rewrite D3, D2 in *.
  repeat split; auto.
Qed.

(** X4. Writing the same file again changes nothing: after a
    [write_file] that returned, the same call returns again, with the
    same four steps, and leaves the host exactly as it found it. *)
Theorem write_file_again
    (path content : string) (mode : Z) (w w1 : World) (evs : list event) :
  write_file path content mode w = (w1, evs, Ok tt) ->
  write_file path content mode w1 = (w1, evs, Ok tt).
Proof.
  intros H.
  destruct (write_file_dirs _ _ _ _ _ _ H) as (Htmp & Dpath & Dtmp & Hchain).
  destruct (write_file_leaves_no_tmp_aux _ _ _ _ _ _ H) as (Hp & Ht & Hother).
  pose proof (write_file_returns _ _ _ _ _ _ H) as (-> & _ & _ & _ & Hdir).
  set (tmp := path +:+ ".tmp") in *.
  assert (S1 : fs_step (EMkdir (parent path)) w1 = Ok w1).
  { simpl. apply make_dirs_present. intros q Hq.
    destruct (Hchain q Hq) as [Hd Hn]. split; [exact Hd |].
    rewrite Hother; [exact Hn | |]; intros ->; contradiction. }
  assert (S2 : fs_step (EWriteText tmp content) w1
               = Ok (set_files (<[tmp := (content, default_mode)]> (files w1)) w1)).
  { apply fs_write_new; auto.
    rewrite (parent_tmp _ _ Htmp). exact Hdir. }
  assert (S3 : fs_step (EChmod tmp mode)
                 (set_files (<[tmp := (content, default_mode)]> (files w1)) w1)
               = Ok (set_files (<[tmp := (content, mode)]> (files w1)) w1)).
  { erewrite fs_chmod_ok by (simpl; apply lookup_insert_eq).
    simpl. rewrite insert_insert_eq. reflexivity. }
  assert (S4 : fs_step (EReplace tmp path)
                 (set_files (<[tmp := (content, mode)]> (files w1)) w1)
               = Ok w1).
  { erewrite fs_replace_ok; [| simpl; apply lookup_insert_eq | exact Dpath].
    simpl. rewrite delete_insert_eq, (delete_id _ _ Ht), (insert_id _ _ _ Hp).
    destruct w1. reflexivity. }
  unfold write_file.
  erewrite bind_ok; cycle 1.
  - apply do_fs_ok, S1.
  - rewrite Htmp, bind_lift_ok.
    erewrite bind_ok; cycle 1.
    + apply do_fs_ok, S2.
    + erewrite bind_ok; cycle 1.
      * apply do_fs_ok, S3.
      * apply do_fs_ok, S4.
      * reflexivity.
    + reflexivity.
  - reflexivity.
Qed.

Lemma write_file_again_witness :
  let run := write_file "/etc/systemd/system/shop.service" "[Unit]" 420
               Demo.empty_world in
  write_file "/etc/systemd/system/shop.service" "[Unit]" 420 (fst (fst run))
  = (fst (fst run), snd (fst run), Ok tt).
Proof.
  intros run.
  apply (write_file_again "/etc/systemd/system/shop.service" "[Unit]" 420
           Demo.empty_world).
  vm_compute. reflexivity.
Defined.

(** ** The unit and container appliers *)

(** X5. When [systemd_apply] returns, it has done exactly this, in this
    order: rendered the unit template, put the unit file in place with
    mode 0644 through the four steps of [write_file], reloaded the
    process manager, then enabled and started the unit.  The unit is
    named after the application, [name.service], and [name] is a string. *)
Theorem systemd_apply_steps
    (ext : Ext) (m : dict) (w w' : World) (evs : list event) :
  systemd_apply ext m w = (w', evs, Ok tt) ->
  exists name tpl ctx unit,
    dict_get "name" m = Some (VStr name) /\
    systemd_render_args ext m = Ok (name +:+ ".service", tpl, ctx) /\
    render_template ext tpl (VDict ctx) = Ok unit /\
    let path := path_join "/etc/systemd/system" (name +:+ ".service") in
    evs = [ERender tpl (VDict ctx);
           EMkdir (parent path);
           EWriteText (path +:+ ".tmp") unit;
           EChmod (path +:+ ".tmp") 420;
           EReplace (path +:+ ".tmp") path;
           ERun ["sudo"; "systemctl"; "daemon-reload"];
           ERun ["sudo"; "systemctl"; "enable"; "--now"; name +:+ ".service"]].
Proof.
  unfold systemd_apply. intros H.
  apply bind_inv_ok in H as (w0 & t0 & [[svc tpl] ctx] & t & Ha & H & ->).
  apply lift_inv in Ha as (-> & -> & Hargs). cbn [fst snd] in H. cbv zeta in H.
  apply bind_inv_ok in H as (w1 & t1 & unit & t2 & Hr & H & ->).
  apply render_inv in Hr as (-> & -> & Hr).
  apply bind_inv_ok in H as (w2 & t3 & [] & t4 & Hw & H & ->).
  apply write_file_returns in Hw as (-> & _).
  apply bind_inv_ok in H as (w3 & t5 & [] & t6 & H1 & H2 & ->).
  apply Sh_run_inv_ok in H1 as (argv1 & [= <-] & -> & _).
  apply Sh_run_inv_ok in H2 as (argv2 & [= <-] & -> & _).
  assert (exists name, dict_get "name" m = Some (VStr name) /\ svc = name +:+ ".service")
    as (name & Hname & ->).
  { pose proof Hargs as Hx. unfold systemd_render_args in Hx.
    apply rbind_inv in Hx as (service & _ & Hx).
    apply rbind_inv in Hx as (template & _ & Hx).
    apply rbind_inv in Hx as (nm & Hnm & Hx).
    apply rbind_inv in Hx as (name_s & Hs & Hx).
    repeat (apply rbind_inv in Hx as (? & _ & Hx)).
    injection Hx as <- _ _.
    destruct nm; try discriminate. injection Hs as ->.
    unfold dict_item in Hnm. destruct (dict_get "name" m); [| discriminate].
    injection Hnm as ->. eauto. }
  exists name, tpl, ctx, unit. repeat split; auto.
Qed.

Lemma systemd_apply_steps_witness :
  let run := systemd_apply Demo.host Demo.native_service Demo.empty_world in
  exists name tpl ctx unit,
    dict_get "name" Demo.native_service = Some (VStr name) /\
    systemd_render_args Demo.host Demo.native_service
      = Ok (name +:+ ".service", tpl, ctx) /\
    render_template Demo.host tpl (VDict ctx) = Ok unit /\
    let path := path_join "/etc/systemd/system" (name +:+ ".service") in
    snd (fst run)
    = [ERender tpl (VDict ctx);
       EMkdir (parent path);
       EWriteText (path +:+ ".tmp") unit;
       EChmod (path +:+ ".tmp") 420;
       EReplace (path +:+ ".tmp") path;
       ERun ["sudo"; "systemctl"; "daemon-reload"];
       ERun ["sudo"; "systemctl"; "enable"; "--now"; name +:+ ".service"]].
Proof.
  intros run.
  apply (systemd_apply_steps Demo.host Demo.native_service Demo.empty_world
           (fst (fst run)) (snd (fst run))).
  vm_compute. reflexivity.
Defined.

(** X6. A native service needs its [backend] sub-record: the deployer
    does without it (it falls back to [/srv/name]), but the unit applier
    reads [backend.working_dir] with no fallback.  So for a manifest of
    kind [fastapi] or [streamlit] without [backend] the branch never
    completes, and with a complete [service] record and a string name the
    unit applier raises the lookup error on [backend] before rendering or
    writing anything. *)
Theorem native_service_needs_backend
    (ext : Ext) (m service : dict) (kind template user group : value)
    (name : string) (w : World) :
  eq_str kind "fastapi" || eq_str kind "streamlit" = true ->
  dict_get "backend" m = None ->
  dict_get "service" m = Some (VDict service) ->
  dict_get "template" service = Some template ->
  dict_get "user" service = Some user ->
  dict_get "group" service = Some group ->
  dict_get "name" m = Some (VStr name) ->
  working_dir m = Ok (path_join "/srv" name) /\
  systemd_apply ext m w = (w, [], Err (KeyError "backend")) /\
  forall w' evs r, converge ext kind m w = (w', evs, r) -> exists e, r = Err e.
Proof.
  intros Hk Hb Hs Ht Hu Hg Hn.
  assert (Hsys : forall w0, systemd_apply ext m w0 = (w0, [], Err (KeyError "backend"))).
  { intros w0. unfold systemd_apply, systemd_render_args.
    rewrite (dict_item_some _ _ _ Hs). unfold rbind at 1.
    unfold item. rewrite (dict_item_some _ _ _ Ht). unfold rbind at 1.
    rewrite (dict_item_some _ _ _ Hn). unfold rbind at 1.
    unfold as_str. unfold rbind at 1.
    rewrite (dict_item_some _ _ _ Hu). unfold rbind at 1.
    rewrite (dict_item_some _ _ _ Hg). unfold rbind at 1.
    rewrite (dict_item_none _ _ Hb). reflexivity. }
  split; [| split].
  - unfold working_dir, dict_has. rewrite Hb, (dict_item_some _ _ _ Hn). reflexivity.
  - apply Hsys.
  - intros w' evs r H. rewrite (converge_native _ _ _ Hk) in H.
    apply bind_inv in H as [(e & _ & ->) | (w1 & t1 & [] & t2 & _ & H & _)]; [eauto |].
    apply bind_inv in H as [(e & _ & ->) | (w2 & t3 & [] & t4 & H & _ & _)]; [eauto |].
    rewrite Hsys in H. discriminate H.
Qed.

Lemma native_service_needs_backend_witness :
  let m := [("name", VStr "api"); ("kind", VStr "fastapi");
            ("fqdn", VStr "api.example.org");
            ("service", VDict [("template", VStr "fastapi.service.j2");
                               ("user", VStr "ubuntu"); ("group", VStr "ubuntu")])] in
  working_dir m = Ok (path_join "/srv" "api") /\
  systemd_apply Demo.host m Demo.empty_world
    = (Demo.empty_world, [], Err (KeyError "backend")) /\
  forall w' evs r,
    converge Demo.host (VStr "fastapi") m Demo.empty_world = (w', evs, r) ->
    exists e, r = Err e.
Proof.
  intros m.
  apply (native_service_needs_backend Demo.host m
           [("template", VStr "fastapi.service.j2");
            ("user", VStr "ubuntu"); ("group", VStr "ubuntu")]
           (VStr "fastapi") (VStr "fastapi.service.j2") (VStr "ubuntu")
           (VStr "ubuntu") "api" Demo.empty_world); reflexivity.
Defined.



(** X8. A project name that is not a string (a number, as YAML reads
    [project: 2024]) is only noticed when the command line is printed:
    [docker_apply] then never starts a command and never returns
    normally, and when rendering and writing have succeeded the compose
    file is in place and the error is a [TypeError]. *)
Theorem docker_apply_project_not_a_string
    (ext : Ext) (m : dict) (project : value) (w w' : World)
    (evs : list event) (r : res unit) :
  docker_item "project" m = Ok project ->
  (forall s, project <> VStr s) ->
  docker_apply ext m w = (w', evs, r) ->
  (exists e, r = Err e) /\
  Forall (fun e => forall argv, e <> ERun argv) evs /\
  (forall compose path w1 t1,
      render_template ext "docker/docker-compose.j2" (VDict m) = Ok compose ->
      docker_item "compose_path" m = Ok (VStr path) ->
      write_file path compose 420 w = (w1, t1, Ok tt) ->
      r = Err TypeError /\ w' = w1 /\
      files w' !! path = Some (compose, 420)).
Proof.
  intros Hproj Hns H.
  assert (Hcmd : forall cp w0,
             Sh_run ext [VStr "sudo"; VStr "docker"; VStr "compose"; VStr "-f";
                         VStr cp; VStr "-p"; project; VStr "up"; VStr "-d"] w0
             = (w0, [], Err TypeError)).
  { intros cp w0. unfold Sh_run.
    destruct project; try reflexivity. exfalso. exact (Hns s eq_refl). }
  assert (Hnorun : forall path content mode,
             emits (fun e => forall argv, e <> ERun argv) (write_file path content mode)).
  { intros. unfold write_file.
    repeat first [ apply emits_bind; [| intros ?]
                 | apply emits_do_fs; discriminate
                 | apply emits_lift ]. }
  unfold docker_apply in H. split; [| split].
  - apply bind_inv in H as [(e & _ & ->) | (w1 & t1 & compose & t2 & _ & H & _)]; [eauto |].
    apply bind_inv in H as [(e & _ & ->) | (w2 & t3 & path & t4 & _ & H & _)]; [eauto |].
    apply bind_inv in H as [(e & _ & ->) | (w3 & t5 & [] & t6 & _ & H & _)]; [eauto |].
    rewrite Hproj, bind_lift_ok, Hcmd in H. injection H as _ _ <-. eauto.
  - revert H. generalize w w' evs r.
    change (emits (fun e => forall argv, e <> ERun argv)
              (compose <- render ext "docker/docker-compose.j2" m;;
               compose_path <- lift (let? p := docker_item "compose_path" m in as_str p)%res;;
               write_file compose_path compose 420;;
               project0 <- lift (docker_item "project" m);;
               Sh_run ext [VStr "sudo"; VStr "docker"; VStr "compose"; VStr "-f";
                           VStr compose_path; VStr "-p"; project0; VStr "up";
                           VStr "-d"])).
    apply emits_bind; [apply emits_render; discriminate | intros compose].
    apply emits_bind; [apply emits_lift | intros cp].
    apply emits_bind; [apply Hnorun | intros _].
    rewrite Hproj. intros w0 w0' t0 r0 H0.
    rewrite bind_lift_ok, Hcmd in H0. injection H0 as _ <- _. constructor.
  - intros compose path w1 t1 Hr Hp Hw.
    erewrite bind_ok in H; cycle 1.
    + unfold render. rewrite Hr. reflexivity.
    + rewrite Hp. cbn [rbind as_str]. rewrite bind_lift_ok.
      erewrite bind_ok; cycle 1.
      * exact Hw.
      * rewrite Hproj, bind_lift_ok. apply Hcmd.
      * reflexivity.
    + injection H as <- _ <-. repeat split; auto.
      apply write_file_returns in Hw as (_ & _ & Hf & _).
      rewrite Hf. apply lookup_insert_eq.
Qed.

Lemma docker_apply_project_not_a_string_witness :
  let m := [("name", VStr "shop"); ("kind", VStr "docker");
            ("docker", VDict [("compose_path", VStr "/srv/shop/docker-compose.yml");
                              ("project", VInt 2024)])] in
  let run := docker_apply Demo.host m Demo.empty_world in
  (exists e, snd run = Err e) /\
  Forall (fun e => forall argv, e <> ERun argv) (snd (fst run)) /\
  (forall compose path w1 t1,
      render_template Demo.host "docker/docker-compose.j2" (VDict m) = Ok compose ->
      docker_item "compose_path" m = Ok (VStr path) ->
      write_file path compose 420 Demo.empty_world = (w1, t1, Ok tt) ->
      snd run = Err TypeError /\ fst (fst run) = w1 /\
      files (fst (fst run)) !! path = Some (compose, 420)).
Proof.
  intros m run.
  apply (docker_apply_project_not_a_string Demo.host m (VInt 2024)
           Demo.empty_world (fst (fst run)) (snd (fst run)) (snd run)).
  - reflexivity.
  - discriminate.
  - vm_compute. reflexivity.
Defined.

(** ** More on the code deployer *)

(** X9. For a manifest without [scm] the deployer never returns
    normally and never starts a command: once the working directory has
    been created it stops on the unassigned variable [branch], and the
    directory creation is its only effect. *)
Theorem deploy_code_without_source
    (ext : Ext) (m : dict) (w w' : World) (evs : list event) (r : res unit) :
  dict_has "scm" m = false ->
  deploy_code ext m w = (w', evs, r) ->
  (exists e, r = Err e) /\
  Forall (fun e => forall argv, e <> ERun argv) evs /\
  (forall wd w1,
      working_dir m = Ok wd -> fs_step (EMkdir wd) w = Ok w1 ->
      w' = w1 /\ evs = [EMkdir wd] /\ r = Err (UnboundLocalError "branch")).
Proof.
  intros Hscm H. unfold deploy_code in H. rewrite Hscm in H.
  apply bind_inv in H as [(e & H & ->) | (w0 & t0 & wd & t & Hwd & H & ->)].
  { apply lift_inv in H as (-> & -> & He).
    split; [eauto |]. split; [constructor |].
    intros wd w1 Hwd. rewrite Hwd in He. discriminate He. }
  apply lift_inv in Hwd as (-> & -> & Hwd).
  apply bind_inv in H as [(e & H & ->) | (w1 & t1 & [] & t2 & H1 & H & ->)].
  { apply do_fs_inv in H as (-> & [(_ & [=]) | (x & Hx & -> & _)]).
    split; [eauto |]. split; [repeat constructor; discriminate |].
    intros wd' w1 Hwd' Hmk. rewrite Hwd in Hwd'. injection Hwd' as <-.
    rewrite Hx in Hmk. discriminate Hmk. }
  apply do_fs_inv in H1 as (-> & [(Hmk & _) | (x & _ & _ & [=])]).
  apply bind_inv in H as [(e & H & ->) | (w2 & t3 & [] & t4 & H2 & _ & _)];
    [| discriminate H2].
  injection H as <- <- <-.
  split; [eauto |]. split; [repeat constructor; discriminate |].
  intros wd' w1' Hwd' Hmk'. rewrite Hwd in Hwd'. injection Hwd' as <-.
  rewrite Hmk in Hmk'. injection Hmk' as <-. auto.
Qed.

Lemma deploy_code_without_source_witness :
  let m := [("name", VStr "api"); ("kind", VStr "fastapi")] in
  let run := deploy_code Demo.host m Demo.empty_world in
  (exists e, snd run = Err e) /\
  Forall (fun e => forall argv, e <> ERun argv) (snd (fst run)) /\
  (forall wd w1,
      working_dir m = Ok wd -> fs_step (EMkdir wd) Demo.empty_world = Ok w1 ->
      fst (fst run) = w1 /\ snd (fst run) = [EMkdir wd] /\
      snd run = Err (UnboundLocalError "branch")).
Proof.
  intros m run.
  apply (deploy_code_without_source Demo.host m Demo.empty_world
           (fst (fst run)) (snd (fst run)) (snd run)).
  - reflexivity.
  - vm_compute. reflexivity.
Defined.






(** ** The health check *)

(** X12. The health check never fails an apply: once the branch of the
    kind and the certification have succeeded, and [healthcheck] is
    absent or a mapping, [apply] returns normally and exits with status
    0 whatever the probe returns or raises; the probe is a single GET
    with the configured timeout, 5 by default, followed by one line of
    output, and is skipped when no [url] is set. *)
Theorem health_probe_never_fails_apply
    (ext : Ext) (m m' : dict) (kind : value) (w w1 w2 : World)
    (e1 e2 : list event) :
  dict_get "kind" m = Some kind ->
  converge ext kind m w = (w1, e1, Ok m') ->
  certify ext m' w1 = (w2, e2, Ok tt) ->
  optional_record "healthcheck" m' ->
  exists e3,
    apply_manifest ext m w = (w2, e1 ++ e2 ++ e3, Ok tt) /\
    exit_code (snd (apply_manifest ext m w)) = 0 /\
    (e3 = [] \/
     exists url timeout line,
       get_or "url" VNone (dict_get_or "healthcheck" (VDict []) m') = Ok url /\
       truthy url = true /\
       get_or "timeout" (VInt 5) (dict_get_or "healthcheck" (VDict []) m')
         = Ok timeout /\
       e3 = [EGet url timeout; EEcho line]).
Proof.
  intros Hkind Hconv Hcert Hopt.
  assert (Hh : exists e3,
             healthcheck ext m' w2 = (w2, e3, Ok tt) /\
             (e3 = [] \/
              exists url timeout line,
                get_or "url" VNone (dict_get_or "healthcheck" (VDict []) m') = Ok url /\
                truthy url = true /\
                get_or "timeout" (VInt 5) (dict_get_or "healthcheck" (VDict []) m')
                  = Ok timeout /\
                e3 = [EGet url timeout; EEcho line])).
  { unfold healthcheck. cbv zeta.
    assert (exists h, dict_get_or "healthcheck" (VDict []) m' = VDict h) as (h & Hd).
    { unfold optional_record in Hopt. unfold dict_get_or.
      destruct (dict_get "healthcheck" m') as [[] |]; try contradiction; eauto. }
    rewrite Hd. cbn [get_or]. rewrite bind_lift_ok.
    destruct (truthy (dict_get_or "url" VNone h)) eqn:Hurl.
    - rewrite bind_lift_ok.
      destruct (requests_get ext (dict_get_or "url" VNone h)
                  (dict_get_or "timeout" (VInt 5) h) w2) as [code | msg];
        eexists; (split; [reflexivity |]); right;
        do 3 eexists; (split; [reflexivity |]); (split; [exact Hurl |]);
        split; reflexivity.
    - exists []. split; [reflexivity | auto]. }
  destruct Hh as (e3 & Hrun & Hshape). exists e3.
  assert (Happ : apply_manifest ext m w = (w2, e1 ++ e2 ++ e3, Ok tt)).
  { unfold apply_manifest.
    rewrite (dict_item_some _ _ _ Hkind), bind_lift_ok.
    erewrite bind_ok; cycle 1.
    - exact Hconv.
    - eapply bind_ok; [exact Hcert | exact Hrun].
    - reflexivity. }
  split; [exact Happ |]. split; [rewrite Happ; reflexivity | exact Hshape].
Qed.

(** An unreachable health URL on the demonstration host, whose probe
    answers: the apply of the static site still ends with status 0. *)
Lemma health_probe_never_fails_apply_witness :
  let m := dict_set "healthcheck"
             (VDict [("url", VStr "http://unreachable.example.org/health")])
             Demo.static_site in
  let run1 := converge Demo.host (VStr "flutter") m Demo.empty_world in
  exists e3,
    apply_manifest Demo.host m Demo.empty_world
      = (fst (fst run1), snd (fst run1) ++ [] ++ e3, Ok tt) /\
    exit_code (snd (apply_manifest Demo.host m Demo.empty_world)) = 0 /\
    (e3 = [] \/
     exists url timeout line,
       get_or "url" VNone (dict_get_or "healthcheck" (VDict []) m) = Ok url /\
       truthy url = true /\
       get_or "timeout" (VInt 5) (dict_get_or "healthcheck" (VDict []) m)
         = Ok timeout /\
       e3 = [EGet url timeout; EEcho line]).
Proof.
  intros m run1.
  apply (health_probe_never_fails_apply Demo.host m m (VStr "flutter")
           Demo.empty_world (fst (fst run1)) (fst (fst run1)) (snd (fst run1)) []).
  - reflexivity.
  - vm_compute. reflexivity.
  - vm_compute. reflexivity.
  - exact Logic.I.
Defined.

(** ** The status report *)

Lemma load_manifest_silent (ext : Ext) (p : string) (w w' : World) t (r : res dict) :
  load_manifest ext p w = (w', t, r) -> w' = w /\ t = [].
Proof.
  unfold load_manifest, read_text. intros H.
  apply bind_inv in H as [(e & H & _) | (w1 & t1 & text & t2 & H1 & H & ->)].
  { cbv beta in H. destruct (files w !! p) as [[text md] |];
      injection H as <- <- _; auto. }
  cbv beta in H1. destruct (files w !! p) as [[text0 md] |]; [| discriminate H1].
  injection H1 as <- <- _.
  apply bind_inv in H as [(e & H & _) | (w2 & t3 & data & t4 & H1 & H & ->)].
  - apply lift_inv in H as (-> & -> & _). auto.
  - apply lift_inv in H1 as (-> & -> & _).
    destruct data; injection H as <- <- _; auto.
Qed.

Lemma emits_load_manifest (ext : Ext) (P : event -> Prop) (p : string) :
  emits P (load_manifest ext p).
Proof.
  intros w w' t r H. apply load_manifest_silent in H as (_ & ->). constructor.
Qed.

Lemma guarded_load_manifest (ext : Ext) (I : World -> Prop) (P : event -> Prop)
      (p : string) :
  guarded I P (load_manifest ext p).
Proof.
  intros w w' t r H _ HI. apply load_manifest_silent in H as (-> & _). exact HI.
Qed.

Lemma emits_subprocess_call (ext : Ext) (P : event -> Prop) (argv : list string) :
  P (ERun argv) -> emits P (subprocess_call ext argv).
Proof.
  intros HP w w' t r H. unfold subprocess_call in H.
  destruct (spawn ext argv w) as [w1 [rc |]]; injection H as _ <- _; auto.
Qed.

Lemma guarded_subprocess_call (ext : Ext) (I : World -> Prop) (P : event -> Prop)
      (argv : list string) :
  (forall argv w, P (ERun argv) -> I w -> I (fst (spawn ext argv w))) ->
  guarded I P (subprocess_call ext argv).
Proof.
  intros P_run w w' t r H HP HI. unfold subprocess_call in H.
  specialize (P_run argv w).
  destruct (spawn ext argv w) as [w1 [rc |]]; injection H as <- <- _;
    apply P_run; auto; exact (Forall_inv HP).
Qed.

Lemma emits_status_one (ext : Ext) (name path : string) :
  emits status_event (status_one ext name path).
Proof.
  unfold status_one, py_print.
  apply emits_bind; [apply emits_load_manifest | intros m].
  apply emits_bind; [apply emits_lift | intros skip].
  destruct skip; [apply emits_ret |].
  apply emits_bind; [apply emits_lift | intros app].
  apply emits_bind; [apply emits_lift | intros app_s].
  apply emits_bind; [apply emits_lift | intros fqdn].
  apply emits_bind; [apply emits_lift | intros kind].
  apply emits_bind; [apply emits_echo; exact Logic.I | intros _].
  apply emits_bind; [intros w w' t r [= _ <- _]; constructor | intros site].
  apply emits_bind; [apply emits_echo; exact Logic.I | intros _].
  apply emits_bind; [| intros _].
  { destruct (eq_str kind "fastapi" || eq_str kind "streamlit"); [| apply emits_ret].
    apply emits_bind; [| intros rc; apply emits_echo; exact Logic.I].
    apply emits_subprocess_call. right. eauto. }
  apply emits_bind; [| intros _].
  { destruct (eq_str kind "docker"); [| apply emits_ret].
    apply emits_bind; [| intros _; apply emits_ret].
    apply emits_subprocess_call. left. reflexivity. }
  unfold status_health.
  apply emits_bind; [apply emits_lift | intros url].
  destruct (truthy url); [| apply emits_ret].
  intros w w' t r H.
  destruct (requests_get ext url (VInt 3) w); injection H as _ <- _;
    repeat constructor.
Qed.

Lemma guarded_status_one (ext : Ext) (I : World -> Prop) (P : event -> Prop)
      (name path : string) :
  (forall argv w, P (ERun argv) -> I w -> I (fst (spawn ext argv w))) ->
  guarded I P (status_one ext name path).
Proof.
  intros P_run. unfold status_one, py_print, echo.
  apply guarded_bind; [apply guarded_load_manifest | intros m].
  apply guarded_bind; [apply guarded_lift | intros skip].
  destruct skip; [apply guarded_ret |].
  apply guarded_bind; [apply guarded_lift | intros app].
  apply guarded_bind; [apply guarded_lift | intros app_s].
  apply guarded_bind; [apply guarded_lift | intros fqdn].
  apply guarded_bind; [apply guarded_lift | intros kind].
  apply guarded_bind; [apply guarded_state | intros _].
  apply guarded_bind; [apply guarded_state | intros site].
  apply guarded_bind; [apply guarded_state | intros _].
  apply guarded_bind; [| intros _].
  { destruct (eq_str kind "fastapi" || eq_str kind "streamlit"); [| apply guarded_ret].
    apply guarded_bind; [| intros rc; apply guarded_state].
    apply guarded_subprocess_call, P_run. }
  apply guarded_bind; [| intros _].
  { destruct (eq_str kind "docker"); [| apply guarded_ret].
    apply guarded_bind; [| intros _; apply guarded_ret].
    apply guarded_subprocess_call, P_run. }
  unfold status_health.
  apply guarded_bind; [apply guarded_lift | intros url].
  destruct (truthy url); [| apply guarded_ret].
  intros w w' t r H _ HI.
  destruct (requests_get ext url (VInt 3) w); injection H as <- _ _; exact HI.
Qed.

(** X13. [status] only observes.  Whatever the manifests and whether it
    returns or stops on an error, all it does is print, send the health
    GET with a timeout of 3, and run [systemctl is-active --quiet <unit>]
    and [docker ps]: it renders nothing, writes, creates or renames
    nothing, and runs no other command.  When the commands of a run leave
    the host as it is, so does the run. *)
Theorem status_only_observes
    (ext : Ext) (name : string) (w w' : World) (evs : list event) (r : res unit) :
  status ext name w = (w', evs, r) ->
  Forall status_event evs /\
  ((forall argv, In (ERun argv) evs -> forall w0, fst (spawn ext argv w0) = w0) ->
   w' = w).
Proof.
  unfold status. intros H. split.
  - refine ((_ : emits status_event _) _ _ _ _ H).
    apply emits_for_each. intros p. apply emits_status_one.
  - intros Hcmd.
    apply (Forall_commands (fun argv => forall w0, fst (spawn ext argv w0) = w0))
      in Hcmd.
    refine ((_ : guarded (fun x => x = w)
                   (fun e => forall argv, e = ERun argv ->
                                          forall w0, fst (spawn ext argv w0) = w0) _)
              _ _ _ _ H Hcmd eq_refl).
    apply guarded_for_each. intros p. apply guarded_status_one.
    intros argv w0 HP ->. exact (HP argv eq_refl w).
Qed.

Lemma status_only_observes_witness :
  let w := Demo.world_with "/opt/publisher/apps/site.yml"
             ("name: site" +:+ newline +:+ "kind: fastapi" +:+ newline
              +:+ "fqdn: example.org") in
  let run := status Demo.host "" w in
  Forall status_event (snd (fst run)) /\
  ((forall argv, In (ERun argv) (snd (fst run)) ->
                 forall w0, fst (spawn Demo.host argv w0) = w0) ->
   fst (fst run) = w).
Proof.
  intros w run.
  apply (status_only_observes Demo.host "" w (fst (fst run)) (snd (fst run)) (snd run)).
  vm_compute. reflexivity.
Defined.

(** X14. Asking [status] for an application that no manifest names
    prints nothing, runs nothing and succeeds: when a name is given,
    every manifest in the applications directory loads and each has
    another [name], the report is empty. *)
Theorem status_unknown_name (ext : Ext) (name : string) (w : World) :
  name <> "" ->
  (forall p, In p (glob_yml "/opt/publisher/apps" w) ->
     exists d n,
       load_manifest ext p w = (w, [], Ok d) /\
       dict_get "name" d = Some n /\ eq_str n name = false) ->
  status ext name w = (w, [], Ok tt).
Proof.
  intros Hname Hall. unfold status.
  induction (glob_yml "/opt/publisher/apps" w) as [| p l IH]; [reflexivity |].
  change (for_each (p :: l) (status_one ext name) w)
    with ((status_one ext name p;; for_each l (status_one ext name)) w).
  erewrite bind_ok; cycle 1.
  - destruct (Hall p (or_introl eq_refl)) as (d & n & Hload & Hn & Hneq).
    unfold status_one. erewrite bind_ok; cycle 1.
    + exact Hload.
    + destruct (String.eqb_spec name "") as [-> | _]; [contradiction |].
      cbn [negb]. rewrite (dict_item_some _ _ _ Hn). cbn [rbind].
      rewrite Hneq. cbn [negb]. rewrite bind_lift_ok. reflexivity.
    + reflexivity.
  - apply IH. intros q Hq. apply Hall. right. exact Hq.
  - reflexivity.
Qed.

Lemma status_unknown_name_witness :
  let w := Demo.world_with "/opt/publisher/apps/site.yml"
             ("name: site" +:+ newline +:+ "kind: fastapi" +:+ newline
              +:+ "fqdn: example.org") in
  status Demo.host "shop" w = (w, [], Ok tt).
Proof.
  intros w.
  apply (status_unknown_name Demo.host "shop" w).
  - discriminate.
  - intros p Hin. vm_compute in Hin. destruct Hin as [<- | []].
    eexists. exists (VStr "site"). split; [vm_compute; reflexivity |].
    split; reflexivity.
Defined.

(** ** The manifest builder *)

Lemma supported_kind_cases (kind : string) :
  supported_kind (VStr kind) = true ->
  kind = "fastapi" \/ kind = "streamlit" \/ kind = "flutter" \/ kind = "docker".
Proof.
  unfold supported_kind, eq_str. intros H.
  repeat (apply orb_prop in H as [H | H]);
    apply String.eqb_eq in H; auto.
Qed.

(** X15. Every manifest the builder makes for one of its four kinds can
    be dispatched by [apply]: it carries the kind, the sub-record that
    the kind cannot do without, a source record (so the deployer never
    reaches its unassigned [branch]), a proxy record and the request for
    a certificate. *)
Theorem new_manifest_complete (kind name fqdn : string) :
  supported_kind (VStr kind) = true ->
  dict_get "kind" (new_manifest kind name fqdn) = Some (VStr kind) /\
  dict_get "name" (new_manifest kind name fqdn) = Some (VStr name) /\
  dict_get "fqdn" (new_manifest kind name fqdn) = Some (VStr fqdn) /\
  (exists sub, required_subrecord (VStr kind) = Some sub /\
               dict_has sub (new_manifest kind name fqdn) = true) /\
  dict_has "scm" (new_manifest kind name fqdn) = true /\
  dict_has "apache" (new_manifest kind name fqdn) = true /\
  truthy (dict_get_or "ssl" VNone (new_manifest kind name fqdn)) = true.
Proof.
  intros H.
  destruct (supported_kind_cases _ H) as [-> | [-> | [-> | ->]]];
    repeat split; try reflexivity; eexists; split; reflexivity.
Qed.

Lemma new_manifest_complete_witness :
  dict_get "kind" (new_manifest "docker" "shop" "shop.example.org")
    = Some (VStr "docker") /\
  dict_get "name" (new_manifest "docker" "shop" "shop.example.org")
    = Some (VStr "shop") /\
  dict_get "fqdn" (new_manifest "docker" "shop" "shop.example.org")
    = Some (VStr "shop.example.org") /\
  (exists sub, required_subrecord (VStr "docker") = Some sub /\
               dict_has sub (new_manifest "docker" "shop" "shop.example.org") = true) /\
  dict_has "scm" (new_manifest "docker" "shop" "shop.example.org") = true /\
  dict_has "apache" (new_manifest "docker" "shop" "shop.example.org") = true /\
  truthy (dict_get_or "ssl" VNone (new_manifest "docker" "shop" "shop.example.org"))
    = true.
Proof.
  apply (new_manifest_complete "docker" "shop" "shop.example.org"). reflexivity.
Defined.

(** X16. The container stack that the builder describes is proxied to
    127.0.0.1:9000: for any name and domain, when [int] reads [9000] as a
    number, the endpoint resolution of [apply] succeeds on the built
    manifest and the proxy is rendered from the template
    [apache/docker.conf.j2] with that host and that port, the default
    document root and the name as log prefix. *)
Theorem new_manifest_docker_proxy (ext : Ext) (name fqdn : string) (port : Z) :
  int_of_str ext "9000" = Some port ->
  exists m',
    resolve_backend ext (new_manifest "docker" name fqdn) = Ok m' /\
    apache_render_args ext m'
    = Ok ("apache/docker.conf.j2",
          [("fqdn", VStr fqdn); ("backend_host", VStr "127.0.0.1");
           ("backend_port", VInt port); ("docroot", VStr "/var/www/html");
           ("log_prefix", VStr name)]).
Proof.
  intros Hint. eexists. split.
  - unfold resolve_backend. cbn. rewrite Hint. cbn. reflexivity.
  - reflexivity.
Qed.

Lemma new_manifest_docker_proxy_witness :
  exists m',
    resolve_backend Demo.host (new_manifest "docker" "shop" "shop.example.org")
      = Ok m' /\
    apache_render_args Demo.host m'
    = Ok ("apache/docker.conf.j2",
          [("fqdn", VStr "shop.example.org"); ("backend_host", VStr "127.0.0.1");
           ("backend_port", VInt 9000); ("docroot", VStr "/var/www/html");
           ("log_prefix", VStr "shop")]).
Proof.
  apply (new_manifest_docker_proxy Demo.host "shop" "shop.example.org" 9000).
  reflexivity.
Defined.

(** X17. The native service that the builder describes is consistent
    across the deployer, the unit and the proxy: for [fastapi] and
    [streamlit] alike the code is deployed to [/srv/name], the unit
    [name.service] runs there from the template of the kind with the
    module [main:app], and the proxy forwards to 127.0.0.1 at the very
    port the unit is rendered with, 8000 for [fastapi] and 8501 for
    [streamlit]. *)
Theorem new_manifest_native_consistent (ext : Ext) (kind name fqdn : string) :
  kind = "fastapi" \/ kind = "streamlit" ->
  let m := new_manifest kind name fqdn in
  let port := if String.eqb kind "fastapi" then 8000 else 8501 in
  working_dir m = Ok ("/srv/" +:+ name) /\
  systemd_render_args ext m
  = Ok (name +:+ ".service", "systemd/" +:+ kind +:+ ".service.j2",
        [("user", VStr "ubuntu"); ("group", VStr "ubuntu");
         ("workdir", VStr ("/srv/" +:+ name));
         ("uvicorn_module", VStr "main:app"); ("uvicorn_args", VStr "");
         ("venv", VStr ("/srv/" +:+ name +:+ "/.venv")); ("cmd", VStr "");
         ("port", VInt port)]) /\
  apache_render_args ext m
  = Ok ("apache/" +:+ kind +:+ ".conf.j2",
        [("fqdn", VStr fqdn); ("backend_host", VStr "127.0.0.1");
         ("backend_port", VInt port); ("docroot", VStr "/var/www/html");
         ("log_prefix", VStr name)]).
Proof.
  intros [-> | ->]; repeat split; reflexivity.
Qed.

Lemma new_manifest_native_consistent_witness :
  let m := new_manifest "streamlit" "board" "board.example.org" in
  let port := if String.eqb "streamlit" "fastapi" then 8000 else 8501 in
  working_dir m = Ok ("/srv/" +:+ "board") /\
  systemd_render_args Demo.host m
  = Ok ("board" +:+ ".service", "systemd/" +:+ "streamlit" +:+ ".service.j2",
        [("user", VStr "ubuntu"); ("group", VStr "ubuntu");
         ("workdir", VStr ("/srv/" +:+ "board"));
         ("uvicorn_module", VStr "main:app"); ("uvicorn_args", VStr "");
         ("venv", VStr ("/srv/" +:+ "board" +:+ "/.venv")); ("cmd", VStr "");
         ("port", VInt port)]) /\
  apache_render_args Demo.host m
  = Ok ("apache/" +:+ "streamlit" +:+ ".conf.j2",
        [("fqdn", VStr "board.example.org"); ("backend_host", VStr "127.0.0.1");
         ("backend_port", VInt port); ("docroot", VStr "/var/www/html");
         ("log_prefix", VStr "board")]).
Proof.
  apply (new_manifest_native_consistent Demo.host "streamlit" "board"
           "board.example.org").
  right. reflexivity.
Defined.

(** X18. The static site that the builder describes is served from
    [/var/www/name]: that is the directory [apply] creates for it and the
    document root the proxy is rendered with, from the template
    [apache/flutter.conf.j2]. *)
Theorem new_manifest_static_docroot (ext : Ext) (name fqdn : string) :
  document_root (new_manifest "flutter" name fqdn) = Ok ("/var/www/" +:+ name) /\
  apache_render_args ext (new_manifest "flutter" name fqdn)
  = Ok ("apache/flutter.conf.j2",
        [("fqdn", VStr fqdn); ("backend_host", VStr "127.0.0.1");
         ("backend_port", VInt 8000);
         ("docroot", VStr ("/var/www/" +:+ name));
         ("log_prefix", VStr name)]).
Proof. split; reflexivity. Qed.

(** *** Where the builder writes *)

Lemma no_slash_app (a b : string) :
  no_slash (a +:+ b) = no_slash a && no_slash b.
Proof.
  induction a as [| c a IH]; [reflexivity |].
  rewrite append_cons. simpl. rewrite IH. apply andb_assoc.
Qed.

Lemma no_slash_relative (f : string) : no_slash f = true -> is_absolute f = false.
Proof.
  destruct f as [| c f]; [reflexivity |]. simpl.
  destruct (Ascii.eqb c "/"); [discriminate | reflexivity].
Qed.

Lemma no_slash_ancestors (pre f : string) :
  no_slash f = true -> ancestors_from pre f = [].
Proof.
  revert pre. induction f as [| c f IH]; intros pre H; [reflexivity |].
  simpl in *. destruct (Ascii.eqb c "/"); [discriminate |]. apply IH, H.
Qed.

Lemma parent_entry (dir f : string) :
  dir <> "" -> no_slash f = true -> parent (dir +:+ "/" +:+ f) = dir.
Proof.
  intros Hdir Hf. unfold parent, ancestors.
  rewrite ancestors_from_app. change ("/" +:+ f) with (String "/" f).
  simpl ancestors_from at 2. rewrite append_nil_l.
  destruct (String.eqb_spec dir "") as [-> | _]; [contradiction |].
  rewrite (no_slash_ancestors _ _ Hf). simpl app at 2.
  apply last_last.
Qed.

Lemma split_on_no_slash (f : string) :
  no_slash f = true -> split_on "/" f = [f].
Proof.
  induction f as [| c f IH]; [reflexivity |]. simpl.
  destruct (Ascii.eqb c "/"); [discriminate |]. intros H. rewrite (IH H). reflexivity.
Qed.

Lemma split_on_nonempty (sep : ascii) (s : string) : split_on sep s <> [].
Proof.
  destruct s as [| c s]; simpl; [discriminate |].
  destruct (Ascii.eqb c sep); [discriminate |].
  destruct (split_on sep s); discriminate.
Qed.

Lemma split_on_app (sep : ascii) (a b : string) :
  split_on sep (a +:+ String sep b) = split_on sep a ++ split_on sep b.
Proof.
  induction a as [| c a IH].
  - rewrite append_nil_l. simpl. rewrite Ascii.eqb_refl. reflexivity.
  - rewrite append_cons. simpl. rewrite IH.
    destruct (Ascii.eqb c sep); [reflexivity |].
    destruct (split_on sep a) as [| x l] eqn:E;
      [destruct (split_on_nonempty _ _ E) | reflexivity].
Qed.

Lemma last_app_nonempty {A : Type} (l1 l2 : list A) (d : A) :
  l2 <> [] -> List.last (l1 ++ l2) d = List.last l2 d.
Proof.
  intros Hne. induction l1 as [| x l1 IH]; [reflexivity |].
  simpl. destruct (l1 ++ l2) eqn:E; [| exact IH].
  destruct l1; [simpl in E; contradiction | discriminate].
Qed.

Lemma name_of_entry (dir f : string) :
  is_absolute dir = true -> no_slash f = true ->
  name_of (dir +:+ "/" +:+ f) = f.
Proof.
  intros Hdir Hf. unfold name_of.
  assert (Hdot : String.eqb (dir +:+ "/" +:+ f) "." = false).
  { destruct dir as [| c dir]; [discriminate |].
    simpl in Hdir. apply Ascii.eqb_eq in Hdir as ->. reflexivity. }
  rewrite Hdot. change ("/" +:+ f) with (String "/" f).
  rewrite split_on_app, last_app_nonempty by apply split_on_nonempty.
  rewrite (split_on_no_slash _ Hf). reflexivity.
Qed.

Lemma ends_with_app (suffix a : string) : ends_with suffix (a +:+ suffix) = true.
Proof.
  induction a as [| c a IH].
  - rewrite append_nil_l. destruct suffix; simpl; rewrite ?Ascii.eqb_refl, ?String.eqb_refl; reflexivity.
  - rewrite append_cons. simpl. rewrite IH. apply orb_true_r.
Qed.

Lemma manifest_path_join (name : string) :
  no_slash name = true ->
  path_join APPS (name +:+ ".yml") = APPS +:+ "/" +:+ name +:+ ".yml".
Proof.
  intros Hn. unfold path_join.
  rewrite no_slash_relative; [reflexivity |].
  rewrite no_slash_app, Hn. reflexivity.
Qed.

Lemma manifest_parent (name : string) :
  no_slash name = true -> parent (APPS +:+ "/" +:+ name +:+ ".yml") = APPS.
Proof.
  intros Hn. apply parent_entry; [discriminate |].
  rewrite no_slash_app, Hn. reflexivity.
Qed.

Lemma glob_yml_In (dir p : string) (w : World) :
  In p (glob_yml dir w) <->
  matches_yml dir p = true /\ (is_Some (files w !! p) \/ p ∈ dirs w).
Proof.
  unfold glob_yml.
  rewrite <- list_elem_of_In, merge_sort_Permutation, list_elem_of_In.
  rewrite filter_In, in_app_iff, <- !list_elem_of_In.
  rewrite list_elem_of_fmap, elem_of_elements.
  split.
  - intros [Hin Hm]. split; [exact Hm |].
    destruct Hin as [([q f] & -> & Hq) | Hd]; [left | right; exact Hd].
    apply elem_of_map_to_list in Hq. simpl. eauto.
  - intros [Hm Hin]. split; [| exact Hm].
    destruct Hin as [[f Hf] | Hd]; [left | right; exact Hd].
    exists (p, f). split; [reflexivity |]. apply elem_of_map_to_list, Hf.
Qed.

Lemma manifest_ancestors (name : string) :
  no_slash name = true ->
  ancestors (APPS +:+ "/" +:+ name +:+ ".yml") = ["/opt"; "/opt/publisher"; APPS].
Proof.
  intros Hn.
  assert (Hf : no_slash (name +:+ ".yml") = true)
    by (rewrite no_slash_app, Hn; reflexivity).
  unfold ancestors. rewrite ancestors_from_app.
  change ("/" +:+ name +:+ ".yml") with (String "/" (name +:+ ".yml")).
  simpl ancestors_from at 2.
  rewrite (no_slash_ancestors _ _ Hf). reflexivity.
Qed.

Lemma file_in_the_way (w : World) (l : list string) :
  existsb (fun q => bool_decide (is_Some (files w !! q))) l = true <->
  exists q, In q l /\ is_Some (files w !! q).
Proof.
  rewrite existsb_exists. split; intros (q & Hq & H); exists q; split; auto.
  - apply bool_decide_eq_true in H. exact H.
  - apply bool_decide_eq_true. exact H.
Qed.

(** X19. The builder does not create the directory of the manifests: on
    a host where [/opt/publisher/apps] is not a directory the button
    fails at its single write, announces nothing and leaves the host as
    it was.  The error is [FileNotFoundError] when no regular file stands
    at [/opt], [/opt/publisher] or [/opt/publisher/apps], and
    [NotADirectoryError] when one does. *)
Theorem create_manifest_needs_apps_dir
    (dump : value -> string) (kind name fqdn : string) (w : World) :
  no_slash name = true ->
  APPS ∉ dirs w ->
  files w !! (APPS +:+ "/" +:+ name +:+ ".yml") = None ->
  (APPS +:+ "/" +:+ name +:+ ".yml") ∉ dirs w ->
  exists e,
    create_manifest dump kind name fqdn w
    = (w, [EWriteText (APPS +:+ "/" +:+ name +:+ ".yml")
             (dump (VDict (new_manifest kind name fqdn)))],
       Err e) /\
    ((forall q, In q ["/opt"; "/opt/publisher"; APPS] -> files w !! q = None) ->
     e = FileNotFoundError (APPS +:+ "/" +:+ name +:+ ".yml")) /\
    ((exists q, In q ["/opt"; "/opt/publisher"; APPS] /\ is_Some (files w !! q)) ->
     e = NotADirectoryError (APPS +:+ "/" +:+ name +:+ ".yml")).
Proof.
  intros Hn Happs Hfile Hdir.
  exists (missing_parent_error w (APPS +:+ "/" +:+ name +:+ ".yml")). split.
  - unfold create_manifest. rewrite (manifest_path_join _ Hn).
    apply bind_err. unfold do_fs, fs_step.
    rewrite (bool_decide_eq_false_2 _ Hdir), Hfile, (manifest_parent _ Hn).
    unfold is_dir. rewrite (bool_decide_eq_false_2 _ Happs). reflexivity.
  - unfold missing_parent_error. rewrite (manifest_ancestors _ Hn).
    destruct (existsb _ _) eqn:E.
    + apply file_in_the_way in E as (q & Hq & Hsome). split; [| reflexivity].
      intros Hnone. rewrite (Hnone q Hq) in Hsome. destruct Hsome as [f Hf].
      discriminate Hf.
    + split; [reflexivity |]. intros Hex.
      apply file_in_the_way in Hex. rewrite Hex in E. discriminate E.
Qed.

Lemma create_manifest_needs_apps_dir_witness :
  let w := Demo.world_with "/opt/publisher" "not a directory" in
  exists e,
    create_manifest Demo.show "flutter" "shop" "shop.example.org" w
    = (w, [EWriteText (APPS +:+ "/" +:+ "shop" +:+ ".yml")
             (Demo.show (VDict (new_manifest "flutter" "shop" "shop.example.org")))],
       Err e) /\
    ((forall q, In q ["/opt"; "/opt/publisher"; APPS] -> files w !! q = None) ->
     e = FileNotFoundError (APPS +:+ "/" +:+ "shop" +:+ ".yml")) /\
    ((exists q, In q ["/opt"; "/opt/publisher"; APPS] /\ is_Some (files w !! q)) ->
     e = NotADirectoryError (APPS +:+ "/" +:+ "shop" +:+ ".yml")).
Proof.
  intros w.
  apply (create_manifest_needs_apps_dir Demo.show "flutter" "shop"
           "shop.example.org" w).
  - reflexivity.
  - vm_compute. set_solver.
  - vm_compute. reflexivity.
  - vm_compute. set_solver.
Defined.

(** X20. A manifest that the builder has written is where [publishctl]
    looks for it: its path is among those [status] walks through, and
    [load_manifest] on that path returns whatever the YAML reader makes
    of the text the builder dumped, with the path recorded in it. *)
Theorem created_manifest_is_found
    (ext : Ext) (dump : value -> string) (kind name fqdn : string)
    (w w' : World) (evs : list event) :
  no_slash name = true ->
  create_manifest dump kind name fqdn w = (w', evs, Ok tt) ->
  In (APPS +:+ "/" +:+ name +:+ ".yml") (glob_yml "/opt/publisher/apps" w') /\
  forall d,
    yaml_safe_load ext (dump (VDict (new_manifest kind name fqdn))) = Ok (VDict d) ->
    load_manifest ext (APPS +:+ "/" +:+ name +:+ ".yml") w'
    = (w', [], Ok (dict_set "__manifest_path"
                     (VStr (APPS +:+ "/" +:+ name +:+ ".yml")) d)).
Proof.
  intros Hn H. unfold create_manifest in H.
  rewrite (manifest_path_join _ Hn) in H.
  set (out := APPS +:+ "/" +:+ name +:+ ".yml") in *.
  set (text := dump (VDict (new_manifest kind name fqdn))) in *.
  apply bind_inv_ok in H as (w1 & t1 & [] & t2 & Hw & He & ->).
  unfold echo in He. injection He as <- _.
  apply do_fs_inv in Hw as [_ [[Hw _] | (x & _ & _ & Hx)]]; [| discriminate].
  assert (Hfile : exists md, files w1 !! out = Some (text, md)).
  { simpl in Hw. destruct (bool_decide (out ∈ dirs w)); [discriminate |].
    destruct (files w !! out) as [[c md] |].
    - injection Hw as <-. exists md. simpl. apply lookup_insert_eq.
    - destruct (is_dir w (parent out)); [| discriminate].
      injection Hw as <-. exists default_mode. simpl. apply lookup_insert_eq. }
  destruct Hfile as [md Hfile]. split.
  - apply glob_yml_In. split; [| left; eauto].
    unfold matches_yml. subst out.
    rewrite (manifest_parent _ Hn).
    change (name +:+ ".yml") with (name +:+ ".yml").
    rewrite name_of_entry.
    + rewrite ends_with_app. reflexivity.
    + reflexivity.
    + rewrite no_slash_app, Hn. reflexivity.
  - intros d Hd. apply (load_manifest_ok ext out text md d w1 Hfile Hd).
Qed.

Lemma created_manifest_is_found_witness :
  let w := mkWorld ∅ {[ "/opt"; "/opt/publisher"; "/opt/publisher/apps" ]} [] in
  let run := create_manifest Demo.show "flutter" "shop" "shop.example.org" w in
  let out := APPS +:+ "/" +:+ "shop" +:+ ".yml" in
  let text := Demo.show (VDict (new_manifest "flutter" "shop" "shop.example.org")) in
  run = (run.1.1, run.1.2, Ok tt) /\
  In out (glob_yml "/opt/publisher/apps" run.1.1) /\
  forall d,
    yaml_safe_load Demo.host text = Ok (VDict d) ->
    load_manifest Demo.host out run.1.1
    = (run.1.1, [], Ok (dict_set "__manifest_path" (VStr out) d)).
Proof.
  intros w run out text.
  assert (Hrun : run = (run.1.1, run.1.2, Ok tt)) by (vm_compute; reflexivity).
  split; [exact Hrun |].
  exact (created_manifest_is_found Demo.host Demo.show "flutter" "shop"
           "shop.example.org" w run.1.1 run.1.2 eq_refl Hrun).
Defined.

(** ** The proxy applier and the certificate step *)

(** X21. When [apache_apply] returns, it has done exactly this, in this
    order: rendered the site from the template and context of the
    manifest, put the result at [/etc/apache2/sites-available/fqdn.conf]
    through [write_file] with mode 0644, enabled that site, and reloaded
    the server last. *)
Theorem apache_apply_steps
    (ext : Ext) (m : dict) (w w' : World) (evs : list event) :
  apache_apply ext m w = (w', evs, Ok tt) ->
  exists fqdn tpl ctx vhost,
    dict_get "fqdn" m = Some fqdn /\
    apache_render_args ext m = Ok (tpl, ctx) /\
    render_template ext tpl (VDict ctx) = Ok vhost /\
    let site := py_str ext fqdn +:+ ".conf" in
    let path := path_join "/etc/apache2/sites-available" site in
    evs = [ERender tpl (VDict ctx);
           EMkdir (parent path);
           EWriteText (path +:+ ".tmp") vhost;
           EChmod (path +:+ ".tmp") 420;
           EReplace (path +:+ ".tmp") path;
           ERun ["sudo"; "a2ensite"; site];
           ERun ["sudo"; "service"; "apache2"; "reload"]].
Proof.
  unfold apache_apply. intros H.
  apply bind_inv_ok in H as (w0 & t0 & [tpl ctx] & t & Ha & H & ->).
  apply lift_inv in Ha as (-> & -> & Hargs). cbn [fst snd] in H.
  apply bind_inv_ok in H as (w1 & t1 & vhost & t2 & Hr & H & ->).
  apply render_inv in Hr as (-> & -> & Hr).
  apply bind_inv_ok in H as (w2 & t3 & fqdn & t4 & Hf & H & ->).
  apply lift_inv in Hf as (-> & -> & Hf).
  apply bind_inv_ok in H as (w3 & t5 & [] & t6 & Hw & H & ->).
  apply write_file_returns in Hw as (-> & _).
  apply bind_inv_ok in H as (w4 & t7 & [] & t8 & H1 & H2 & ->).
  apply Sh_run_inv_ok in H1 as (argv1 & [= <-] & -> & _).
  apply Sh_run_inv_ok in H2 as (argv2 & [= <-] & -> & _).
  exists fqdn, tpl, ctx, vhost. repeat split; auto.
  unfold dict_item in Hf. destruct (dict_get "fqdn" m); [congruence | discriminate].
Qed.

Lemma apache_apply_steps_witness :
  let run := apache_apply Demo.host Demo.static_site Demo.empty_world in
  exists fqdn tpl ctx vhost,
    dict_get "fqdn" Demo.static_site = Some fqdn /\
    apache_render_args Demo.host Demo.static_site = Ok (tpl, ctx) /\
    render_template Demo.host tpl (VDict ctx) = Ok vhost /\
    let site := py_str Demo.host fqdn +:+ ".conf" in
    let path := path_join "/etc/apache2/sites-available" site in
    snd (fst run)
    = [ERender tpl (VDict ctx);
       EMkdir (parent path);
       EWriteText (path +:+ ".tmp") vhost;
       EChmod (path +:+ ".tmp") 420;
       EReplace (path +:+ ".tmp") path;
       ERun ["sudo"; "a2ensite"; site];
       ERun ["sudo"; "service"; "apache2"; "reload"]].
Proof.
  intros run.
  apply (apache_apply_steps Demo.host Demo.static_site Demo.empty_world
           (fst (fst run)) (snd (fst run))).
  vm_compute. reflexivity.
Defined.

(** *** No certificate without [ssl] *)

Ltac other_command :=
  let argv := fresh "argv" in
  let H := fresh "H" in
  intros argv H;
  apply all_str_head in H as (? & -> & H);
  try (apply all_str_head in H as (? & -> & H));
  intros (? & [=]).

Ltac no_certbot :=
  repeat first
    [ apply emits_lift
    | apply emits_ret
    | apply emits_raise
    | apply emits_do_fs; intros (? & [=])
    | apply emits_render; intros (? & [=])
    | apply emits_echo; intros (? & [=])
    | apply emits_Sh_run; other_command
    | apply emits_for_each; intros ?
    | apply emits_bind; [| intros ?] ].

Lemma write_file_no_certbot (path content : string) (mode : Z) :
  emits (fun e => ~ runs_certbot e) (write_file path content mode).
Proof. unfold write_file. no_certbot. Qed.

Lemma apache_apply_no_certbot (ext : Ext) (m : dict) :
  emits (fun e => ~ runs_certbot e) (apache_apply ext m).
Proof.
  unfold apache_apply.
  apply emits_bind; [apply emits_lift | intros args].
  apply emits_bind; [no_certbot | intros vhost].
  apply emits_bind; [apply emits_lift | intros fqdn].
  apply emits_bind; [apply write_file_no_certbot | intros _].
  no_certbot.
Qed.

Lemma systemd_apply_no_certbot (ext : Ext) (m : dict) :
  emits (fun e => ~ runs_certbot e) (systemd_apply ext m).
Proof.
  unfold systemd_apply.
  apply emits_bind; [apply emits_lift | intros args]. cbv zeta.
  apply emits_bind; [no_certbot | intros unit].
  apply emits_bind; [apply write_file_no_certbot | intros _].
  no_certbot.
Qed.

Lemma docker_apply_no_certbot (ext : Ext) (m : dict) :
  emits (fun e => ~ runs_certbot e) (docker_apply ext m).
Proof.
  unfold docker_apply.
  apply emits_bind; [no_certbot | intros compose].
  apply emits_bind; [apply emits_lift | intros compose_path].
  apply emits_bind; [apply write_file_no_certbot | intros _].
  no_certbot.
Qed.

Lemma deploy_code_no_certbot (ext : Ext) (m : dict) :
  emits (fun e => ~ runs_certbot e) (deploy_code ext m).
Proof.
  unfold deploy_code.
  apply emits_bind; [apply emits_lift | intros wd].
  apply emits_bind; [no_certbot | intros _].
  apply emits_bind; [| intros _].
  - destruct (dict_has "scm" m).
    + apply emits_bind; [apply emits_lift | intros scm].
      apply emits_bind; [apply emits_lift | intros repo].
      apply emits_bind; [apply emits_lift | intros branch].
      apply emits_bind; [intros w w' t r [= _ <- _]; constructor | intros checkout].
      destruct (negb checkout); no_certbot.
    + no_certbot.
  - no_certbot.
Qed.

Lemma dict_get_resolve_backend (ext : Ext) (k : string) (m m' : dict) :
  k <> "backend" -> resolve_backend ext m = Ok m' -> dict_get k m' = dict_get k m.
Proof.
  intros Hk H.
  apply resolve_backend_inv in H as (hp & host & port & n & backend & _ & _ & _ & ->).
  rewrite dict_get_set.
  destruct (String.eqb_spec k "backend"); [contradiction |].
  apply dict_get_setdefault_ne, Hk.
Qed.

Lemma converge_no_certbot (ext : Ext) (kind : value) (m : dict) :
  emits (fun e => ~ runs_certbot e) (converge ext kind m).
Proof.
  unfold converge.
  destruct (eq_str kind "fastapi" || eq_str kind "streamlit").
  { apply emits_bind; [apply deploy_code_no_certbot | intros _].
    apply emits_bind; [apply systemd_apply_no_certbot | intros _].
    apply emits_bind; [apply apache_apply_no_certbot | intros _].
    apply emits_ret. }
  destruct (eq_str kind "flutter").
  { apply emits_bind; [apply apache_apply_no_certbot | intros _]. no_certbot. }
  destruct (eq_str kind "docker"); [| no_certbot].
  apply emits_bind; [apply deploy_code_no_certbot | intros _].
  apply emits_bind; [apply docker_apply_no_certbot | intros _].
  destruct (dict_has "apache" m); [| apply emits_ret].
  apply emits_bind; [apply emits_lift | intros m'].
  apply emits_bind; [apply apache_apply_no_certbot | intros _].
  apply emits_ret.
Qed.

(** What [converge] hands on to the certificate step differs from the
    manifest at most in [backend]. *)
Lemma converge_keeps_keys (ext : Ext) (kind : value) (m m' : dict) w w' t :
  converge ext kind m w = (w', t, Ok m') ->
  forall k, k <> "backend" -> dict_get k m' = dict_get k m.
Proof.
  unfold converge. intros H k Hk.
  destruct (eq_str kind "fastapi" || eq_str kind "streamlit").
  { apply bind_inv_ok in H as (? & ? & ? & ? & _ & H & _).
    apply bind_inv_ok in H as (? & ? & ? & ? & _ & H & _).
    apply bind_inv_ok in H as (? & ? & ? & ? & _ & H & _).
    injection H as _ _ <-. reflexivity. }
  destruct (eq_str kind "flutter").
  { apply bind_inv_ok in H as (? & ? & ? & ? & _ & H & _).
    apply bind_inv_ok in H as (? & ? & ? & ? & _ & H & _).
    apply bind_inv_ok in H as (? & ? & ? & ? & _ & H & _).
    injection H as _ _ <-. reflexivity. }
  destruct (eq_str kind "docker").
  - apply bind_inv_ok in H as (? & ? & ? & ? & _ & H & _).
    apply bind_inv_ok in H as (? & ? & ? & ? & _ & H & _).
    destruct (dict_has "apache" m); [| injection H as _ _ <-; reflexivity].
    apply bind_inv_ok in H as (? & ? & m1 & ? & Hm & H & _).
    apply lift_inv in Hm as (_ & _ & Hm).
    apply bind_inv_ok in H as (? & ? & ? & ? & _ & H & _).
    injection H as _ _ <-. apply (dict_get_resolve_backend ext k m m1 Hk Hm).
  - apply bind_inv_ok in H as (? & ? & ? & ? & _ & H & _). discriminate H.
Qed.

Lemma healthcheck_no_certbot (ext : Ext) (m : dict) :
  emits (fun e => ~ runs_certbot e) (healthcheck ext m).
Proof.
  unfold healthcheck. cbv zeta.
  apply emits_bind; [apply emits_lift | intros url].
  destruct (truthy url); [| apply emits_ret].
  apply emits_bind; [apply emits_lift | intros timeout].
  intros w w' t r H.
  destruct (requests_get ext url timeout w); injection H as _ <- _;
    repeat constructor; intros (? & [=]).
Qed.

(** X22. Without a truthy [ssl] in the manifest, [apply] never runs the
    certificate client, whatever the kind and however the run ends: no
    step of the convergence is such a command, and the rewriting of
    [backend] in the [docker] branch does not touch [ssl]. *)
Theorem apply_without_ssl_never_certifies
    (ext : Ext) (m : dict) (w w' : World) (evs : list event) (r : res unit) :
  truthy (dict_get_or "ssl" VNone m) = false ->
  apply_manifest ext m w = (w', evs, r) ->
  Forall (fun e => ~ runs_certbot e) evs.
Proof.
  intros Hssl. revert w w' evs r.
  change (emits (fun e => ~ runs_certbot e) (apply_manifest ext m)).
  unfold apply_manifest.
  apply emits_bind; [apply emits_lift | intros kind].
  intros w w' t r H.
  apply bind_inv in H as [(e & H & _) | (w1 & t1 & m' & t2 & H1 & H & ->)].
  { exact (converge_no_certbot ext kind m _ _ _ _ H). }
  apply Forall_app. split; [exact (converge_no_certbot ext kind m _ _ _ _ H1) |].
  revert H. 
  refine ((_ : emits (fun e => ~ runs_certbot e) _) w1 w' t2 r).
  apply emits_bind; [| intros _; apply healthcheck_no_certbot].
  unfold certify, dict_get_or.
  rewrite (converge_keeps_keys _ _ _ _ _ _ _ H1 "ssl") by discriminate.
  unfold dict_get_or in Hssl. rewrite Hssl. apply emits_ret.
Qed.

Lemma apply_without_ssl_never_certifies_witness :
  let run := apply_manifest Demo.host Demo.container_stack Demo.empty_world in
  Forall (fun e => ~ runs_certbot e) (snd (fst run)).
Proof.
  intros run.
  apply (apply_without_ssl_never_certifies Demo.host Demo.container_stack
           Demo.empty_world (fst (fst run)) (snd (fst run)) (snd run)).
  - reflexivity.
  - vm_compute. reflexivity.
Defined.
